(** * EventPlanner_BE: booking availability, cost and transaction workflow

    A shallow embedding of the event booking core of the backend:
    [utils/validation.js], [utils/notification.js],
    [service/room.service.js], [service/event_service.service.js],
    [service/event.service.js] and [controller/eventController.js].

    Conventions of the embedding.
    - The relational store reached through Prisma is a record of tables,
      each table a list of rows in insertion order.
    - JavaScript numbers and DECIMAL columns are rationals ([Q]); instants
      ([Date]) are integers, milliseconds since the epoch.  A date field of a
      request is either absent or a parseable instant.  The program computes
      in binary doubles and its DECIMAL(10,2) columns keep two decimals, so
      the exact amounts of the embedding are the program's where its
      arithmetic is exact: for amounts in whole cents and windows of whole
      hours.  Statements about the value of an amount carry that as a
      hypothesis; the others hold whatever the rounding.
    - A [string] is a JavaScript string all of whose UTF-16 code units are
      below 256, one [ascii] per code unit (so e-acute is the single
      character of code 233): its length is the JavaScript length.
    - An optional request field is an [option]; [None] is [undefined].
    - An [async] function that runs against a transaction client is a
      computation in the monad [Tx]: it either finishes with a value and a
      new store, or throws, in which case nothing it wrote survives.
    - An insert appends a row under the next key of its table.  The
      schema rules modelled are NOT NULL on [invoice_details.unit_price],
      the DATE type of [events.event_date], the INTEGER type of the quantity
      and hours of a booking made by [createEventService], and the values
      of the NotificationType enum.
    - A function that reads the clock takes the reading as [now]; where the
      source reads the clock on several lines one reading stands for all of
      them, and no statement relates two of them. *)

From Stdlib Require Import ZArith QArith Qabs Qround List String Ascii Bool Lia.
From Stdlib Require Import DecimalString Permutation.
Import ListNotations.

Local Open Scope string_scope.
Local Open Scope Z_scope.

(** ** JavaScript values *)

Module Js.

(** Truthiness of a number: [0] is falsy. *)
Definition truthyQ (q : Q) : bool := negb (Qeq_bool q 0).
Definition truthyZ (z : Z) : bool := negb (z =? 0).

(** Truthiness of a possibly missing number. *)
Definition truthyOQ (o : option Q) : bool :=
  match o with Some q => truthyQ q | None => false end.
Definition truthyOZ (o : option Z) : bool :=
  match o with Some z => truthyZ z | None => false end.

(** A string is truthy when it is not empty. *)
Definition truthyS (s : string) : bool :=
  match s with EmptyString => false | _ => true end.
Definition truthyOS (o : option string) : bool :=
  match o with Some s => truthyS s | None => false end.

Definition isSome {A} (o : option A) : bool :=
  match o with Some _ => true | None => false end.

(** [x || d] on numbers. *)
Definition orQ (o : option Q) (d : Q) : Q :=
  match o with
  | Some q => if truthyQ q then q else d
  | None => d
  end.

(** [x ?? d] on numbers. *)
Definition coalesceQ (o : option Q) (d : Q) : Q :=
  match o with Some q => q | None => d end.

Definition Qltb (a b : Q) : bool := negb (Qle_bool b a).

(** The white space [trim] strips, among the code units below 256: tab to
    carriage return, space and the no-break space. *)
Definition isWhite (c : ascii) : bool :=
  let n := nat_of_ascii c in
  (Nat.eqb n 32 || (Nat.leb 9 n && Nat.leb n 13) || Nat.eqb n 160)%bool.

Fixpoint trimStart (s : string) : string :=
  match s with
  | String c r => if isWhite c then trimStart r else s
  | EmptyString => EmptyString
  end.

Fixpoint rev_string (s acc : string) : string :=
  match s with
  | String c r => rev_string r (String c acc)
  | EmptyString => acc
  end.

(** [String.prototype.trim] *)
Definition trim (s : string) : string :=
  rev_string (trimStart (rev_string (trimStart s) "")) "".

(** [toLowerCase] of one code unit below 256: A to Z, and the accented
    capitals 192 to 222 but for the multiplication sign 215. *)
Definition lowerChar (c : ascii) : ascii :=
  let n := nat_of_ascii c in
  if ((Nat.leb 65 n && Nat.leb n 90)
      || (Nat.leb 192 n && Nat.leb n 222 && negb (Nat.eqb n 215)))%bool
  then ascii_of_nat (n + 32) else c.

Fixpoint toLowerCase (s : string) : string :=
  match s with
  | String c r => String (lowerChar c) (toLowerCase r)
  | EmptyString => EmptyString
  end.

(** [Array.prototype.includes] on strings. *)
Definition includes (l : list string) (s : string) : bool :=
  existsb (String.eqb s) l.

(** Is [p] a substring of [s]? *)
Fixpoint contains (p s : string) : bool :=
  (String.prefix p s ||
   match s with
   | String _ r => contains p r
   | EmptyString => false
   end)%bool.

Definition showNat (n : nat) : string := NilZero.string_of_uint (Nat.to_uint n).
Definition showZ (z : Z) : string := NilZero.string_of_int (Z.to_int z).

(** [Math.ceil (a / b)] for a non-negative count [a] and a positive [b]. *)
Definition ceilDiv (a b : Z) : Z := - ((- a) / b).

(** [new Date(t).setHours(0, 0, 0, 0)], the server clock being UTC; also
    what a DATE column keeps of an instant. *)
Definition startOfDay (t : Z) : Z := t - t mod 86400000.

End Js.

(** ** The relational schema *)

Inductive EventStatus :=
| PENDING | ACCEPTED | CONFIRMED | IN_PROGRESS | COMPLETED | CANCELLED | RESCHEDULED.

Inductive RoomStatus := AVAILABLE | OCCUPIED | MAINTENANCE | RESERVED.

Inductive ItemType := ROOM | SERVICE | OTHER.

Inductive InvoiceStatus := INV_PENDING | INV_PAID | INV_OVERDUE | INV_CANCELLED | INV_REFUNDED.

Definition EventStatus_eqb (a b : EventStatus) : bool :=
  match a, b with
  | PENDING, PENDING | ACCEPTED, ACCEPTED | CONFIRMED, CONFIRMED
  | IN_PROGRESS, IN_PROGRESS | COMPLETED, COMPLETED | CANCELLED, CANCELLED
  | RESCHEDULED, RESCHEDULED => true
  | _, _ => false
  end.

Definition RoomStatus_eqb (a b : RoomStatus) : bool :=
  match a, b with
  | AVAILABLE, AVAILABLE | OCCUPIED, OCCUPIED
  | MAINTENANCE, MAINTENANCE | RESERVED, RESERVED => true
  | _, _ => false
  end.

Definition ItemType_eqb (a b : ItemType) : bool :=
  match a, b with
  | ROOM, ROOM | SERVICE, SERVICE | OTHER, OTHER => true
  | _, _ => false
  end.

Definition EventStatus_name (s : EventStatus) : string :=
  match s with
  | PENDING => "PENDING" | ACCEPTED => "ACCEPTED" | CONFIRMED => "CONFIRMED"
  | IN_PROGRESS => "IN_PROGRESS" | COMPLETED => "COMPLETED"
  | CANCELLED => "CANCELLED" | RESCHEDULED => "RESCHEDULED"
  end.

Record Account := mkAccount {
  account_id : Z;
  account_name : string;
  email : option string }.

Record Room := mkRoom {
  room_id : Z;
  room_name : string;
  room_status : RoomStatus;
  room_is_active : bool;
  base_price : option Q;
  hourly_rate : option Q }.

Record EventType := mkEventType {
  type_id : Z;
  type_is_active : bool }.

Record Service := mkService {
  service_id : Z;
  service_name : string;
  service_is_active : bool }.

Record Variation := mkVariation {
  variation_id : Z;
  var_service_id : Z;
  variation_name : string;
  var_base_price : option Q;
  var_is_active : bool }.

Record Event := mkEvent {
  event_id : Z;
  event_name : string;
  description : option string;
  start_time : option Z;
  end_time : option Z;
  event_date : Z;
  estimated_cost : option Q;
  final_cost : option Q;
  room_service_fee : option Q;
  status : EventStatus;
  ev_account_id : option Z;
  ev_room_id : option Z;
  ev_event_type_id : option Z }.

Record EventService := mkEventService {
  event_service_id : Z;
  es_event_id : Z;
  es_service_id : Z;
  es_variation_id : option Z;
  quantity : Z;
  custom_price : option Q;
  notes : option string;
  es_status : string;
  scheduled_time : option Z;
  duration_hours : option Q }.

Record Invoice := mkInvoice {
  invoice_id : Z;
  invoice_number : string;
  total_amount : Q;
  inv_event_id : Z;
  inv_account_id : option Z;
  inv_status : InvoiceStatus;
  issue_date : Z;
  due_date : option Z }.

Record InvoiceDetail := mkInvoiceDetail {
  invoice_detail_id : Z;
  det_invoice_id : Z;
  item_name : string;
  det_quantity : Z;
  unit_price : Q;
  subtotal : Q;
  item_type : ItemType;
  det_service_id : option Z;
  det_variation_id : option Z }.

Record Payment := mkPayment {
  payment_id : Z;
  pay_event_id : option Z }.

Record Review := mkReview {
  review_id : Z;
  rev_event_id : Z }.

Record Notification := mkNotification {
  notification_id : Z;
  title : string;
  message : string;
  is_read : bool;
  n_type : string;
  sent_at : Z;
  n_account_id : option Z }.

Record Db := mkDb {
  accounts : list Account;
  rooms : list Room;
  eventTypes : list EventType;
  services : list Service;
  variations : list Variation;
  events : list Event;
  eventServices : list EventService;
  invoices : list Invoice;
  invoiceDetails : list InvoiceDetail;
  payments : list Payment;
  reviews : list Review;
  notifications : list Notification }.

(** ** Transactions *)

Inductive Outcome (A : Type) : Type :=
| Done (a : A) (db : Db)
| Thrown (msg : string).
Arguments Done {A} a db.
Arguments Thrown {A} msg.

Definition Tx (A : Type) : Type := Db -> Outcome A.

Definition ret {A} (a : A) : Tx A := fun db => Done a db.
Definition throw {A} (msg : string) : Tx A := fun _ => Thrown msg.
Definition bind {A B} (m : Tx A) (k : A -> Tx B) : Tx B :=
  fun db =>
    match m db with
    | Done a db' => k a db'
    | Thrown msg => Thrown msg
    end.
Definition query {A} (f : Db -> A) : Tx A := fun db => Done (f db) db.
Definition write (f : Db -> Db) : Tx unit := fun db => Done tt (f db).

Notation "x <- m ;; k" := (bind m (fun x => k))
  (at level 61, m at next level, right associativity).
Notation "m ;;; k" := (bind m (fun _ => k))
  (at level 61, right associativity).

(** [prisma.$transaction(body)] started on the store [db]: the body's writes
    are committed when it returns and discarded when it throws. *)
Definition transaction {A} (body : Tx A) (db : Db) : Outcome A * Db :=
  match body db with
  | Done a db' => (Done a db', db')
  | Thrown msg => (Thrown msg, db)
  end.

(** ** Tables *)

Module Table.

(** The next value of a SERIAL primary key. *)
Definition nextId {A} (key : A -> Z) (rows : list A) : Z :=
  1 + fold_right Z.max 0 (map key rows).

Definition findBy {A} (key : A -> Z) (k : Z) (rows : list A) : option A :=
  find (fun r => key r =? k) rows.

Definition optEq (o : option Z) (k : Z) : bool :=
  match o with Some z => z =? k | None => false end.

Definition setEvents (l : list Event) (db : Db) : Db :=
  mkDb (accounts db) (rooms db) (eventTypes db) (services db) (variations db)
       l (eventServices db) (invoices db) (invoiceDetails db)
       (payments db) (reviews db) (notifications db).

Definition setEventServices (l : list EventService) (db : Db) : Db :=
  mkDb (accounts db) (rooms db) (eventTypes db) (services db) (variations db)
       (events db) l (invoices db) (invoiceDetails db)
       (payments db) (reviews db) (notifications db).

Definition setInvoices (l : list Invoice) (db : Db) : Db :=
  mkDb (accounts db) (rooms db) (eventTypes db) (services db) (variations db)
       (events db) (eventServices db) l (invoiceDetails db)
       (payments db) (reviews db) (notifications db).

Definition setInvoiceDetails (l : list InvoiceDetail) (db : Db) : Db :=
  mkDb (accounts db) (rooms db) (eventTypes db) (services db) (variations db)
       (events db) (eventServices db) (invoices db) l
       (payments db) (reviews db) (notifications db).

Definition setPayments (l : list Payment) (db : Db) : Db :=
  mkDb (accounts db) (rooms db) (eventTypes db) (services db) (variations db)
       (events db) (eventServices db) (invoices db) (invoiceDetails db)
       l (reviews db) (notifications db).

Definition setReviews (l : list Review) (db : Db) : Db :=
  mkDb (accounts db) (rooms db) (eventTypes db) (services db) (variations db)
       (events db) (eventServices db) (invoices db) (invoiceDetails db)
       (payments db) l (notifications db).

Definition setNotifications (l : list Notification) (db : Db) : Db :=
  mkDb (accounts db) (rooms db) (eventTypes db) (services db) (variations db)
       (events db) (eventServices db) (invoices db) (invoiceDetails db)
       (payments db) (reviews db) l.

(** [update({ where: { id }, data })]: the first row with that key is
    rewritten; [None] when there is no such row. *)
Fixpoint updateBy {A} (key : A -> Z) (k : Z) (f : A -> A) (rows : list A)
  : option (list A) :=
  match rows with
  | [] => None
  | r :: rest =>
      if key r =? k then Some (f r :: rest)
      else option_map (cons r) (updateBy key k f rest)
  end.

End Table.

(** ** utils/validation.js *)

Module Validation.

Record Validated (A : Type) := mkValidated {
  v_isValid : bool;
  v_errors : list string;
  sanitizedValue : option A }.
Arguments mkValidated {A}.
Arguments v_isValid {A}.
Arguments v_errors {A}.
Arguments sanitizedValue {A}.

(** The result every service function returns. *)
Record Result (D : Type) := mkResult {
  isValid : bool;
  errors : list string;
  data : option D }.
Arguments mkResult {D}.
Arguments isValid {D}.
Arguments errors {D}.
Arguments data {D}.

Definition createValidationResult {D} (ok : bool) (errs : list string)
           (d : option D) : Result D :=
  mkResult ok errs d.

(** The largest [skip] the query engine takes, a 64-bit integer.  The
    statements about listings use it for offsets of at most 2^31 - 1, which
    are served, and for those above 2^63 - 1, which are refused. *)
Definition MAX_SKIP : Z := 2 ^ 63 - 1.

Definition MIN_PAGE : Z := 1.
Definition MIN_LIMIT : Z := 1.
Definition MAX_LIMIT : Z := 100.
Definition DEFAULT_PAGE : Z := 1.
Definition DEFAULT_LIMIT : Z := 20.
Definition VARIATION_NAME_MIN_LENGTH : nat := 1.
Definition VARIATION_NAME_MAX_LENGTH : nat := 255.
Definition DESCRIPTION_MAX_LENGTH : nat := 5000.

Definition REQUIRED_FIELD (field : string) : string := field ++ " is required".
Definition INVALID_LENGTH (field lo hi : string) : string :=
  field ++ " must be between " ++ lo ++ " and " ++ hi ++ " characters".
Definition INVALID_RANGE (field lo hi : string) : string :=
  field ++ " must be between " ++ lo ++ " and " ++ hi.
Definition START_AFTER_END : string := "Start time cannot be after end time".

Definition parseAndValidateId (id : Z) : option Z :=
  if id <=? 0 then None else Some id.

Definition sanitizeInput (s : string) : string :=
  let bad (c : ascii) :=
    existsb (Nat.eqb (nat_of_ascii c)) [60; 62; 34; 39; 38]%nat in
  string_of_list_ascii
    (filter (fun c => negb (bad c)) (list_ascii_of_string (Js.trim s))).

Record StringConfig := mkStringConfig {
  s_required : bool;
  minLength : option nat;
  maxLength : option nat;
  sanitize : bool }.

Definition boundOr (o : option nat) (d : string) : string :=
  match o with
  | Some (S n) => Js.showNat (S n)
  | _ => d
  end.

Definition validateString (value : option string) (fieldName : string)
           (config : StringConfig) : Validated string :=
  if (s_required config && negb (Js.truthyOS value))%bool then
    mkValidated false [REQUIRED_FIELD fieldName] None
  else
    match value with
    | None => mkValidated true [] None
    | Some v =>
        if negb (Js.truthyS v) then mkValidated true [] None
        else
          let trimmedValue := Js.trim v in
          let len := String.length trimmedValue in
          let e1 :=
            match minLength config with
            | Some (S m) =>
                if Nat.ltb len (S m) then
                  [INVALID_LENGTH fieldName (Js.showNat (S m))
                                  (boundOr (maxLength config) "unlimited")]
                else []
            | _ => []
            end in
          let e2 :=
            match maxLength config with
            | Some (S m) =>
                if Nat.ltb (S m) len then
                  [INVALID_LENGTH fieldName (boundOr (minLength config) "0")
                                  (Js.showNat (S m))]
                else []
            | _ => []
            end in
          let errs := (e1 ++ e2)%list in
          mkValidated (Nat.eqb (List.length errs) 0) errs
            (Some (if sanitize config then sanitizeInput trimmedValue
                   else trimmedValue))
    end.

Record NumberConfig := mkNumberConfig {
  n_required : bool;
  n_min : option Z;
  n_max : option Z;
  integer : bool }.

Definition limitOr (o : option Z) (d : string) : string :=
  match o with
  | Some z => if Js.truthyZ z then Js.showZ z else d
  | None => d
  end.

(** [Number.isInteger] *)
Definition isInteger (q : Q) : bool := Qnum q mod Zpos (Qden q) =? 0.

(** The first decimal digit of a positive integer. *)
Fixpoint leadingDigit (fuel : nat) (z : Z) : Z :=
  match fuel with
  | O => z
  | S f => if z <? 10 then z else leadingDigit f (z / 10)
  end.

(** The first significant digit of a positive number below 1. *)
Fixpoint firstDigit (fuel : nat) (q : Q) : Z :=
  match fuel with
  | O => 0
  | S f => if Qle_bool 1 q then Qfloor q else firstDigit f (q * 10)
  end.

(** [parseInt] of a number reads the integer that starts the number's
    text.  Between 10^-6 and 10^21 the text is the decimal expansion and
    the fractional digits are dropped.  From 10^21 on, and under 10^-6, the
    text is in exponent notation ([1e+21], [2.5e-7]) and what is read is its
    leading digit, taken here from the exact value (a double prints its
    shortest digits, which start differently only next to a power of
    ten). *)
Definition parseInt (q : Q) : Q :=
  let a := Qabs q in
  let digits :=
    if Qle_bool (inject_Z (10 ^ 21)) a then leadingDigit 400 (Qfloor a)
    else if (negb (Qeq_bool a 0) && Js.Qltb a (1 # 1000000))%bool
         then firstDigit 400 a
         else Qfloor a in
  inject_Z (if Qle_bool 0 q then digits else - digits).

Definition validateNumber (value : option Q) (fieldName : string)
           (config : NumberConfig) : Validated Q :=
  match value with
  | None =>
      if n_required config then
        mkValidated false [REQUIRED_FIELD fieldName] None
      else mkValidated true [] None
  | Some numValue =>
      let e1 :=
        match n_min config with
        | Some lo =>
            if Js.Qltb numValue (inject_Z lo) then
              [INVALID_RANGE fieldName (Js.showZ lo)
                             (limitOr (n_max config) "unlimited")]
            else []
        | None => []
        end in
      let e2 :=
        match n_max config with
        | Some hi =>
            if Js.Qltb (inject_Z hi) numValue then
              [INVALID_RANGE fieldName (limitOr (n_min config) "unlimited")
                             (Js.showZ hi)]
            else []
        | None => []
        end in
      let e3 :=
        if (integer config && negb (isInteger numValue))%bool then
          [fieldName ++ " must be an integer"]
        else [] in
      let errs := (e1 ++ e2 ++ e3)%list in
      mkValidated (Nat.eqb (List.length errs) 0) errs
        (Some (if integer config then parseInt numValue else numValue))
  end.

(** [validateDate] without options, as [validateDateRange] calls it. *)
Definition validateDate (date : option Z) : Validated Z :=
  mkValidated true [] date.

Record Pagination := mkPagination {
  pg_page : Z;
  pg_limit : Z;
  pg_errors : list string }.

(** The sanitized value of an integer field, or the default when it is
    missing or [0]. *)
Definition valueOr (v : Validated Q) (d : Z) : Z :=
  match sanitizedValue v with
  | Some q => if Js.truthyQ q then Qnum q / Zpos (Qden q) else d
  | None => d
  end.

Definition validatePagination (page limit : option Z) : Pagination :=
  let pageValidation :=
    validateNumber (option_map inject_Z page) "Page"
      (mkNumberConfig false (Some MIN_PAGE) None true) in
  let limitValidation :=
    validateNumber (option_map inject_Z limit) "Limit"
      (mkNumberConfig false (Some MIN_LIMIT) (Some MAX_LIMIT) true) in
  mkPagination (valueOr pageValidation DEFAULT_PAGE)
               (valueOr limitValidation DEFAULT_LIMIT)
               (v_errors pageValidation ++ v_errors limitValidation)%list.

Definition validateDateRange (startDate endDate : option Z) : list string :=
  let startValidation := validateDate startDate in
  let endValidation := validateDate endDate in
  (v_errors startValidation ++ v_errors endValidation ++
   match sanitizedValue startValidation, sanitizedValue endValidation with
   | Some s, Some e =>
       if (v_isValid startValidation && v_isValid endValidation
           && (e <? s))%bool
       then [START_AFTER_END] else []
   | _, _ => []
   end)%list.

End Validation.

Import Validation.

(** A computation that, started on [db], either throws or returns an
    invalid result without having written anything. *)
Definition failsCleanly {D} (db : Db) (o : Outcome (Result D)) : Prop :=
  match o with
  | Done r db' => isValid r = false /\ db' = db
  | Thrown _ => True
  end.

(** ** service/room.service.js *)

Module RoomService.

Record Availability := mkAvailability {
  isAvailable : bool;
  reason : string }.

(** The [where] clause of the conflict query: same room, status CONFIRMED
    or IN_PROGRESS, [start_time < end] and [end_time > start].  A NULL
    column satisfies no comparison. *)
Definition conflicting (room : Z) (reqStart reqEnd : Z) (ev : Event) : bool :=
  (Table.optEq (ev_room_id ev) room
   && (EventStatus_eqb (status ev) CONFIRMED
       || EventStatus_eqb (status ev) IN_PROGRESS)
   && match start_time ev with Some a => a <? reqEnd | None => false end
   && match end_time ev with Some b => reqStart <? b | None => false end)%bool.

(** [checkRoomAvailability(room_id, start_time, end_time, duration_hours)].
    The function has these four parameters and reads through the module's
    own client; further arguments of a call are not received. *)
Definition checkRoomAvailability (db : Db) (roomId : Z)
           (startTime endTime : option Z) (durationHours : option Q)
  : Result Availability :=
  match startTime, endTime with
  | Some s, Some e =>
      let conflict := find (conflicting roomId s e) (events db) in
      mkResult true [] (Some (mkAvailability (negb (Js.isSome conflict)) "Conflict"))
  | _, _ => mkResult false ["start_time and end_time are required"] None
  end.

End RoomService.

(** ** service/event_service.service.js *)

Module EventServiceService.

(** [checkVariationAvailability(variation_id, scheduled_time,
    duration_hours, tx)].  After the lookup of the variation the source
    returns success; the query for overlapping bookings that used to
    follow is commented out, and the requested interval it computes is
    not used. *)
Definition checkVariationAvailability (variationId : Z)
           (scheduledTime : option Z) (durationHours : option Q)
  : Tx (Result Z) :=
  if (negb (Js.truthyZ variationId) || negb (Js.isSome scheduledTime)
      || negb (Js.truthyOQ durationHours))%bool
  then
    ret (createValidationResult false
           ["Variation ID, scheduled time, and duration are required"] None)
  else
    variation <- query (fun db => Table.findBy variation_id variationId (variations db)) ;;
    match variation with
    | Some v =>
        if var_is_active v
        then ret (createValidationResult true [] (Some variationId))
        else ret (createValidationResult false ["Variation not found or inactive"] None)
    | None =>
        ret (createValidationResult false ["Variation not found or inactive"] None)
    end.

End EventServiceService.

(** ** service/event.service.js *)

Module EventService.

Import RoomService EventServiceService.

(** The body of a create or update request. *)
Record EventData := mkEventData {
  d_event_name : option string;
  d_description : option string;
  d_start_time : option Z;
  d_end_time : option Z;
  d_event_date : option Z;
  d_estimated_cost : option Q;
  d_final_cost : option Q;
  d_room_service_fee : option Q;
  d_account_id : option Z;
  d_room_id : option Z;
  d_event_type_id : option Z;
  d_status : option string;
  d_service_id : option Z;
  d_variation_id : option Z }.

Definition handleError {D} (msg : string) : Result D :=
  createValidationResult false [msg] None.

Definition EVENT_STATUSES : list EventStatus :=
  [PENDING; ACCEPTED; CONFIRMED; IN_PROGRESS; COMPLETED; CANCELLED; RESCHEDULED].

Definition statusOfString (s : string) : option EventStatus :=
  find (fun st => String.eqb (EventStatus_name st) s) EVENT_STATUSES.

Definition idError (o : option Z) (msg : string) : list string :=
  match o with
  | Some id =>
      if Js.truthyZ id then
        match parseAndValidateId id with Some _ => [] | None => [msg] end
      else []
  | None => []
  end.

Definition costErrors (o : option Q) (fieldName : string) : list string :=
  if Js.truthyOQ o then
    v_errors (validateNumber o fieldName (mkNumberConfig false (Some 0) None false))
  else [].

Definition validateEventData (eventData : EventData) : list string :=
  let nameValidation :=
    validateString (d_event_name eventData) "Event name"
      (mkStringConfig true (Some VARIATION_NAME_MIN_LENGTH)
                      (Some VARIATION_NAME_MAX_LENGTH) true) in
  let dateValidation :=
    validateDateRange (d_start_time eventData) (d_end_time eventData) in
  (v_errors nameValidation ++ dateValidation
   ++ (if Js.truthyOS (d_description eventData) then
         v_errors (validateString (d_description eventData) "Description"
                     (mkStringConfig false None (Some DESCRIPTION_MAX_LENGTH) true))
       else [])
   ++ costErrors (d_estimated_cost eventData) "Estimated cost"
   ++ costErrors (d_final_cost eventData) "Final cost"
   ++ costErrors (d_room_service_fee eventData) "Room service fee"
   ++ idError (d_account_id eventData) "Invalid account ID"
   ++ idError (d_room_id eventData) "Invalid room ID"
   ++ idError (d_event_type_id eventData) "Invalid event status"
   ++ match d_status eventData with
      | Some s =>
          if (Js.truthyS s && negb (Js.isSome (statusOfString s)))%bool
          then ["Invalid event status"] else []
      | None => []
      end)%list.

Definition validSortFields : list string :=
  ["event_name"; "start_time"; "end_time"; "estimated_cost"; "final_cost";
   "room_service_fee"; "date_create"; "status"].
Definition validSortOrders : list string := ["asc"; "desc"].

Definition buildSortOrder (sortBy sortOrder : string) : string * string :=
  let field := if Js.includes validSortFields sortBy then sortBy else "date_create" in
  let order := if Js.includes validSortOrders (Js.toLowerCase sortOrder)
               then Js.toLowerCase sortOrder else "asc" in
  (field, order).

(** [(end - start) / (1000 * 60 * 60)] *)
Definition hoursBetween (s e : Z) : Q := inject_Z (e - s) / inject_Z 3600000.

(** The room part of the cost: [base_price], and [hourly_rate * hours]
    when both are truthy. *)
Definition roomCost (room : Room) (durationHours : option Q) : Q :=
  (Js.orQ (base_price room) 0 +
   match durationHours, hourly_rate room with
   | Some d, Some r => if (Js.truthyQ d && Js.truthyQ r)%bool then r * d else 0
   | _, _ => 0
   end)%Q.

Definition roomBookable (r : option Room) : bool :=
  match r with
  | Some room => (room_is_active room && RoomStatus_eqb (room_status room) AVAILABLE)%bool
  | None => false
  end.

Definition truthyId (o : option Z) : option Z :=
  match o with
  | Some z => if Js.truthyZ z then Some z else None
  | None => None
  end.

Definition truthyNum (o : option Q) : option Q :=
  match o with
  | Some q => if Js.truthyQ q then Some q else None
  | None => None
  end.

Definition trimOrNull (o : option string) : option string :=
  match o with
  | Some s => if Js.truthyS (Js.trim s) then Some (Js.trim s) else None
  | None => None
  end.

(** What [createEvent] hands back: the new row and the derived window. *)
Record CreatedEvent := mkCreatedEvent {
  ce_event : Event;
  ce_duration_hours : option Q;
  ce_scheduled_time : option Z }.

Definition insertEvent (mk : Z -> Event) : Tx Event :=
  fun db =>
    let row := mk (Table.nextId event_id (events db)) in
    Done row (Table.setEvents (events db ++ [row]) db).

Definition insertInvoice (mk : Z -> Invoice) : Tx Invoice :=
  fun db =>
    let row := mk (Table.nextId invoice_id (invoices db)) in
    Done row (Table.setInvoices (invoices db ++ [row]) db).

Definition insertInvoiceDetail (mk : Z -> InvoiceDetail) : Tx unit :=
  fun db =>
    let row := mk (Table.nextId invoice_detail_id (invoiceDetails db)) in
    Done tt (Table.setInvoiceDetails (invoiceDetails db ++ [row]) db).

Definition insertEventService (mk : Z -> EventService) : Tx unit :=
  fun db =>
    let row := mk (Table.nextId event_service_id (eventServices db)) in
    Done tt (Table.setEventServices (eventServices db ++ [row]) db).

(** The ROOM line of an invoice; [unit_price] is a NOT NULL column, so a
    room without a base price makes the insert throw. *)
Definition insertRoomDetail (invoice : Z) (name : string) (price : option Q)
  : Tx unit :=
  match price with
  | Some p =>
      insertInvoiceDetail
        (fun id => mkInvoiceDetail id invoice name 1 p p ROOM None None)
  | None => throw "Argument unit_price must not be null"
  end.

Definition Qpos (q : Q) : bool := Js.Qltb 0 q.

(** What the checks of [innerCreateEvent] settle: the room and the
    length of the window. *)
Record Checked := mkChecked {
  ck_room : Room;
  ck_durationHours : option Q }.

(** The first half of [innerCreateEvent], up to the event-type check:
    an early result, or the room and the duration. *)
Definition createChecks (eventData : EventData)
  : Tx (Result CreatedEvent + Checked) :=
  let startTime := d_start_time eventData in
  let endTime := d_end_time eventData in
  let fail (msg : string) : Tx (Result CreatedEvent + Checked) :=
    ret (inl (createValidationResult false [msg] None)) in
  let validationErrors := validateEventData eventData in
  if negb (Nat.eqb (List.length validationErrors) 0) then
    ret (inl (createValidationResult false validationErrors None))
  else
  match truthyId (d_room_id eventData) with
  | None => fail "Room ID is required"
  | Some roomId =>
  let durationHours :=
    match startTime, endTime with
    | Some s, Some e => Some (hoursBetween s e)
    | _, _ => None
    end in
  if match durationHours with Some d => Qle_bool d 0 | None => false end then
    fail "End time must be after start time"
  else
  account <- query (fun db =>
    match truthyId (d_account_id eventData) with
    | Some a => Js.isSome (Table.findBy account_id a (accounts db))
    | None => true
    end) ;;
  if negb account then fail "Account not found" else
  room <- query (fun db => Table.findBy room_id roomId (rooms db)) ;;
  match room with
  | None => fail "Room not found, inactive, or unavailable"
  | Some room =>
  if negb (roomBookable (Some room)) then
    fail "Room not found, inactive, or unavailable"
  else
  availability <- query (fun db =>
    if (Js.isSome startTime && Js.truthyOQ durationHours)%bool then
      Some (checkRoomAvailability db roomId startTime endTime durationHours)
    else None) ;;
  match availability with
  | Some (mkResult true _ None) =>
      throw "Cannot read properties of null (reading 'isAvailable')"
  | Some (mkResult false _ None) => fail "Room is not available"
  | Some (mkResult false _ (Some d)) =>
      fail (if Js.truthyS (reason d) then reason d else "Room is not available")
  | Some (mkResult true _ (Some (mkAvailability false r))) =>
      fail (if Js.truthyS r then r else "Room is not available")
  | _ =>
  eventType <- query (fun db =>
    match truthyId (d_event_type_id eventData) with
    | Some t =>
        match Table.findBy type_id t (eventTypes db) with
        | Some ty => type_is_active ty
        | None => false
        end
    | None => true
    end) ;;
  if negb eventType then fail "Event type not found or inactive"
  else ret (inr (mkChecked room durationHours))
  end end end.

(** The second half of [innerCreateEvent]: the cost of the room, the
    event row, and the invoice with its ROOM line. *)
Definition createWrites (now : Z) (eventData : EventData) (checked : Checked)
  : Tx (Result CreatedEvent) :=
  let room := ck_room checked in
  let durationHours := ck_durationHours checked in
  let scheduledTime := d_start_time eventData in
  let calculatedEstimatedCost :=
    (Js.orQ (d_estimated_cost eventData) 0 + roomCost room durationHours)%Q in
  match d_event_name eventData,
        match d_status eventData with
        | Some s => statusOfString s
        | None => Some PENDING
        end,
        match d_event_date eventData, d_start_time eventData with
        | Some d, _ => Some (Js.startOfDay d)
        | None, Some s => Some (Js.startOfDay s)
        | None, None => None
        end
  with
  | None, _, _ => throw "Cannot read properties of undefined (reading 'trim')"
  | _, None, _ => throw "Invalid value for argument status"
  | _, _, None => throw "Invalid value for argument event_date"
  | Some eventName, Some eventStatus, Some eventDate =>
  newEvent <- insertEvent (fun id =>
    mkEvent id (Js.trim eventName) (trimOrNull (d_description eventData))
            scheduledTime (d_end_time eventData) eventDate
            (Some calculatedEstimatedCost)
            (truthyNum (d_final_cost eventData))
            (truthyNum (d_room_service_fee eventData))
            eventStatus
            (truthyId (d_account_id eventData))
            (truthyId (d_room_id eventData))
            (truthyId (d_event_type_id eventData))) ;;
  (if Qpos calculatedEstimatedCost then
     invoice <- insertInvoice (fun id =>
       mkInvoice id ("INV-" ++ Js.showZ now) calculatedEstimatedCost
                 (event_id newEvent) (ev_account_id newEvent) INV_PENDING
                 now (Some (now + 7 * 24 * 60 * 60 * 1000))) ;;
     insertRoomDetail (invoice_id invoice) (room_name room) (base_price room)
   else ret tt) ;;;
  ret (createValidationResult true []
         (Some (mkCreatedEvent newEvent durationHours scheduledTime)))
  end.

Definition innerCreateEvent (now : Z) (eventData : EventData)
  : Tx (Result CreatedEvent) :=
  checked <- createChecks eventData ;;
  match checked with
  | inl early => ret early
  | inr ok => createWrites now eventData ok
  end.

(** [createEvent(eventData)] as the controller calls it, without a
    transaction client: a new transaction is opened, and whatever is
    thrown becomes a failure result. *)
Definition createEvent (now : Z) (eventData : EventData) (db : Db)
  : Result CreatedEvent * Db :=
  match transaction (innerCreateEvent now eventData) db with
  | (Done r _, db') => (r, db')
  | (Thrown msg, db') => (handleError msg, db')
  end.

Record User := mkUser {
  role : string;
  user_account_id : Z }.

Record UpdatedEvent := mkUpdatedEvent {
  ue_event : Event;
  ue_eventServicesCount : nat }.

(** The availability block of [updateEvent], the same in both room
    branches: the checker is called as
    [checkRoomAvailability(room, start_time, null, durationHours,
    validEventId, tx)], so its third parameter is [null].  The answer is
    the message of an early failure, if any. *)
Definition recheckRoom (roomId : Z) (startTime : option Z)
           (durationHours : option Q) : Tx (option string) :=
  availability <- query (fun db =>
    if (Js.isSome startTime && Js.truthyOQ durationHours)%bool then
      Some (checkRoomAvailability db roomId startTime None durationHours)
    else None) ;;
  match availability with
  | None => ret None
  | Some av =>
      match isValid av, data av with
      | true, Some d =>
          if isAvailable d then ret None
          else ret (Some (if Js.truthyS (reason d) then reason d
                          else "Room is not available"))
      | false, Some d =>
          ret (Some (if Js.truthyS (reason d) then reason d
                     else "Room is not available"))
      | true, None =>
          throw "Cannot read properties of null (reading 'isAvailable')"
      | false, None =>
          throw "Cannot read properties of null (reading 'reason')"
      end
  end.

Definition eventServicesOf (eventId : Z) (db : Db) : list EventService :=
  filter (fun es => es_event_id es =? eventId) (eventServices db).

Definition invoiceOf (eventId : Z) (db : Db) : option Invoice :=
  find (fun i => inv_event_id i =? eventId) (invoices db).

(** [tx.event.update] with the [data] object of [updateEvent]; a field
    that is [undefined] keeps its column. *)
Definition patchEvent (updateData : EventData) (scheduledTime : option Z)
           (cost : Q) (newStatus : option EventStatus) (ev : Event) : Event :=
  let keep {A} (given : option A) (old : A) : A :=
    match given with Some v => v | None => old end in
  mkEvent (event_id ev)
    (match d_event_name updateData with
     | Some n => Js.trim n | None => event_name ev end)
    (match d_description updateData with
     | Some _ => trimOrNull (d_description updateData)
     | None => description ev end)
    (match d_start_time updateData with
     | Some _ => scheduledTime | None => start_time ev end)
    (match d_end_time updateData with
     | Some e => Some e | None => end_time ev end)
    (match d_event_date updateData with
     | Some d => Js.startOfDay d
     | None => Js.startOfDay (match scheduledTime with Some s => s | None => 0 end)
     end)
    (Some cost)
    (match d_final_cost updateData with
     | Some q => Some q | None => final_cost ev end)
    (match d_room_service_fee updateData with
     | Some q => Some q | None => room_service_fee ev end)
    (keep newStatus (status ev))
    (match d_account_id updateData with
     | Some _ => truthyId (d_account_id updateData) | None => ev_account_id ev end)
    (match d_room_id updateData with
     | Some _ => truthyId (d_room_id updateData) | None => ev_room_id ev end)
    (match d_event_type_id updateData with
     | Some _ => truthyId (d_event_type_id updateData)
     | None => ev_event_type_id ev end).

(** The running cost of [updateEvent] is a JavaScript number, or the
    Decimal object read from the stored row when the request supplies no
    cost. *)
Inductive Amount :=
| Num (q : Q)
| Dec (q : Q).

(** [Number(a)] *)
Definition amountValue (a : Amount) : Q :=
  match a with Num q | Dec q => q end.

(** [estimated_cost || existingEvent.estimated_cost || 0]: a Decimal
    object is truthy whatever its amount. *)
Definition startingCost (updateData : EventData) (existingEvent : Event) : Amount :=
  match truthyNum (d_estimated_cost updateData) with
  | Some n => Num n
  | None =>
      match estimated_cost existingEvent with
      | Some d => Dec d
      | None => Num 0
      end
  end.

(** [a += Number(variationBasePrice)], the variation having been selected
    without its [base_price], so that the number added is [0].  On a number
    this is the sum.  On the Decimal object [+] joins texts: the text of
    the amount followed by [0], which reads as ten times a whole amount and
    as the amount itself when it has decimals. *)
Definition plusZero (a : Amount) : Amount :=
  match a with
  | Num q => Num (q + 0)%Q
  | Dec q => Num (if isInteger q then q * 10 else q)%Q
  end.

(** [a !== existingEvent.estimated_cost]: only the stored object itself is
    identical to it. *)
Definition differsFromStored (a : Amount) : bool :=
  match a with Num _ => true | Dec _ => false end.

(** The room block of the transaction of [updateEvent]: the message of
    an early failure, or the cost so far. *)
Definition roomStep (existingEvent : Event) (updateData : EventData)
           (durationHours : option Q) (cost0 : Amount) : Tx (string + Amount) :=
  let startTime := d_start_time updateData in
  match (match truthyId (d_room_id updateData) with
         | Some r =>
             if negb (Table.optEq (ev_room_id existingEvent) r) then Some r
             else None
         | None => None
         end) with
  | Some roomId =>
      room <- query (fun db => Table.findBy room_id roomId (rooms db)) ;;
      match room with
      | Some r =>
          if roomBookable room then
            early <- recheckRoom roomId startTime durationHours ;;
            match early with
            | Some msg => ret (inl msg)
            | None => ret (inr (Num (roomCost r durationHours)))
            end
          else ret (inl "Room not found, inactive, or unavailable")
      | None => ret (inl "Room not found, inactive, or unavailable")
      end
  | None =>
      match (if (Js.isSome startTime || Js.isSome (d_end_time updateData))%bool
             then truthyId (ev_room_id existingEvent) else None) with
      | Some current =>
          room <- query (fun db => Table.findBy room_id current (rooms db)) ;;
          if roomBookable room then
            early <- recheckRoom current startTime durationHours ;;
            match early with
            | Some msg => ret (inl msg)
            | None => ret (inr cost0)
            end
          else ret (inl "Current room is not available")
      | None => ret (inr cost0)
      end
  end.

(** The service and variation block: the booking of the event is
    replaced by one for the given pair. *)
Definition serviceStep (validEventId : Z) (updateData : EventData)
           (scheduledTime : option Z) (durationHours : option Q) (cost1 : Amount)
  : Tx (list string + Amount) :=
  match truthyId (d_service_id updateData), truthyId (d_variation_id updateData) with
  | Some serviceId, Some variationId =>
      dbService <- query (fun db => Table.findBy service_id serviceId (services db)) ;;
      match dbService with
      | None => ret (inl ["Service not found or inactive"])
      | Some sv =>
      if negb (service_is_active sv) then ret (inl ["Service not found or inactive"])
      else
      variation <- query (fun db =>
        Table.findBy variation_id variationId (variations db)) ;;
      match variation with
      | None =>
          ret (inl ["Variation not found, inactive, or does not belong to the specified service"])
      | Some v =>
      if negb (var_is_active v && (var_service_id v =? serviceId))%bool then
        ret (inl ["Variation not found, inactive, or does not belong to the specified service"])
      else
      availabilityCheck <-
        (if (Js.isSome scheduledTime && Js.truthyOQ durationHours)%bool then
           checkVariationAvailability variationId scheduledTime durationHours
         else ret (createValidationResult true [] None)) ;;
      if negb (isValid availabilityCheck) then
        ret (inl (errors availabilityCheck))
      else
      write (fun db =>
        Table.setEventServices
          (filter (fun es => negb (es_event_id es =? validEventId))
                  (eventServices db)) db) ;;;
      insertEventService (fun id =>
        mkEventService id validEventId serviceId (Some variationId) 1 None None
                       "CONFIRMED" scheduledTime durationHours) ;;;
      ret (inr (plusZero cost1))
      end end
  | _, _ => ret (inr cost1)
  end.

(** The invoice block: unless the cost is still the stored object, the
    invoice total is rewritten and its lines are replaced. *)
Definition invoiceStep (validEventId : Z) (existingEvent : Event)
           (updateData : EventData) (calculatedEstimatedCost : Amount) : Tx unit :=
  (if differsFromStored calculatedEstimatedCost
   then
     existingInvoice <- query (invoiceOf validEventId) ;;
     match existingInvoice with
     | None => ret tt
     | Some inv =>
         write (fun db =>
           match Table.updateBy invoice_id (invoice_id inv)
                   (fun i => mkInvoice (invoice_id i) (invoice_number i)
                               (amountValue calculatedEstimatedCost)
                               (inv_event_id i)
                               (inv_account_id i) (inv_status i)
                               (issue_date i) (due_date i))
                   (invoices db) with
           | Some rows => Table.setInvoices rows db
           | None => db
           end) ;;;
         write (fun db =>
           Table.setInvoiceDetails
             (filter (fun d => negb (det_invoice_id d =? invoice_id inv))
                     (invoiceDetails db)) db) ;;;
         (match (match truthyId (d_room_id updateData) with
                 | Some r => Some r
                 | None => truthyId (ev_room_id existingEvent)
                 end) with
          | Some r =>
              room <- query (fun db => Table.findBy room_id r (rooms db)) ;;
              match room with
              | Some rm => insertRoomDetail (invoice_id inv) (room_name rm) (base_price rm)
              | None => throw "Cannot read properties of null (reading 'room_name')"
              end
          | None => ret tt
          end) ;;;
         match truthyId (d_service_id updateData), truthyId (d_variation_id updateData) with
         | Some serviceId, Some variationId =>
             variation <- query (fun db =>
               Table.findBy variation_id variationId (variations db)) ;;
             let name :=
               match variation with
               | Some v => if Js.truthyS (variation_name v) then variation_name v
                           else "Service"
               | None => "Service"
               end in
             let price :=
               match variation with
               | Some v => Js.orQ (var_base_price v) 0
               | None => 0%Q
               end in
             insertInvoiceDetail (fun id =>
               mkInvoiceDetail id (invoice_id inv) name 1 price price SERVICE
                               (Some serviceId) (Some variationId))
         | _, _ => ret tt
         end
     end
   else ret tt).

(** The body of the transaction of [updateEvent]. *)
Definition updateEventTx (validEventId : Z) (existingEvent : Event)
           (updateData : EventData) (scheduledTime : option Z)
           (durationHours : option Q) : Tx (Result UpdatedEvent) :=
  let fail (msg : string) : Tx (Result UpdatedEvent) :=
    ret (createValidationResult false [msg] None) in
  account <- query (fun db =>
    match truthyId (d_account_id updateData) with
    | Some a => Js.isSome (Table.findBy account_id a (accounts db))
    | None => true
    end) ;;
  if negb account then fail "Account not found" else
  let cost0 := startingCost updateData existingEvent in
  room <- roomStep existingEvent updateData durationHours cost0 ;;
  match room with
  | inl msg => fail msg
  | inr cost1 =>
  eventType <- query (fun db =>
    match truthyId (d_event_type_id updateData) with
    | Some t =>
        match Table.findBy type_id t (eventTypes db) with
        | Some ty => type_is_active ty
        | None => false
        end
    | None => true
    end) ;;
  if negb eventType then fail "Event type not found or inactive" else
  service <- serviceStep validEventId updateData scheduledTime durationHours cost1 ;;
  match service with
  | inl errs => ret (createValidationResult false errs None)
  | inr calculatedEstimatedCost =>
  match (match d_status updateData with
         | Some s => option_map Some (statusOfString s)
         | None => Some None
         end) with
  | None => throw "Invalid value for argument status"
  | Some newStatus =>
  updated <- (fun db =>
    match Table.updateBy event_id validEventId
            (patchEvent updateData scheduledTime
                        (amountValue calculatedEstimatedCost) newStatus)
            (events db) with
    | Some rows =>
        let db' := Table.setEvents rows db in
        match Table.findBy event_id validEventId rows with
        | Some ev =>
            Done (mkUpdatedEvent ev (List.length (eventServicesOf validEventId db'))) db'
        | None => Thrown "Record to update not found"
        end
    | None => Thrown "Record to update not found"
    end) ;;
  invoiceStep validEventId existingEvent updateData calculatedEstimatedCost ;;;
  ret (createValidationResult true [] (Some updated))
  end end end.

Definition updateEvent (now : Z) (eventId : Z) (updateData : EventData)
           (user : option User) (db : Db) : Result UpdatedEvent * Db :=
  match parseAndValidateId eventId with
  | None => (handleError "Invalid value for argument event_id", db)
  | Some validEventId =>
  match Table.findBy event_id validEventId (events db) with
  | None => (createValidationResult false ["Event not found"] None, db)
  | Some existingEvent =>
  let customer :=
    match user with
    | Some u => if String.eqb (role u) "CUSTOMER" then Some u else None
    | None => None
    end in
  if match customer with
     | Some u => negb (Table.optEq (ev_account_id existingEvent) (user_account_id u))
     | None => false
     end
  then (createValidationResult false ["You can only update your own events."] None, db)
  else if match customer with
          | Some u =>
              let eventStart :=
                match start_time existingEvent with Some s => s | None => 0 end in
              Js.Qltb (hoursBetween now eventStart) (inject_Z 24)
          | None => false
          end
  then (createValidationResult false
          ["You can only update events at least 24 hours in advance."] None, db)
  else
  let validationErrors := validateEventData updateData in
  if negb (Nat.eqb (List.length validationErrors) 0) then
    (createValidationResult false validationErrors None, db)
  else
  let scheduledTime :=
    match d_start_time updateData with
    | Some s => Some s
    | None => start_time existingEvent
    end in
  let fresh :=
    match d_start_time updateData, d_end_time updateData with
    | Some s, Some e => Some (hoursBetween s e)
    | _, _ => None
    end in
  if match fresh with Some d => Qle_bool d 0 | None => false end then
    (createValidationResult false ["End time must be after start time"] None, db)
  else
  let durationHours :=
    match fresh with
    | Some d => Some d
    | None =>
        match start_time existingEvent, end_time existingEvent with
        | Some s, Some e => Some (hoursBetween s e)
        | _, _ => None
        end
    end in
  match transaction
          (updateEventTx validEventId existingEvent updateData scheduledTime
                         durationHours) db with
  | (Done r _, db') => (r, db')
  | (Thrown msg, db') => (handleError msg, db')
  end
  end end.

(** *** Listing *)

Record Filters := mkFilters {
  f_account_id : option Z;
  f_room_id : option Z;
  f_event_type_id : option Z;
  f_status : option string;
  dateMin : option Z;
  dateMax : option Z;
  search : option string;
  page : option Z;
  limit : option Z;
  sortBy : option string;
  sortOrder : option string;
  includeEventServices : bool }.

Record PaginationMeta := mkPaginationMeta {
  m_page : Z;
  m_limit : Z;
  totalCount : Z;
  totalPages : Z;
  hasNextPage : bool;
  hasPreviousPage : bool }.

Record Listing := mkListing {
  l_events : list (Event * nat);
  pagination : PaginationMeta }.

(** A foreign-key filter: [parseAndValidateId] gives the key, or [null],
    which selects the rows whose column is NULL. *)
Definition idFilter (given : option Z) (col : option Z) : bool :=
  match truthyId given with
  | Some id =>
      match parseAndValidateId id with
      | Some k => Table.optEq col k
      | None => negb (Js.isSome col)
      end
  | None => true
  end.

Definition insensitive (needle hay : string) : bool :=
  Js.contains (Js.toLowerCase needle) (Js.toLowerCase hay).

Definition whereClause (filters : Filters) (st : option EventStatus)
           (ev : Event) : bool :=
  (idFilter (f_account_id filters) (ev_account_id ev)
   && idFilter (f_room_id filters) (ev_room_id ev)
   && idFilter (f_event_type_id filters) (ev_event_type_id ev)
   && match st with Some s => EventStatus_eqb (status ev) s | None => true end
   && match dateMin filters with
      | Some lo => match start_time ev with Some t => lo <=? t | None => false end
      | None => true
      end
   && match dateMax filters with
      | Some hi => match start_time ev with Some t => t <=? hi | None => false end
      | None => true
      end
   && match search filters with
      | Some s =>
          if Js.truthyS (Js.trim s) then
            (insensitive (Js.trim s) (event_name ev)
             || match description ev with
                | Some d => insensitive (Js.trim s) d
                | None => false
                end)
          else true
      | None => true
      end)%bool.

(** [getAllEvents(filters)].  [orderRows] is the store's ORDER BY for the
    sort order built by [buildSortOrder].  A [skip] beyond what the query
    engine takes makes [findMany] throw. *)
Definition getAllEvents (orderRows : string * string -> list Event -> list Event)
           (filters : Filters) (db : Db) : Result Listing :=
  let pg :=
    validatePagination
      (Some (match page filters with Some p => p | None => 1 end))
      (Some (match limit filters with Some l => l | None => 20 end)) in
  let validPage := pg_page pg in
  let validLimit := pg_limit pg in
  if negb (Nat.eqb (List.length (pg_errors pg)) 0) then
    createValidationResult false (pg_errors pg) None
  else
    match (match f_status filters with
           | Some s => if Js.truthyS s then option_map Some (statusOfString s)
                       else Some None
           | None => Some None
           end) with
    | None => handleError "Invalid value for argument status"
    | Some st =>
        let skip := (validPage - 1) * validLimit in
        if MAX_SKIP <? skip then handleError "Invalid value for argument skip"
        else
        let orderBy :=
          buildSortOrder
            (match sortBy filters with Some f => f | None => "date_create" end)
            (match sortOrder filters with Some o => o | None => "asc" end) in
        let matching := filter (whereClause filters st) (events db) in
        let found :=
          firstn (Z.to_nat validLimit)
                 (skipn (Z.to_nat skip) (orderRows orderBy matching)) in
        let count := Z.of_nat (List.length matching) in
        let processedEvents :=
          map (fun ev =>
                 (ev, if includeEventServices filters
                      then List.length (eventServicesOf (event_id ev) db)
                      else 0%nat)) found in
        createValidationResult true []
          (Some (mkListing processedEvents
                   (mkPaginationMeta validPage validLimit count
                      (Js.ceilDiv count validLimit)
                      (validPage <? Js.ceilDiv count validLimit)
                      (1 <? validPage))))
    end.

(** *** Deletion *)

Inductive DeleteData :=
| Dependencies (eventServicesCount paymentsCount reviewsCount : nat)
               (hasInvoice : bool)
| Deleted (eventId : Z)
          (deletedEventServices deletedPayments deletedReviews deletedInvoice : nat).

Definition paymentsOf (eventId : Z) (db : Db) : list Payment :=
  filter (fun p => Table.optEq (pay_event_id p) eventId) (payments db).

Definition reviewsOf (eventId : Z) (db : Db) : list Review :=
  filter (fun r => rev_event_id r =? eventId) (reviews db).

Definition dependencyMessage (nServices nPayments nReviews : nat)
           (hasInvoice : bool) : string :=
  "Cannot delete event. It has " ++ Js.showNat nServices ++ " services, "
  ++ Js.showNat nPayments ++ " payments, " ++ Js.showNat nReviews
  ++ " reviews, and " ++ (if hasInvoice then "1" else "0")
  ++ " invoice. Use forceDelete to delete anyway.".

Definition deleteEventTx (validEventId : Z) (invoice : option Invoice)
           (forceDelete : bool) : Tx unit :=
  (if forceDelete then
     write (fun db =>
       Table.setEventServices
         (filter (fun es => negb (es_event_id es =? validEventId))
                 (eventServices db)) db) ;;;
     write (fun db =>
       Table.setPayments
         (filter (fun p => negb (Table.optEq (pay_event_id p) validEventId))
                 (payments db)) db) ;;;
     write (fun db =>
       Table.setReviews
         (filter (fun r => negb (rev_event_id r =? validEventId))
                 (reviews db)) db) ;;;
     match invoice with
     | Some inv =>
         write (fun db =>
           Table.setInvoiceDetails
             (filter (fun d => negb (det_invoice_id d =? invoice_id inv))
                     (invoiceDetails db)) db) ;;;
         write (fun db =>
           Table.setInvoices
             (filter (fun i => negb (invoice_id i =? invoice_id inv))
                     (invoices db)) db)
     | None => ret tt
     end
   else ret tt) ;;;
  write (fun db =>
    Table.setEvents
      (filter (fun ev => negb (event_id ev =? validEventId)) (events db)) db).

Definition deleteEvent (eventId : Z) (forceDelete : bool) (db : Db)
  : Result DeleteData * Db :=
  match parseAndValidateId eventId with
  | None => (handleError "Invalid value for argument event_id", db)
  | Some validEventId =>
  match Table.findBy event_id validEventId (events db) with
  | None => (createValidationResult false ["Event not found"] None, db)
  | Some existingEvent =>
      let event_services := eventServicesOf validEventId db in
      let invoice := invoiceOf validEventId db in
      let pays := paymentsOf validEventId db in
      let revs := reviewsOf validEventId db in
      let hasDependencies :=
        (Nat.ltb 0 (List.length event_services) || Js.isSome invoice
         || Nat.ltb 0 (List.length pays) || Nat.ltb 0 (List.length revs))%bool in
      if (hasDependencies && negb forceDelete)%bool then
        (createValidationResult false
           [dependencyMessage (List.length event_services) (List.length pays)
                              (List.length revs) (Js.isSome invoice)]
           (Some (Dependencies (List.length event_services) (List.length pays)
                               (List.length revs) (Js.isSome invoice))),
         db)
      else
        match transaction (deleteEventTx validEventId invoice forceDelete) db with
        | (Done _ _, db') =>
            (createValidationResult true []
               (Some (Deleted validEventId
                        (if forceDelete then List.length event_services else 0%nat)
                        (if forceDelete then List.length pays else 0%nat)
                        (if forceDelete then List.length revs else 0%nat)
                        (if (forceDelete && Js.isSome invoice)%bool then 1%nat
                         else 0%nat))),
             db')
        | (Thrown msg, db') => (handleError msg, db')
        end
  end end.

(** *** Status toggle *)

Definition toggled (s : EventStatus) : EventStatus :=
  match s with
  | PENDING => CONFIRMED
  | _ => PENDING
  end.

(** [toggleEventStatus(eventId)].  The approval e-mail sent after the
    update touches no table and swallows its own errors. *)
Definition toggleEventStatus (eventId : Z) (db : Db) : Result Event * Db :=
  match parseAndValidateId eventId with
  | None => (handleError "Invalid value for argument event_id", db)
  | Some validEventId =>
  match Table.findBy event_id validEventId (events db) with
  | None => (createValidationResult false ["Event not found"] None, db)
  | Some event =>
      let newStatus := toggled (status event) in
      let setStatus (ev : Event) : Event :=
        mkEvent (event_id ev) (event_name ev) (description ev) (start_time ev)
                (end_time ev) (event_date ev) (estimated_cost ev)
                (final_cost ev) (room_service_fee ev) newStatus
                (ev_account_id ev) (ev_room_id ev) (ev_event_type_id ev) in
      match Table.updateBy event_id validEventId setStatus (events db) with
      | Some rows =>
          (createValidationResult true []
             (Table.findBy event_id validEventId rows),
           Table.setEvents rows db)
      | None => (handleError "Record to update not found", db)
      end
  end end.

End EventService.

(** ** controller/eventController.js *)

Module EventController.

Import EventService EventServiceService.

Record Request := mkRequest {
  body : EventData;
  service_variants : list (Z * Z);
  user_account : option Z }.

Record Response := mkResponse {
  statusCode : Z;
  message : list string;
  payload : option (CreatedEvent * nat) }.

(** One turn of the loop over [service_variants]: validate the pair,
    insert the booking and its invoice line. *)
Definition bookVariant (newEvent : CreatedEvent) (item : Z * Z) : Tx unit :=
  let '(serviceId, variantId) := item in
  dbService <- query (fun db => Table.findBy service_id serviceId (services db)) ;;
  match dbService with
  | None => throw "Service is not valid or inactive"
  | Some sv =>
  if negb (service_is_active sv) then throw "Service is not valid or inactive"
  else
  variation <- query (fun db => Table.findBy variation_id variantId (variations db)) ;;
  match variation with
  | None => throw "Variation is not valid or does not belong to service"
  | Some v =>
  if negb (var_is_active v && (var_service_id v =? serviceId))%bool then
    throw "Variation is not valid or does not belong to service"
  else
  availabilityCheck <-
    (if (Js.isSome (ce_scheduled_time newEvent)
         && Js.truthyOQ (ce_duration_hours newEvent))%bool then
       checkVariationAvailability variantId (ce_scheduled_time newEvent)
                                  (ce_duration_hours newEvent)
     else ret (createValidationResult true [] None)) ;;
  if negb (isValid availabilityCheck) then throw "Variation is not available"
  else
  insertEventService (fun id =>
    mkEventService id (event_id (ce_event newEvent)) serviceId (Some variantId)
                   1 None None "CONFIRMED" (ce_scheduled_time newEvent)
                   (ce_duration_hours newEvent)) ;;;
  invoice <- query (invoiceOf (event_id (ce_event newEvent))) ;;
  match invoice with
  | None => throw "Cannot read properties of null (reading 'invoice_id')"
  | Some inv =>
      insertInvoiceDetail (fun id =>
        mkInvoiceDetail id (invoice_id inv) (variation_name v) 1
                        (Js.orQ (var_base_price v) 0) (Js.orQ (var_base_price v) 0)
                        SERVICE (Some serviceId) (Some variantId))
  end
  end end.

Fixpoint bookVariants (newEvent : CreatedEvent) (items : list (Z * Z))
  : Tx nat :=
  match items with
  | [] => ret 0%nat
  | item :: rest =>
      bookVariant newEvent item ;;;
      n <- bookVariants newEvent rest ;;
      ret (S n)
  end.

(** [_sum.subtotal] over the SERVICE lines of the event's invoices;
    [None] when there is no such line. *)
Definition totalServiceCost (eventId : Z) (db : Db) : option Q :=
  let lines :=
    filter (fun d =>
              (ItemType_eqb (item_type d) SERVICE
               && match Table.findBy invoice_id (det_invoice_id d) (invoices db) with
                  | Some inv => inv_event_id inv =? eventId
                  | None => false
                  end)%bool)
           (invoiceDetails db) in
  match lines with
  | [] => None
  | _ => Some (fold_left Qplus (map subtotal lines) 0%Q)
  end.

Definition setEstimatedCost (c : Q) (ev : Event) : Event :=
  mkEvent (event_id ev) (event_name ev) (description ev) (start_time ev)
          (end_time ev) (event_date ev) (Some c) (final_cost ev)
          (room_service_fee ev) (status ev) (ev_account_id ev) (ev_room_id ev)
          (ev_event_type_id ev).

(** The second transaction of the controller. *)
Definition bookServicesTx (newEvent : CreatedEvent) (items : list (Z * Z))
  : Tx nat :=
  createdServicesCount <- bookVariants newEvent items ;;
  (if Nat.ltb 0 createdServicesCount then
     total <- query (totalServiceCost (event_id (ce_event newEvent))) ;;
     (fun db =>
        match Table.updateBy event_id (event_id (ce_event newEvent))
                (setEstimatedCost
                   (Js.coalesceQ (estimated_cost (ce_event newEvent)) 0
                    + Js.orQ total 0)%Q)
                (events db) with
        | Some rows => Done tt (Table.setEvents rows db)
        | None => Thrown "Record to update not found"
        end)
   else ret tt) ;;;
  ret createdServicesCount.

Definition createEventController (now : Z) (req : Request) (db : Db)
  : Response * Db :=
  let eventData :=
    match user_account req, truthyId (d_account_id (body req)) with
    | Some a, None =>
        if Js.truthyZ a then
          let b := body req in
          mkEventData (d_event_name b) (d_description b) (d_start_time b)
                      (d_end_time b) (d_event_date b) (d_estimated_cost b)
                      (d_final_cost b) (d_room_service_fee b) (Some a)
                      (d_room_id b) (d_event_type_id b) (d_status b)
                      (d_service_id b) (d_variation_id b)
        else body req
    | _, _ => body req
    end in
  let eventServices := service_variants req in
  let '(result, db1) := createEvent now eventData db in
  match isValid result, data result with
  | true, Some newEvent =>
      match eventServices with
      | [] => (mkResponse 201 ["Event created successfully"] (Some (newEvent, 0%nat)), db1)
      | _ =>
          match transaction (bookServicesTx newEvent eventServices) db1 with
          | (Done n _, db2) =>
              (mkResponse 201 ["Event created successfully"] (Some (newEvent, n)), db2)
          | (Thrown _, db2) => (mkResponse 500 ["Internal server error"] None, db2)
          end
      end
  | true, None => (mkResponse 500 ["Internal server error"] None, db1)
  | false, _ => (mkResponse 400 (errors result) None, db1)
  end.

End EventController.

(** ** The cost calculator in the words of the specification *)

Module CostSpec.






(** The window a request asks for, in hours. *)
Definition requestedHours (d : EventService.EventData) : option Q :=
  match EventService.d_start_time d, EventService.d_end_time d with
  | Some s, Some e => Some (EventService.hoursBetween s e)
  | _, _ => None
  end.

(** A booking row and the invoice line written with it. *)
Definition bookedLine (eventId : Z) (vars : list Variation) (invs : list Invoice)
           (es : EventService) (d : InvoiceDetail) : Prop :=
  es_event_id es = eventId /\ quantity es = 1 /\ custom_price es = None
  /\ item_type d = SERVICE
  /\ (exists inv, find (fun i => inv_event_id i =? eventId) invs = Some inv
                  /\ det_invoice_id d = invoice_id inv)
  /\ (exists vid v, es_variation_id es = Some vid
                    /\ Table.findBy variation_id vid vars = Some v
                    /\ subtotal d = Js.orQ (var_base_price v) 0).

End CostSpec.

(** ** Referential integrity of a store *)

Module Integrity.


End Integrity.

(** ** Worked scenarios *)

Module Scenario.

Import EventService EventController.

Definition hour : Z := 3600000.

(** Room R and variation V of the specification's first example. *)
Definition roomR : Room :=
  mkRoom 1 "Hall" AVAILABLE true (Some (1000000 # 1)) (Some (200000 # 1)).
Definition serviceS : Service := mkService 1 "Banquet" true.
Definition variationV : Variation :=
  mkVariation 1 1 "Catering" (Some (500000 # 1)) true.

Definition emptyStore : Db :=
  mkDb [] [roomR] [] [serviceS] [variationV] [] [] [] [] [] [] [].

Definition window (name : string) (s e : Z) : EventData :=
  mkEventData (Some name) None (Some (s * hour)) (Some (e * hour)) None None
              None None None (Some 1) None None None None.

(** A two hour booking of R with V, 10:00 to 12:00. *)
Definition galaRequest : Request := mkRequest (window "Gala" 10 12) [(1, 1)] None.

(** The same booking with a service that does not exist. *)
Definition brokenRequest : Request := mkRequest (window "Gala" 10 12) [(9, 1)] None.

Definition afterGala : Db := snd (createEventController 777 galaRequest emptyStore).

(** The event row the gala leaves in the store. *)
Definition storedGala : Event :=
  mkEvent 1 "Gala" None (Some 36000000) (Some 43200000) 0
          (Some (6840000000000 # 3600000)) None None PENDING None (Some 1) None.

(** The invoice the gala leaves in the store. *)
Definition storedInvoice : Invoice :=
  mkInvoice 1 "INV-777" (5040000000000 # 3600000) 1 None INV_PENDING 777
            (Some 604800777).

Definition setStatus (st : EventStatus) (ev : Event) : Event :=
  mkEvent (event_id ev) (event_name ev) (description ev) (start_time ev)
          (end_time ev) (event_date ev) (estimated_cost ev) (final_cost ev)
          (room_service_fee ev) st (ev_account_id ev) (ev_room_id ev)
          (ev_event_type_id ev).

(** The store after the gala, the event being in the given status. *)
Definition galaIn (st : EventStatus) : Db :=
  Table.setEvents (map (setStatus st) (events afterGala)) afterGala.

(** An update that only names the event and supplies a cost. *)
Definition costOnly (c : Q) : EventData :=
  mkEventData (Some "Gala") None None None None (Some c) None None None None
              None None None None.

(** An update that names the event and asks for a new window. *)
Definition moveTo (s e : Z) : EventData :=
  mkEventData (Some "Gala") None (Some (s * hour)) (Some (e * hour)) None None
              None None None None None None None None.

(** A listing request for one page. *)
Definition pageOf (p l : Z) : Filters :=
  mkFilters None None None None None None None (Some p) (Some l) None None true.

(** An event with two bookings and one invoice. *)
Definition twoBookings : Db :=
  Table.setEventServices
    (eventServices afterGala
     ++ [mkEventService 2 1 1 (Some 1) 1 None None "CONFIRMED" None None])
    afterGala.

End Scenario.

(** ** service/room.service.js: soft delete, restore and statistics *)

Module RoomAdmin.

Definition setRooms (l : list Room) (db : Db) : Db :=
  mkDb (accounts db) l (eventTypes db) (services db) (variations db)
       (events db) (eventServices db) (invoices db) (invoiceDetails db)
       (payments db) (reviews db) (notifications db).

Definition setActive (b : bool) (r : Room) : Room :=
  mkRoom (room_id r) (room_name r) (room_status r) b (base_price r)
         (hourly_rate r).

(** [prisma.room.update({ where: { room_id }, data: { is_active } })],
    wrapped as [deleteRoom] and [restoreRoom] wrap it: the updated row, or
    the message of what the update threw. *)
Definition setRoomActive (b : bool) (roomId : Z) (db : Db) : Result Room * Db :=
  match Table.updateBy room_id roomId (setActive b) (rooms db) with
  | Some rows => (mkResult true [] (Table.findBy room_id roomId rows), setRooms rows db)
  | None => (mkResult false ["Record to update not found"] None, db)
  end.

(** [deleteRoom(room_id)]: the room is kept and marked inactive. *)
Definition deleteRoom (roomId : Z) (db : Db) : Result Room * Db :=
  setRoomActive false roomId db.


Record RoomStatistics := mkRoomStatistics {
  st_total : nat;
  st_available : nat;
  st_occupied : nat;
  st_maintenance : nat;
  st_reserved : nat }.

Definition countStatus (s : RoomStatus) (db : Db) : nat :=
  List.length (filter (fun r => RoomStatus_eqb (room_status r) s) (rooms db)).

(** [getRoomStatistics()] *)
Definition getRoomStatistics (db : Db) : Result RoomStatistics :=
  mkResult true []
    (Some (mkRoomStatistics (List.length (rooms db))
             (countStatus AVAILABLE db) (countStatus OCCUPIED db)
             (countStatus MAINTENANCE db) (countStatus RESERVED db))).

End RoomAdmin.

(** ** service/event.service.js: reading events *)

Module EventRead.

Import EventService.

(** [getEventById(eventId, options)]; of the options only
    [includeEventServices] bears on the data kept here, the count of
    bookings. *)
Definition getEventById (eventId : Z) (includeEventServices : bool) (db : Db)
  : Result (Event * nat) :=
  match parseAndValidateId eventId with
  | None => handleError "Invalid value for argument event_id"
  | Some validEventId =>
      match Table.findBy event_id validEventId (events db) with
      | None => createValidationResult false ["Event not found"] None
      | Some event =>
          createValidationResult true []
            (Some (event,
                   if includeEventServices
                   then List.length (eventServicesOf validEventId db)
                   else 0%nat))
      end
  end.



End EventRead.

(** ** controller/eventController.js: status and details *)

Module EventAdmin.

Import EventService EventRead.





Record DetailsResponse := mkDetailsResponse {
  dr_code : Z;
  dr_body : Result (Event * nat) }.

(** The handler of [getEventDetails], behind [validateToken]: [user] is
    the authenticated caller. *)
Definition getEventDetails (id : Z) (user : User) (db : Db) : DetailsResponse :=
  let result := getEventById id false db in
  match isValid result, data result with
  | true, Some (event, _) =>
      if (negb (Table.optEq (ev_account_id event) (user_account_id user))
          && negb (Js.includes ["ADMIN"; "STAFF"] (role user)))%bool
      then
        mkDetailsResponse 403
          (createValidationResult false ["Unauthorized: Cannot access this event"] None)
      else mkDetailsResponse 200 result
  | true, None => mkDetailsResponse 200 result
  | false, _ => mkDetailsResponse 404 result
  end.

End EventAdmin.

(** ** service/event_service.service.js and utils/notification.js: bookings
    of an existing event and their notice *)

Module Booking.

Import EventService EventServiceService.

(** The body of a booking request. *)
Record ServiceData := mkServiceData {
  sd_event_id : option Z;
  sd_service_id : option Z;
  sd_variation_id : option Z;
  sd_quantity : option Q;
  sd_custom_price : option Q;
  sd_notes : option string;
  sd_status : option string;
  sd_scheduled_time : option Z;
  sd_duration_hours : option Q }.

Definition validStatuses : list string := ["CONFIRMED"; "PENDING"; "CANCELLED"].

Definition validateEventServiceData (serviceData : ServiceData) : list string :=
  let quantityValidation :=
    validateNumber (sd_quantity serviceData) "Quantity"
                   (mkNumberConfig false (Some 1) None true) in
  let serviceIdValidation :=
    match sd_service_id serviceData with
    | Some id => parseAndValidateId id
    | None => None
    end in
  (v_errors quantityValidation
   ++ (if Js.isSome serviceIdValidation then [] else ["Invalid service ID"])
   ++ idError (sd_event_id serviceData) "Invalid event ID"
   ++ idError (sd_variation_id serviceData) "Invalid variation ID"
   ++ costErrors (sd_custom_price serviceData) "Custom price"
   ++ (if Js.truthyOS (sd_notes serviceData) then
         v_errors (validateString (sd_notes serviceData) "Notes"
                     (mkStringConfig false None (Some 1000%nat) true))
       else [])
   ++ match sd_status serviceData with
      | Some s =>
          if (Js.truthyS s && negb (Js.includes validStatuses s))%bool
          then ["Invalid event service status"] else []
      | None => []
      end)%list.

(** [Number(quantity)] for the INTEGER column. *)
Definition toInt (q : Q) : Z := Qnum q / Zpos (Qden q).

(** An INTEGER column takes the numbers of 32 bits, on any other the
    client raises an error, and keeps their integer part. *)
Definition MAX_INT : Z := 2147483647.

Definition fitsInt (q : Q) : bool :=
  (Qle_bool (inject_Z (- MAX_INT - 1)) q && Qle_bool q (inject_Z MAX_INT))%bool.

Definition truncate (q : Q) : Q := inject_Z (Z.quot (Qnum q) (Zpos (Qden q))).

Definition VALID_NOTIFICATION_TYPES : list string :=
  ["REMINDER"; "PAYMENT_SUCCESS"; "CONFIRMATION"; "WARNING"; "ERROR"].

(** The values of the NotificationType enum of the notifications table. *)
Definition NotificationType : list string :=
  ["CONFIRMATION"; "REMINDER"; "COMPLETED"].

Definition INVALID_ENUM (field : string) (values : list string) : string :=
  field ++ " must be one of: " ++ String.concat ", " values.

(** [validateEnum(value, fieldName, enumValues, required)] *)
Definition validateEnum (value fieldName : string) (enumValues : list string)
           (required : bool) : Validated string :=
  if (required && negb (Js.truthyS value))%bool then
    mkValidated false [REQUIRED_FIELD fieldName] None
  else if negb (Js.truthyS value) then mkValidated true [] None
  else if negb (Js.includes enumValues value) then
    mkValidated false [INVALID_ENUM fieldName enumValues] None
  else mkValidated true [] (Some value).

(** [createNotification({ account_id, title, message, type })] on the
    module's client.  The notice is stored with its title and message
    trimmed; an error the client raises, as for a type the table does not
    have, is caught and handed back. *)
Definition createNotification (account : option Z) (title message type : string)
           (now : Z) (db : Db) : Result Notification * Db :=
  let titleValidation :=
    validateString (Some title) "Notification title"
                   (mkStringConfig true None (Some 255%nat) true) in
  let messageValidation :=
    validateString (Some message) "Notification message"
                   (mkStringConfig true None (Some 1000%nat) true) in
  let typeValidation :=
    validateEnum type "Notification type" VALID_NOTIFICATION_TYPES true in
  let errors :=
    (v_errors titleValidation ++ v_errors messageValidation
     ++ v_errors typeValidation)%list in
  if negb (Nat.eqb (List.length errors) 0) then
    (createValidationResult false errors None, db)
  else
  let create (a : option Z) : Result Notification * Db :=
    if negb (Js.includes NotificationType type) then
      (createValidationResult false ["Invalid value for argument type"] None, db)
    else
      let notification :=
        mkNotification (Table.nextId notification_id (notifications db))
                       (Js.trim title) (Js.trim message) false type now a in
      (createValidationResult true [] (Some notification),
       Table.setNotifications (notifications db ++ [notification]) db) in
  match truthyId account with
  | Some a =>
      match Table.findBy account_id a (accounts db) with
      | None => (createValidationResult false ["Account not found"] None, db)
      | Some _ => create (Some a)
      end
  | None => create None
  end.

(** The double quote, and the message of the notice of a booking. *)
Definition quote : string := String (ascii_of_nat 34) EmptyString.

Definition bookedMessage (serviceName eventName : string) : string :=
  "You have booked " ++ quote ++ serviceName ++ quote ++ " for event "
  ++ quote ++ eventName ++ quote ++ ".".

(** [createEventService(serviceData, user)].  The function runs on the
    module's client, outside any transaction: it inserts the booking and
    then, for a caller with an account, sends the confirmation notice,
    whose outcome it does not look at.  [now] is the time on the clock. *)
Definition createEventService (serviceData : ServiceData) (user : option User)
           (now : Z) (db : Db) : Result EventService * Db :=
  let fail (msg : string) : Result EventService * Db :=
    (createValidationResult false [msg] None, db) in
  let validationErrors := validateEventServiceData serviceData in
  if negb (Nat.eqb (List.length validationErrors) 0) then
    (createValidationResult false validationErrors None, db)
  else
  match sd_event_id serviceData, sd_service_id serviceData with
  | None, _ => (handleError "Invalid value for argument event_id", db)
  | _, None => (handleError "Invalid value for argument service_id", db)
  | Some eventId, Some serviceId =>
  match Table.findBy event_id eventId (events db) with
  | None => fail "Event not found or cancelled"
  | Some event =>
  if EventStatus_eqb (status event) CANCELLED then
    fail "Event not found or cancelled"
  else
  match Table.findBy service_id serviceId (services db) with
  | None => fail "Service not found or inactive"
  | Some service =>
  if negb (service_is_active service) then fail "Service not found or inactive"
  else
  let variationCheck : option (list string) :=
    match truthyId (sd_variation_id serviceData) with
    | None => None
    | Some variationId =>
        match Table.findBy variation_id variationId (variations db) with
        | None =>
            Some ["Variation not found, inactive, or does not belong to the specified service"]
        | Some v =>
            if negb (var_is_active v && (var_service_id v =? serviceId))%bool then
              Some ["Variation not found, inactive, or does not belong to the specified service"]
            else if (Js.isSome (sd_scheduled_time serviceData)
                     && Js.truthyOQ (sd_duration_hours serviceData))%bool then
              match checkVariationAvailability variationId
                      (sd_scheduled_time serviceData)
                      (sd_duration_hours serviceData) db with
              | Done r _ => if isValid r then None else Some (errors r)
              | Thrown msg => Some [msg]
              end
            else None
        end
    end in
  match variationCheck with
  | Some errs => (createValidationResult false errs None, db)
  | None =>
      if negb (match sd_quantity serviceData with
               | Some q => fitsInt q
               | None => true
               end) then
        (handleError "Invalid value for argument quantity", db)
      else if negb (match truthyNum (sd_duration_hours serviceData) with
                    | Some d => fitsInt d
                    | None => true
                    end) then
        (handleError "Invalid value for argument duration_hours", db)
      else
      let newEventService :=
        mkEventService (Table.nextId event_service_id (eventServices db))
          eventId serviceId (truthyId (sd_variation_id serviceData))
          (match sd_quantity serviceData with Some q => toInt q | None => 1 end)
          (truthyNum (sd_custom_price serviceData))
          (trimOrNull (sd_notes serviceData))
          (match sd_status serviceData with Some s => s | None => "CONFIRMED" end)
          (sd_scheduled_time serviceData)
          (option_map truncate (truthyNum (sd_duration_hours serviceData))) in
      let db1 := Table.setEventServices (eventServices db ++ [newEventService]) db in
      let db2 :=
        match user with
        | Some u =>
            if Js.truthyZ (user_account_id u) then
              snd (createNotification (Some (user_account_id u)) "Service Booked"
                     (bookedMessage (service_name service) (event_name event))
                     "CONFIRMATION" now db1)
            else db1
        | None => db1
        end in
      (createValidationResult true [] (Some newEventService), db2)
  end
  end end end.

(** [deleteEventService(eventServiceId)] *)
Definition deleteEventService (eventServiceId : Z) (db : Db) : Result Z * Db :=
  match parseAndValidateId eventServiceId with
  | None => (handleError "Invalid value for argument event_service_id", db)
  | Some validEventServiceId =>
      match Table.findBy event_service_id validEventServiceId (eventServices db) with
      | None => (createValidationResult false ["Event service not found"] None, db)
      | Some _ =>
          (createValidationResult true [] (Some validEventServiceId),
           Table.setEventServices
             (filter (fun es => negb (event_service_id es =? validEventServiceId))
                     (eventServices db)) db)
      end
  end.

End Booking.

(** ** Further scenarios *)

Module Cases.

Import EventService EventController Booking.

(** A request for room R that names no service. *)
Definition plain (name : string) (s e : Z) : Request :=
  mkRequest (Scenario.window name s e) [] None.

(** A window in a room that is not in the store. *)
Definition elsewhere : EventData :=
  mkEventData (Some "Gala") None (Some (10 * Scenario.hour))
              (Some (12 * Scenario.hour)) None None None None None (Some 7)
              None None None None.

(** An update that only renames the event. *)
Definition rename (name : string) : EventData :=
  mkEventData (Some name) None None None None None None None None None None
              None None None.

(** An update that books service S with variation V. *)
Definition rebook : EventData :=
  mkEventData (Some "Gala") None None None None None None None None None None
              None (Some 1) (Some 1).

(** A second room, and an update that moves the gala there. *)
Definition roomG : Room :=
  mkRoom 2 "Garden" AVAILABLE true (Some (2000000 # 1)) (Some (300000 # 1)).

Definition twoRooms : Db :=
  RoomAdmin.setRooms [Scenario.roomR; roomG] Scenario.afterGala.

Definition relocate : EventData :=
  mkEventData (Some "Gala") None None None None None None None None (Some 2)
              None None None None.

(** A customer who owns nothing in the store. *)
Definition stranger : User := mkUser "CUSTOMER" 42.

Definition staff : User := mkUser "STAFF" 42.

(** The gala with payments and reviews attached. *)
Definition withDependents : Db :=
  Table.setReviews [mkReview 1 1]
    (Table.setPayments [mkPayment 1 (Some 1)] Scenario.twoBookings).

(** A store with an account, and a party that account owns, 100 hours
    after the epoch. *)
Definition members : Db :=
  mkDb [mkAccount 5 "Ann" None] [Scenario.roomR] [] [Scenario.serviceS]
       [Scenario.variationV] [] [] [] [] [] [] [].

Definition owned : Db :=
  snd (createEventController 0
         (mkRequest (Scenario.window "Party" 100 102) [] (Some 5)) members).

Definition owner : User := mkUser "CUSTOMER" 5.

(** A second booking of room R, from 14:00 to 16:00, in the store of the
    gala with its two bookings; each event has a payment and a review. *)
Definition twoEvents : Db :=
  Table.setReviews [mkReview 1 1; mkReview 2 2]
    (Table.setPayments [mkPayment 1 (Some 1); mkPayment 2 (Some 2)]
       (snd (createEventController 778
               (mkRequest (Scenario.window "Party" 14 16) [(1, 1)] None)
               Scenario.twoBookings))).

(** A workshop of event type 3 for account 5, hours 100 to 102, and a
    party without type or account, hours 104 to 106. *)
Definition workshop : EventData :=
  mkEventData (Some "Workshop") None (Some (100 * Scenario.hour))
              (Some (102 * Scenario.hour)) None None None None (Some 5) (Some 1)
              (Some 3) None None None.

Definition typed : Db :=
  snd (createEventController 0
         (mkRequest (Scenario.window "Party" 104 106) [] None)
         (snd (createEventController 0 (mkRequest workshop [] None)
                 (mkDb [mkAccount 5 "Ann" None] [Scenario.roomR]
                       [mkEventType 3 true] [Scenario.serviceS]
                       [Scenario.variationV] [] [] [] [] [] [] [])))).

(** The row the workshop has in that store. *)
Definition storedWorkshop : Event :=
  mkEvent 1 "Workshop" None (Some 360000000) (Some 367200000) 345600000
          (Some (5040000000000 # 3600000)) None None PENDING (Some 5) (Some 1)
          (Some 3).

(** A listing request with every filter but the search set. *)
Definition narrow : Filters :=
  mkFilters (Some 5) (Some 1) (Some 3) (Some "PENDING")
            (Some (99 * Scenario.hour)) (Some (103 * Scenario.hour)) None
            (Some 1) (Some 20) None None true.

(** A name of 128 e-acute (code 233) between no-break spaces (code 160). *)
Fixpoint repeatChar (n : nat) (c : ascii) : string :=
  match n with
  | O => EmptyString
  | S k => String c (repeatChar k c)
  end.

Definition accented : string :=
  String (ascii_of_nat 160)
         (repeatChar 128 (ascii_of_nat 233) ++ String (ascii_of_nat 160) "").

(** A booking of variation V for the gala, three units at a custom price. *)
Definition extraBooking : ServiceData :=
  mkServiceData (Some 1) (Some 1) (Some 1) (Some (3 # 1)) (Some (250000 # 1))
                (Some " late ") None None None.

End Cases.

(** ** Notions used in the statements *)

Module Derived.

Import EventService.

(** The hours of the window an event has in the store. *)
Definition storedHours (ev : Event) : option Q :=
  match start_time ev, end_time ev with
  | Some s, Some e => Some (hoursBetween s e)
  | _, _ => None
  end.


(** The service and variation an update books, when it names both. *)
Definition pairOf (u : EventData) : option (Z * Z) :=
  match truthyId (d_service_id u), truthyId (d_variation_id u) with
  | Some sv, Some v => Some (sv, v)
  | _, _ => None
  end.

(** A window of a whole number of hours, or none. *)
Definition wholeHours (h : option Q) : Prop :=
  match h with Some q => isInteger q = true | None => True end.

(** An amount in whole cents, or none: what a DECIMAL(10,2) column keeps
    as it is given. *)
Definition inCents (o : option Q) : Prop :=
  match o with Some q => isInteger (q * 100) = true | None => True end.


(** Does a request price nothing in a room: it supplies no cost, the room
    has no base price, and the window has no length or the room no hourly
    rate. *)
Definition unpriced (ed : EventData) (room : Room) : bool :=
  (negb (Js.truthyOQ (d_estimated_cost ed))
   && negb (Js.truthyOQ (base_price room))
   && (negb (Js.isSome (d_start_time ed) && Js.isSome (d_end_time ed))
       || negb (Js.truthyOQ (hourly_rate room))))%bool.

(** Between two stores, no invoice and no invoice line was written. *)
Definition unbilled (db db' : Db) : Prop :=
  invoices db' = invoices db /\ invoiceDetails db' = invoiceDetails db.

(** Between two stores, one invoice was written for event [E], PENDING, of
    total [c], with one line of type ROOM for one unit at the base price
    of [room]. *)
Definition billedFor (E : Event) (c : Q) (room : Room) (db db' : Db) : Prop :=
  exists inv det,
    invoices db' = (invoices db ++ [inv])%list
    /\ invoiceDetails db' = (invoiceDetails db ++ [det])%list
    /\ inv_event_id inv = event_id E
    /\ total_amount inv = c
    /\ inv_status inv = INV_PENDING
    /\ det_invoice_id det = invoice_id inv
    /\ item_type det = ROOM
    /\ det_quantity det = 1
    /\ base_price room = Some (unit_price det)
    /\ subtotal det = unit_price det.

(** The notice of a booking: unread, of type CONFIRMATION, titled Service
    Booked, sent at [now] to account [a], with the trimmed message that
    names the service and the event. *)
Definition confirmationFor (a : Z) (serviceName eventName : string) (now : Z)
           (n : Notification) : Prop :=
  n_account_id n = Some a
  /\ n_type n = "CONFIRMATION"
  /\ title n = "Service Booked"
  /\ message n = Js.trim (Booking.bookedMessage serviceName eventName)
  /\ is_read n = false
  /\ sent_at n = now.

End Derived.

(** * Properties *)

Import RoomService EventServiceService EventService EventController.

(** ** Tables and numbers *)

Lemma isSome_find_existsb {A} (f : A -> bool) (l : list A) :
  Js.isSome (find f l) = existsb f l.
Proof.
  induction l as [|x l IH]; simpl; [reflexivity|].
  destruct (f x); simpl; [reflexivity | exact IH].
Qed.

Lemma findBy_Some {A} (key : A -> Z) (k : Z) (rows : list A) (r : A) :
  Table.findBy key k rows = Some r -> In r rows /\ key r = k.
Proof.
  unfold Table.findBy. intros H. apply find_some in H.
  destruct H as [Hin Hk]. split; [exact Hin | now apply Z.eqb_eq].
Qed.

Lemma optEq_true (o : option Z) (k : Z) : Table.optEq o k = true <-> o = Some k.
Proof.
  destruct o as [z|]; simpl.
  - rewrite Z.eqb_eq. split; intros H; [now subst | now inversion H].
  - split; discriminate.
Qed.

Lemma EventStatus_eqb_true (a b : EventStatus) : EventStatus_eqb a b = true <-> a = b.
Proof. destruct a, b; simpl; split; intros H; congruence. Qed.

(** ** Room availability *)

Lemma conflicting_true (room s e : Z) (ev : Event) :
  conflicting room s e ev = true <->
  ev_room_id ev = Some room /\
  (status ev = CONFIRMED \/ status ev = IN_PROGRESS) /\
  exists a b, start_time ev = Some a /\ end_time ev = Some b /\ a < e /\ s < b.
Proof.
  unfold conflicting.
  rewrite !andb_true_iff, orb_true_iff, optEq_true, !EventStatus_eqb_true.
  destruct (start_time ev) as [a|], (end_time ev) as [b|].
  - rewrite !Z.ltb_lt. split.
    + intros [[[Hr Hs] Ha] Hb]. repeat split; try assumption.
      exists a, b. repeat split; assumption.
    + intros [Hr [Hs [a' [b' [Ea [Eb [Ha Hb]]]]]]].
      inversion Ea; inversion Eb; subst. repeat split; assumption.
  - split.
    + intros [_ H]; discriminate.
    + intros [_ [_ [a' [b' [_ [Eb _]]]]]]; discriminate.
  - split.
    + intros [[_ H] _]; discriminate.
    + intros [_ [_ [a' [b' [Ea _]]]]]; discriminate.
  - split.
    + intros [_ H]; discriminate.
    + intros [_ [_ [a' [b' [Ea _]]]]]; discriminate.
Qed.

(** C7. With both instants given, [checkRoomAvailability] answers with an
    availability flag that is false exactly when some stored event of the
    same room with status CONFIRMED or IN_PROGRESS has
    [start < requested end] and [end > requested start]; an event that
    ends at the requested start is never such a conflict, so a booking
    that touches the end of an existing one is accepted. *)
Theorem checkRoomAvailability_half_open :
  forall (db : Db) (room s e : Z) (d : option Q),
    (exists av,
        checkRoomAvailability db room (Some s) (Some e) d
        = mkResult true [] (Some av)
        /\ (isAvailable av = false <->
            exists ev, In ev (events db)
                       /\ ev_room_id ev = Some room
                       /\ (status ev = CONFIRMED \/ status ev = IN_PROGRESS)
                       /\ exists a b, start_time ev = Some a
                                      /\ end_time ev = Some b
                                      /\ a < e /\ s < b))
    /\ (forall ev, end_time ev = Some s -> conflicting room s e ev = false).
Proof.
  intros db room s e d. split.
  - eexists. split; [reflexivity|]. simpl.
    rewrite isSome_find_existsb, negb_false_iff, existsb_exists.
    split.
    + intros [ev [Hin Hc]]. exists ev. split; [exact Hin|].
      now apply conflicting_true.
    + intros [ev [Hin Hc]]. exists ev. split; [exact Hin|].
      now apply conflicting_true.
  - intros ev Hend. destruct (conflicting room s e ev) eqn:Hc; [|reflexivity].
    apply conflicting_true in Hc.
    destruct Hc as [_ [_ [a [b [_ [Eb [_ Hlt]]]]]]].
    rewrite Hend in Eb. inversion Eb; subst. lia.
Qed.

(** Event A holds room R from 10:00 to 12:00, CONFIRMED.  A request for
    12:00 to 14:00 finds the room free and the booking is created; a
    request for 11:00 to 13:00 is refused. *)
Lemma checkRoomAvailability_half_open_witness :
  conflicting 1 (12 * Scenario.hour) (14 * Scenario.hour)
              (Scenario.setStatus CONFIRMED Scenario.storedGala) = false
  /\ option_map isAvailable
       (data (checkRoomAvailability (Scenario.galaIn CONFIRMED) 1
                (Some (12 * Scenario.hour)) (Some (14 * Scenario.hour)) None))
     = Some true
  /\ statusCode (fst (createEventController 778
                        (mkRequest (Scenario.window "Talk" 12 14) [] None)
                        (Scenario.galaIn CONFIRMED)))
     = 201
  /\ statusCode (fst (createEventController 778
                        (mkRequest (Scenario.window "Talk" 11 13) [] None)
                        (Scenario.galaIn CONFIRMED)))
     = 400.
Proof.
  split.
  - apply (proj2 (checkRoomAvailability_half_open
                    (Scenario.galaIn CONFIRMED) 1 (12 * Scenario.hour)
                    (14 * Scenario.hour) None)
                 (Scenario.setStatus CONFIRMED Scenario.storedGala)).
    reflexivity.
  - vm_compute. repeat split.
Defined.

(** ** Variation availability *)

(** The answer of [checkVariationAvailability] is a function of the
    variations table alone. *)
Lemma checkVariationAvailability_reads_variations_only :
  forall v s d db,
    Js.truthyZ v = true -> Js.truthyOQ d = true ->
    checkVariationAvailability v (Some s) d db
    = Done (match Table.findBy variation_id v (variations db) with
            | Some var =>
                if var_is_active var
                then createValidationResult true [] (Some v)
                else createValidationResult false ["Variation not found or inactive"] None
            | None =>
                createValidationResult false ["Variation not found or inactive"] None
            end) db.
Proof.
  intros v s d db Hv Hd. unfold checkVariationAvailability.
  rewrite Hv, Hd. simpl. unfold bind, query.
  destruct (Table.findBy variation_id v (variations db)) as [var|]; [|reflexivity].
  destruct (var_is_active var); reflexivity.
Qed.

(** C1, at a failing input.  Variation V is booked, CONFIRMED, from 10:00
    for two hours; a request for V from 11:00 for two hours is reported
    available. *)
Theorem checkVariationAvailability_accepts_overlap :
  (exists es, In es (eventServices Scenario.afterGala)
              /\ es_variation_id es = Some 1
              /\ es_status es = "CONFIRMED"
              /\ scheduled_time es = Some (10 * Scenario.hour)
              /\ duration_hours es = Some (hoursBetween (10 * Scenario.hour)
                                                         (12 * Scenario.hour)))
  /\ checkVariationAvailability 1 (Some (11 * Scenario.hour)) (Some (2 # 1))
                                Scenario.afterGala
     = Done (createValidationResult true [] (Some 1)) Scenario.afterGala.
Proof.
  split.
  - eexists. split; [left; reflexivity|]. repeat split.
  - reflexivity.
Qed.

(** ** Status toggle *)


(** C6, at a failing input.  A CANCELLED event is PENDING after one toggle
    and CONFIRMED after two. *)
Theorem toggleEventStatus_twice_from_cancelled :
  let db0 := Scenario.galaIn CANCELLED in
  let db1 := snd (toggleEventStatus 1 db0) in
  let db2 := snd (toggleEventStatus 1 db1) in
  map status (events db0) = [CANCELLED]
  /\ isValid (fst (toggleEventStatus 1 db0)) = true
  /\ map status (events db1) = [PENDING]
  /\ isValid (fst (toggleEventStatus 1 db1)) = true
  /\ map status (events db2) = [CONFIRMED].
Proof. vm_compute. repeat split. Qed.

(** ** Deletion *)

(** C10. Without the force flag, deleting a stored event that has a
    booking, an invoice, a payment or a review is refused: the result is
    invalid, carries the count of each kind of dependent, and the store is
    the one the call started from. *)
Theorem deleteEvent_refused_on_dependencies :
  forall (db : Db) (eventId : Z) (ev : Event),
    0 < eventId ->
    Table.findBy event_id eventId (events db) = Some ev ->
    (eventServicesOf eventId db <> [] \/ invoiceOf eventId db <> None
     \/ paymentsOf eventId db <> [] \/ reviewsOf eventId db <> []) ->
    deleteEvent eventId false db
    = (mkResult false
         [dependencyMessage (List.length (eventServicesOf eventId db))
                            (List.length (paymentsOf eventId db))
                            (List.length (reviewsOf eventId db))
                            (Js.isSome (invoiceOf eventId db))]
         (Some (Dependencies (List.length (eventServicesOf eventId db))
                             (List.length (paymentsOf eventId db))
                             (List.length (reviewsOf eventId db))
                             (Js.isSome (invoiceOf eventId db)))),
       db).
Proof.
  intros db eventId ev Hpos Hfind Hdep.
  unfold deleteEvent, parseAndValidateId.
  destruct (eventId <=? 0) eqn:Hle; [apply Z.leb_le in Hle; lia|].
  rewrite Hfind.
  assert (Hb : (Nat.ltb 0 (List.length (eventServicesOf eventId db))
                || Js.isSome (invoiceOf eventId db)
                || Nat.ltb 0 (List.length (paymentsOf eventId db))
                || Nat.ltb 0 (List.length (reviewsOf eventId db)))%bool = true).
  { rewrite !orb_true_iff.
    destruct Hdep as [H|[H|[H|H]]].
    - left; left; left. destruct (eventServicesOf eventId db); [congruence|reflexivity].
    - left; left; right. destruct (invoiceOf eventId db); [reflexivity|congruence].
    - left; right. destruct (paymentsOf eventId db); [congruence|reflexivity].
    - right. destruct (reviewsOf eventId db); [congruence|reflexivity]. }
  rewrite Hb. reflexivity.
Qed.

(** An event with two bookings and an invoice: the refusal reports
    [eventServicesCount = 2] and [hasInvoice = true]. *)
Lemma deleteEvent_refused_on_dependencies_witness :
  deleteEvent 1 false Scenario.twoBookings
  = (mkResult false [dependencyMessage 2 0 0 true]
               (Some (Dependencies 2 0 0 true)),
     Scenario.twoBookings).
Proof.
  refine (deleteEvent_refused_on_dependencies Scenario.twoBookings 1
            Scenario.storedGala _ _ _).
  - lia.
  - reflexivity.
  - left. discriminate.
Defined.

(** ** Pagination *)






Lemma filter_all_true {A} (f : A -> bool) (l : list A) :
  (forall r, In r l -> f r = true) -> filter f l = l.
Proof.
  induction l as [|y l IH]; intros H; simpl; [reflexivity|].
  rewrite (H y (or_introl eq_refl)). f_equal. apply IH.
  intros r Hr. apply H. right. exact Hr.
Qed.






(** ** Updating the window of an event *)

Lemma hoursBetween_pos (s e : Z) : s < e -> (0 < hoursBetween s e)%Q.
Proof.
  intros H. unfold hoursBetween, Qlt, Qdiv, Qmult, Qinv. simpl. lia.
Qed.

Lemma Qle_bool_pos (q : Q) : (0 < q)%Q -> Qle_bool q 0 = false.
Proof.
  intros H. destruct (Qle_bool q 0) eqn:E; [|reflexivity].
  apply Qle_bool_iff in E. exfalso. exact (Qlt_not_le _ _ H E).
Qed.

Lemma truthyQ_pos (q : Q) : (0 < q)%Q -> Js.truthyQ q = true.
Proof.
  intros H. unfold Js.truthyQ. destruct (Qeq_bool q 0) eqn:E; [|reflexivity].
  apply Qeq_bool_iff in E. rewrite E in H. exfalso. exact (Qlt_irrefl _ H).
Qed.

Lemma recheckRoom_throws (r s : Z) (d : option Q) (db : Db) :
  Js.truthyOQ d = true ->
  recheckRoom r (Some s) d db
  = Thrown "Cannot read properties of null (reading 'reason')".
Proof.
  intros H. unfold recheckRoom, bind, query. simpl. rewrite H. reflexivity.
Qed.

Lemma roomStep_fails (ev : Event) (u : EventData) (d : option Q) (c : Amount)
      (r s : Z) (db : Db) :
  ev_room_id ev = Some r -> r <> 0 ->
  d_start_time u = Some s ->
  Js.truthyOQ d = true ->
  (exists msg, roomStep ev u d c db = Done (inl msg) db)
  \/ (exists msg, roomStep ev u d c db = Thrown msg).
Proof.
  intros Hr Hr0 Hs Hd. unfold roomStep. rewrite Hs, Hr.
  destruct (match truthyId (d_room_id u) with
            | Some r0 => if negb (Table.optEq (Some r) r0) then Some r0 else None
            | None => None
            end) as [roomId|].
  - unfold bind, query.
    destruct (Table.findBy room_id roomId (rooms db)) as [rm|]; [|left; eexists; reflexivity].
    destruct (roomBookable (Some rm)); [|left; eexists; reflexivity].
    rewrite recheckRoom_throws by exact Hd. right; eexists; reflexivity.
  - cbn [Js.isSome orb truthyId]. unfold Js.truthyZ.
    destruct (r =? 0) eqn:E; [apply Z.eqb_eq in E; contradiction|].
    cbn [negb]. unfold bind, query.
    destruct (roomBookable (Table.findBy room_id r (rooms db)));
      [|left; eexists; reflexivity].
    rewrite recheckRoom_throws by exact Hd. right; eexists; reflexivity.
Qed.

Lemma updateEventTx_fails (validEventId : Z) (ev : Event) (u : EventData)
      (sched : option Z) (d : option Q) (r s : Z) (db : Db) :
  ev_room_id ev = Some r -> r <> 0 ->
  d_start_time u = Some s ->
  Js.truthyOQ d = true ->
  failsCleanly db (updateEventTx validEventId ev u sched d db).
Proof.
  intros Hr Hr0 Hs Hd.
  unfold updateEventTx.
  unfold bind at 1. unfold query at 1.
  destruct (match truthyId (d_account_id u) with
            | Some a => Js.isSome (Table.findBy account_id a (accounts db))
            | None => true end); cbn [negb]; [|split; reflexivity].
  unfold bind at 1.
  destruct (roomStep_fails ev u d (startingCost u ev)
              r s db Hr Hr0 Hs Hd) as [[msg H]|[msg H]]; rewrite H.
  - split; reflexivity.
  - exact I.
Qed.

(** C8. For a stored event that references a room, an update that
    carries a start time and a later end time returns an invalid result
    and leaves the store as it was: the availability check is called with
    a null end time, answers with null data, and reading the reason from
    it throws inside the transaction. *)
Theorem updateEvent_new_window_fails :
  forall (now : Z) (db : Db) (eventId : Z) (updateData : EventData)
         (user : option User) (ev : Event) (r s e : Z),
    Table.findBy event_id eventId (events db) = Some ev ->
    ev_room_id ev = Some r -> r <> 0 ->
    d_start_time updateData = Some s ->
    d_end_time updateData = Some e ->
    s < e ->
    (forall room d, Js.truthyOQ d = true ->
       recheckRoom room (Some s) d db
       = Thrown "Cannot read properties of null (reading 'reason')")
    /\ isValid (fst (updateEvent now eventId updateData user db)) = false
    /\ snd (updateEvent now eventId updateData user db) = db.
Proof.
  intros now db eventId u user ev r s e Hfind Hr Hr0 Hs He Hlt.
  split; [intros room d Hd; apply recheckRoom_throws; exact Hd|].
  unfold updateEvent.
  destruct (parseAndValidateId eventId) as [validEventId|] eqn:Hid;
    [|split; reflexivity].
  assert (validEventId = eventId) as ->.
  { unfold parseAndValidateId in Hid. destruct (eventId <=? 0); congruence. }
  rewrite Hfind.
  match goal with |- context [if ?c then (_, db) else _] => destruct c end;
    [split; reflexivity|].
  match goal with |- context [if ?c then (_, db) else _] => destruct c end;
    [split; reflexivity|].
  match goal with |- context [if ?c then (_, db) else _] => destruct c end;
    [split; reflexivity|].
  rewrite Hs, He.
  rewrite (Qle_bool_pos _ (hoursBetween_pos s e Hlt)).
  unfold transaction.
  pose proof (updateEventTx_fails eventId ev u (Some s) (Some (hoursBetween s e))
                r s db Hr Hr0 Hs
                (truthyQ_pos _ (hoursBetween_pos s e Hlt))) as Hf.
  destruct (updateEventTx eventId ev u (Some s) (Some (hoursBetween s e)) db)
    as [res db'|msg]; simpl in *.
  - destruct Hf as [Hv Hdb]. subst db'. split; [exact Hv | reflexivity].
  - split; reflexivity.
Qed.

(** The gala, moved to 14:00 to 16:00 while the room is free. *)
Lemma updateEvent_new_window_fails_witness :
  isValid (fst (updateEvent 0 1 (Scenario.moveTo 14 16) None Scenario.afterGala))
  = false
  /\ snd (updateEvent 0 1 (Scenario.moveTo 14 16) None Scenario.afterGala)
     = Scenario.afterGala.
Proof.
  refine (proj2 (updateEvent_new_window_fails 0 Scenario.afterGala 1
                   (Scenario.moveTo 14 16) None Scenario.storedGala 1
                   (14 * Scenario.hour) (16 * Scenario.hour) _ _ _ _ _ _)).
  - reflexivity.
  - reflexivity.
  - discriminate.
  - reflexivity.
  - reflexivity.
  - reflexivity.
Defined.

(** C3, at a failing input.  The gala is CONFIRMED in room R from 10:00 to
    12:00 and is the only event.  The availability check for that very
    window finds a conflict, the event itself, and an update of the event
    that keeps the window is refused. *)
Theorem updateEvent_own_window_conflicts :
  let db := Scenario.galaIn CONFIRMED in
  map event_id (events db) = [1]
  /\ find (conflicting 1 (10 * Scenario.hour) (12 * Scenario.hour)) (events db)
     = Some (Scenario.setStatus CONFIRMED Scenario.storedGala)
  /\ option_map isAvailable
       (data (checkRoomAvailability db 1 (Some (10 * Scenario.hour))
                                    (Some (12 * Scenario.hour)) (Some (2 # 1))))
     = Some false
  /\ isValid (fst (updateEvent 0 1 (Scenario.moveTo 10 12) None db)) = false.
Proof. vm_compute. repeat split. Qed.

(** ** Creating an event *)

(** C2, at a failing input.  The booking names a service that does not
    exist: the controller answers 500, and the event, its invoice and the
    ROOM line written by the first transaction are in the store. *)
Theorem createEventController_keeps_event_on_failure :
  let out := createEventController 777 Scenario.brokenRequest Scenario.emptyStore in
  events Scenario.emptyStore = []
  /\ statusCode (fst out) = 500
  /\ map event_id (events (snd out)) = [1]
  /\ map inv_event_id (invoices (snd out)) = [1]
  /\ map item_type (invoiceDetails (snd out)) = [ROOM]
  /\ eventServices (snd out) = [].
Proof. vm_compute. repeat split. Qed.

(** C4, at a failing input.  After the gala is created with variation V,
    the event carries an estimated cost of 1,900,000 and its invoice a
    total of 1,400,000. *)
Theorem createEventController_invoice_total_stale :
  statusCode (fst (createEventController 777 Scenario.galaRequest Scenario.emptyStore))
  = 201
  /\ exists ev inv c,
      events Scenario.afterGala = [ev]
      /\ invoices Scenario.afterGala = [inv]
      /\ inv_event_id inv = event_id ev
      /\ estimated_cost ev = Some c
      /\ (c == 1900000 # 1)%Q
      /\ (total_amount inv == 1400000 # 1)%Q.
Proof.
  split; [vm_compute; reflexivity|].
  exists Scenario.storedGala, Scenario.storedInvoice, (6840000000000 # 3600000)%Q.
  vm_compute. repeat split.
Qed.


(** ** The estimated cost of a new event *)

Ltac split_match H :=
  match type of H with
  | context [match ?x with _ => _ end] =>
      lazymatch x with
      | context [match _ with _ => _ end] => fail
      | _ => destruct x eqn:?
      end
  end.

Lemma createChecks_early (ed : EventData) (db db' : Db) (r : Result CreatedEvent) :
  createChecks ed db = Done (inl r) db' -> isValid r = false.
Proof.
  intros H. unfold createChecks, bind, query, ret, throw in H.
  repeat (split_match H; try discriminate);
    inversion H; subst; reflexivity.
Qed.

Lemma createChecks_ok (ed : EventData) (db db' : Db) (ck : Checked) :
  createChecks ed db = Done (inr ck) db' ->
  db' = db
  /\ truthyId (d_room_id ed) = Some (room_id (ck_room ck))
  /\ Table.findBy room_id (room_id (ck_room ck)) (rooms db) = Some (ck_room ck)
  /\ ck_durationHours ck = CostSpec.requestedHours ed.
Proof.
  intros H. unfold createChecks, bind, query, ret, throw in H.
  unfold CostSpec.requestedHours.
  repeat (split_match H; try discriminate);
    inversion H; subst; cbn [ck_room ck_durationHours];
    match goal with
    | Hf : Table.findBy room_id ?z (rooms _) = Some ?r |- _ =>
        pose proof (proj2 (findBy_Some _ _ _ _ Hf)) as Hk; rewrite Hk;
        repeat split; try assumption; try reflexivity; try congruence
    end.
Qed.

Lemma le_fold_max (x : Z) (l : list Z) : In x l -> x <= fold_right Z.max 0 l.
Proof.
  induction l as [|y l IH]; simpl; [contradiction|].
  intros [H|H]; [subst; lia | specialize (IH H); lia].
Qed.

Lemma key_lt_nextId {A} (key : A -> Z) (rows : list A) (r : A) :
  In r rows -> key r < Table.nextId key rows.
Proof.
  intros H. unfold Table.nextId.
  pose proof (le_fold_max (key r) (map key rows) (in_map key rows r H)). lia.
Qed.

Lemma find_app_fresh {A} (f : A -> bool) (l : list A) (x : A) :
  (forall r, In r l -> f r = false) ->
  find f (l ++ [x])%list = if f x then Some x else None.
Proof.
  induction l as [|y l IH]; intros H; simpl; [reflexivity|].
  rewrite (H y (or_introl eq_refl)). apply IH.
  intros r Hr. apply H. right. exact Hr.
Qed.




Lemma createWrites_ok (now : Z) (ed : EventData) (ck : Checked) (db db1 : Db)
      (r : Result CreatedEvent) :
  createWrites now ed ck db = Done r db1 ->
  exists E,
    r = createValidationResult true []
          (Some (mkCreatedEvent E (ck_durationHours ck) (d_start_time ed)))
    /\ event_id E = Table.nextId event_id (events db)
    /\ estimated_cost E
       = Some (Js.orQ (d_estimated_cost ed) 0
               + roomCost (ck_room ck) (ck_durationHours ck))%Q
    /\ ev_room_id E = truthyId (d_room_id ed)
    /\ events db1 = (events db ++ [E])%list
    /\ eventServices db1 = eventServices db
    /\ variations db1 = variations db
    /\ services db1 = services db
    /\ ((invoices db1 = invoices db /\ invoiceDetails db1 = invoiceDetails db)
        \/ exists inv det,
             invoices db1 = (invoices db ++ [inv])%list
             /\ invoice_id inv = Table.nextId invoice_id (invoices db)
             /\ inv_event_id inv = event_id E
             /\ invoiceDetails db1 = (invoiceDetails db ++ [det])%list
             /\ item_type det = ROOM).
Proof.
  intros H.
  unfold createWrites, bind, ret, throw, insertEvent, insertInvoice,
    insertRoomDetail, insertInvoiceDetail in H.
  repeat (split_match H; try discriminate);
    inversion H; subst; clear H;
    repeat match goal with
           | Hd : Done _ _ = Done _ _ |- _ => inversion Hd; subst; clear Hd
           end;
    eexists; repeat split;
    try (left; split; reflexivity);
    try (right; do 2 eexists; repeat split).
Qed.

Lemma checkVariationAvailability_reads (v : Z) (s : option Z) (d : option Q)
      (db db' : Db) (r : Result Z) :
  checkVariationAvailability v s d db = Done r db' -> db' = db.
Proof.
  unfold checkVariationAvailability, bind, query, ret. intros H.
  repeat (split_match H; try discriminate); inversion H; reflexivity.
Qed.

Lemma bookVariant_ok (ne : CreatedEvent) (item : Z * Z) (db db' : Db) (u : unit) :
  bookVariant ne item db = Done u db' ->
  exists es d,
    CostSpec.bookedLine (event_id (ce_event ne)) (variations db) (invoices db) es d
    /\ eventServices db' = (eventServices db ++ [es])%list
    /\ invoiceDetails db' = (invoiceDetails db ++ [d])%list
    /\ events db' = events db
    /\ invoices db' = invoices db
    /\ variations db' = variations db.
Proof.
  destruct item as [sid vid]. intros H.
  unfold bookVariant, bind, query, ret, throw, insertEventService,
    insertInvoiceDetail, invoiceOf in H.
  repeat (split_match H; try discriminate);
    repeat match goal with
           | Hc : checkVariationAvailability _ _ _ _ = Done _ _ |- _ =>
               apply checkVariationAvailability_reads in Hc; subst
           | Hd : Done _ _ = Done _ _ |- _ => inversion Hd; subst; clear Hd
           end;
    do 2 eexists; (split; [|repeat split]);
    unfold CostSpec.bookedLine; cbn; repeat split;
    try (eexists; split; [eassumption | reflexivity]);
    try (do 2 eexists; split; [reflexivity | split; [eassumption | reflexivity]]).
Qed.

Lemma bookedLine_same (eventId : Z) (vars vars' : list Variation)
      (invs invs' : list Invoice) (es : EventService) (d : InvoiceDetail) :
  vars' = vars -> invs' = invs ->
  CostSpec.bookedLine eventId vars' invs' es d -> CostSpec.bookedLine eventId vars invs es d.
Proof. intros -> ->. trivial. Qed.

Lemma bookVariants_ok (ne : CreatedEvent) (items : list (Z * Z)) :
  forall (db db' : Db) (n : nat),
    bookVariants ne items db = Done n db' ->
    n = List.length items
    /\ events db' = events db
    /\ invoices db' = invoices db
    /\ variations db' = variations db
    /\ exists rows lines,
        eventServices db' = (eventServices db ++ rows)%list
        /\ invoiceDetails db' = (invoiceDetails db ++ lines)%list
        /\ List.length rows = List.length items
        /\ Forall2 (CostSpec.bookedLine (event_id (ce_event ne)) (variations db) (invoices db))
                   rows lines.
Proof.
  induction items as [|item rest IH]; intros db db' n H.
  - cbn in H. inversion H; subst. repeat split.
    exists [], []. rewrite !app_nil_r. repeat split. constructor.
  - cbn [bookVariants] in H. unfold bind at 1 in H.
    destruct (bookVariant ne item db) as [u db1|] eqn:Hstep; [|discriminate].
    unfold bind at 1 in H.
    destruct (bookVariants ne rest db1) as [m db2|] eqn:Hrest; [|discriminate].
    unfold ret in H. inversion H; subst. clear H.
    apply bookVariant_ok in Hstep.
    destruct Hstep as [es [d [Hline [Hes [Hdet [Hev [Hinv Hvar]]]]]]].
    apply IH in Hrest.
    destruct Hrest as [Hm [Hev2 [Hinv2 [Hvar2 [rows [lines [Hes2 [Hdet2 [Hlen Hall]]]]]]]]].
    subst m. repeat split; try congruence.
    exists (es :: rows), (d :: lines). repeat split.
    + rewrite Hes2, Hes, <- app_assoc. reflexivity.
    + rewrite Hdet2, Hdet, <- app_assoc. reflexivity.
    + simpl. congruence.
    + constructor; [exact Hline|].
      eapply Forall2_impl; [|exact Hall].
      intros a b Hab. eapply bookedLine_same; eassumption.
Qed.













(** ** What each transaction does guarantee *)

Lemma createChecks_reads (ed : EventData) (db db' : Db)
      (x : Result CreatedEvent + Checked) :
  createChecks ed db = Done x db' -> db' = db.
Proof.
  intros H. unfold createChecks, bind, query, ret, throw in H.
  repeat (split_match H; try discriminate); inversion H; reflexivity.
Qed.

(** X1. A [createEvent] that does not succeed leaves the store as it was:
    neither its checks nor its failed transaction write anything. *)
Lemma createEvent_failure_writes_nothing (now : Z) (ed : EventData) (db : Db) :
  isValid (fst (createEvent now ed db)) = false ->
  snd (createEvent now ed db) = db.
Proof.
  unfold createEvent, transaction.
  destruct (innerCreateEvent now ed db) as [r db1|msg] eqn:Hi; [|reflexivity].
  cbn [fst snd]. intros Hv.
  unfold innerCreateEvent in Hi. unfold bind at 1 in Hi.
  destruct (createChecks ed db) as [[early|ck] dbc|] eqn:Hck; [| |discriminate].
  - apply createChecks_reads in Hck. unfold ret in Hi. inversion Hi; subst.
    reflexivity.
  - apply createWrites_ok in Hi. destruct Hi as [E [-> _]]. discriminate Hv.
Qed.

(** On update the invoice total follows the cost: after the gala is
    repriced to 100 its invoice reads 100. *)
Lemma updateEvent_rewrites_invoice_total :
  let out := updateEvent 0 1 (Scenario.costOnly (100 # 1)) None Scenario.afterGala in
  isValid (fst out) = true
  /\ map total_amount (invoices (snd out)) = [100 # 1]
  /\ map estimated_cost (events (snd out)) = [Some (100 # 1)].
Proof. vm_compute. repeat split. Qed.

(** ** Guards of event creation *)

Lemma createEvent_valid_checks (now : Z) (ed : EventData) (db : Db) :
  isValid (fst (createEvent now ed db)) = true ->
  exists ck, createChecks ed db = Done (inr ck) db.
Proof.
  unfold createEvent, transaction.
  destruct (innerCreateEvent now ed db) as [r db1|msg] eqn:Hi;
    cbn [fst]; [|discriminate].
  intros Hv. unfold innerCreateEvent in Hi. unfold bind at 1 in Hi.
  destruct (createChecks ed db) as [[early|ck] dbc|] eqn:Hck; [| |discriminate].
  - unfold ret in Hi. inversion Hi; subst.
    apply createChecks_early in Hck. congruence.
  - exists ck. apply createChecks_reads in Hck as Heq. subst dbc. reflexivity.
Qed.

Lemma no_errors (l : list string) :
  negb (Nat.eqb (List.length l) 0) = false -> l = [].
Proof. destruct l; [reflexivity | discriminate]. Qed.

Lemma roomBookable_true (r : Room) :
  negb (roomBookable (Some r)) = false ->
  room_is_active r = true /\ room_status r = AVAILABLE.
Proof.
  unfold roomBookable. destruct (room_is_active r), (room_status r);
    simpl; intros H; try discriminate; split; reflexivity.
Qed.

Lemma hoursBetween_window (s e : Z) :
  Qle_bool (hoursBetween s e) 0 = false ->
  s < e /\ Js.truthyQ (hoursBetween s e) = true.
Proof.
  intros H. assert (Hlt : s < e).
  { destruct (Z_lt_le_dec s e) as [Hl|Hg]; [exact Hl|]. exfalso.
    assert (Hq : Qle_bool (hoursBetween s e) 0 = true).
    { apply Qle_bool_iff. unfold hoursBetween, Qle, Qdiv, Qmult, Qinv. simpl. lia. }
    congruence. }
  split; [exact Hlt|]. apply truthyQ_pos, hoursBetween_pos. exact Hlt.
Qed.

Lemma available_no_conflict (db : Db) (room s e : Z) (d : option Q)
      (errs : list string) (why : string) :
  checkRoomAvailability db room (Some s) (Some e) d
  = mkResult true errs (Some (mkAvailability true why)) ->
  find (conflicting room s e) (events db) = None.
Proof.
  unfold checkRoomAvailability. intros H. inversion H as [[Hf He]].
  destruct (find (conflicting room s e) (events db)); [discriminate|reflexivity].
Qed.

Lemma createChecks_guards (ed : EventData) (db db' : Db) (ck : Checked) :
  createChecks ed db = Done (inr ck) db' ->
  validateEventData ed = []
  /\ room_is_active (ck_room ck) = true
  /\ room_status (ck_room ck) = AVAILABLE
  /\ (forall a, truthyId (d_account_id ed) = Some a ->
                exists acc, Table.findBy account_id a (accounts db) = Some acc)
  /\ (forall t, truthyId (d_event_type_id ed) = Some t ->
                exists ty, Table.findBy type_id t (eventTypes db) = Some ty
                           /\ type_is_active ty = true)
  /\ (forall s e, d_start_time ed = Some s -> d_end_time ed = Some e ->
                  s < e
                  /\ find (conflicting (room_id (ck_room ck)) s e) (events db)
                     = None).
Proof.
  intros H. unfold createChecks, bind, query, ret, throw in H.
  repeat (split_match H; try discriminate);
    inversion H; subst; clear H; cbn [ck_room ck_durationHours];
    match goal with
    | Hf : Table.findBy room_id ?z (rooms _) = Some ?r |- _ =>
        pose proof (proj2 (findBy_Some _ _ _ _ Hf)) as Hk
    end;
    (split; [apply no_errors; assumption|]);
    (split; [eapply proj1, roomBookable_true; eassumption|]);
    (split; [eapply proj2, roomBookable_true; eassumption|]);
    (split; [intros a Ha; try discriminate Ha; inversion Ha; subst;
             match goal with
             | Hb : negb (Js.isSome (Table.findBy account_id a ?l)) = false |- _ =>
                 destruct (Table.findBy account_id a l); [eauto | discriminate Hb]
             end|]);
    (split; [intros t Ht; try discriminate Ht; inversion Ht; subst;
             match goal with
             | Hb : negb (type_is_active ?ty) = false |- _ =>
                 exists ty; split; [assumption|];
                 destruct (type_is_active ty); [reflexivity | discriminate Hb]
             end|]);
    intros s1 e1 Hs He; try discriminate Hs; try discriminate He;
    inversion Hs; inversion He; subst;
    match goal with
    | Hq : Qle_bool (hoursBetween _ _) 0 = false |- _ =>
        destruct (hoursBetween_window _ _ Hq) as [Hlt Htr]
    end;
    (split; [exact Hlt|]);
    match goal with
    | Hr : checkRoomAvailability _ _ _ _ _ = _ |- _ =>
        eapply available_no_conflict; eassumption
    | Hb : (Js.isSome (Some _) && Js.truthyOQ (Some _))%bool = false |- _ =>
        exfalso; simpl in Hb; rewrite Htr in Hb; discriminate Hb
    end.
Qed.

(** X2. A successful [createEvent] names a room of the store that is active
    and AVAILABLE; the account and the event type it names, if any, are in
    the store, the event type active. *)
Theorem createEvent_books_bookable_room :
  forall (now : Z) (ed : EventData) (db : Db),
    isValid (fst (createEvent now ed db)) = true ->
    exists room,
      truthyId (d_room_id ed) = Some (room_id room)
      /\ Table.findBy room_id (room_id room) (rooms db) = Some room
      /\ room_is_active room = true
      /\ room_status room = AVAILABLE
      /\ (forall a, truthyId (d_account_id ed) = Some a ->
                    exists acc, Table.findBy account_id a (accounts db) = Some acc)
      /\ (forall t, truthyId (d_event_type_id ed) = Some t ->
                    exists ty, Table.findBy type_id t (eventTypes db) = Some ty
                               /\ type_is_active ty = true).
Proof.
  intros now ed db Hv.
  destruct (createEvent_valid_checks now ed db Hv) as [ck Hck].
  destruct (createChecks_ok ed db db ck Hck) as [_ [Hroom [Hfind _]]].
  destruct (createChecks_guards ed db db ck Hck) as [_ [Ha [Hs [Hacc [Hty _]]]]].
  exists (ck_room ck). repeat split; assumption.
Qed.

Lemma createEvent_books_bookable_room_witness :
  exists room,
    truthyId (d_room_id (Scenario.window "Gala" 10 12)) = Some (room_id room)
    /\ Table.findBy room_id (room_id room) (rooms Scenario.emptyStore) = Some room
    /\ room_is_active room = true
    /\ room_status room = AVAILABLE
    /\ (forall a, truthyId (d_account_id (Scenario.window "Gala" 10 12)) = Some a ->
                  exists acc, Table.findBy account_id a (accounts Scenario.emptyStore)
                              = Some acc)
    /\ (forall t, truthyId (d_event_type_id (Scenario.window "Gala" 10 12)) = Some t ->
                  exists ty, Table.findBy type_id t (eventTypes Scenario.emptyStore)
                             = Some ty
                             /\ type_is_active ty = true).
Proof.
  apply (createEvent_books_bookable_room 777 (Scenario.window "Gala" 10 12)
           Scenario.emptyStore).
  reflexivity.
Defined.

(** X3. A successful [createEvent] whose request carries a start and an end
    has the end strictly after the start, and no stored event of the
    room with status CONFIRMED or IN_PROGRESS intersects the window. *)
Theorem createEvent_window_is_free :
  forall (now : Z) (ed : EventData) (db : Db) (room s e : Z),
    isValid (fst (createEvent now ed db)) = true ->
    truthyId (d_room_id ed) = Some room ->
    d_start_time ed = Some s ->
    d_end_time ed = Some e ->
    s < e
    /\ forall ev, In ev (events db) -> ev_room_id ev = Some room ->
                  status ev = CONFIRMED \/ status ev = IN_PROGRESS ->
                  forall a b, start_time ev = Some a -> end_time ev = Some b ->
                              b <= s \/ e <= a.
Proof.
  intros now ed db room s e Hv Hr Hs He.
  destruct (createEvent_valid_checks now ed db Hv) as [ck Hck].
  destruct (createChecks_ok ed db db ck Hck) as [_ [Hroom _]].
  destruct (createChecks_guards ed db db ck Hck) as [_ [_ [_ [_ [_ Hw]]]]].
  destruct (Hw s e Hs He) as [Hlt Hfind]. split; [exact Hlt|].
  rewrite Hroom in Hr. inversion Hr; subst room.
  intros ev Hin Hevr Hst a b Ha Hb.
  pose proof (find_none _ _ Hfind ev Hin) as Hc.
  destruct (Z_le_gt_dec b s) as [H1|H1]; [left; exact H1|].
  destruct (Z_le_gt_dec e a) as [H2|H2]; [right; exact H2|].
  exfalso. assert (Ht : conflicting (room_id (ck_room ck)) s e ev = true).
  { apply conflicting_true. repeat split; try assumption.
    exists a, b. repeat split; try assumption; lia. }
  congruence.
Qed.

Lemma createEvent_window_is_free_witness :
  12 * Scenario.hour < 14 * Scenario.hour
  /\ forall ev, In ev (events (Scenario.galaIn CONFIRMED)) ->
                ev_room_id ev = Some 1 ->
                status ev = CONFIRMED \/ status ev = IN_PROGRESS ->
                forall a b, start_time ev = Some a -> end_time ev = Some b ->
                            b <= 12 * Scenario.hour \/ 14 * Scenario.hour <= a.
Proof.
  apply (createEvent_window_is_free 778 (Scenario.window "Talk" 12 14)
           (Scenario.galaIn CONFIRMED) 1 (12 * Scenario.hour) (14 * Scenario.hour)).
  - reflexivity.
  - reflexivity.
  - reflexivity.
  - reflexivity.
Defined.

(** ** What event creation writes *)

Lemma Qpos_lt (q : Q) : Qpos q = true <-> (0 < q)%Q.
Proof.
  unfold Qpos, Js.Qltb. rewrite negb_true_iff. split.
  - intros H. apply Qnot_le_lt. intros Hle. apply Qle_bool_iff in Hle. congruence.
  - intros H. destruct (Qle_bool q 0) eqn:E; [|reflexivity].
    apply Qle_bool_iff in E. exfalso. exact (Qlt_not_le _ _ H E).
Qed.

Lemma createWrites_rows (now : Z) (ed : EventData) (ck : Checked) (db db1 : Db)
      (r : Result CreatedEvent) :
  createWrites now ed ck db = Done r db1 ->
  exists n st day,
    d_event_name ed = Some n
    /\ match d_status ed with Some s => statusOfString s | None => Some PENDING end
       = Some st
    /\ let cost := (Js.orQ (d_estimated_cost ed) 0
                    + roomCost (ck_room ck) (ck_durationHours ck))%Q in
       let E := mkEvent (Table.nextId event_id (events db)) (Js.trim n)
                        (trimOrNull (d_description ed)) (d_start_time ed)
                        (d_end_time ed) day (Some cost)
                        (truthyNum (d_final_cost ed))
                        (truthyNum (d_room_service_fee ed)) st
                        (truthyId (d_account_id ed)) (truthyId (d_room_id ed))
                        (truthyId (d_event_type_id ed)) in
       r = createValidationResult true []
             (Some (mkCreatedEvent E (ck_durationHours ck) (d_start_time ed)))
       /\ events db1 = (events db ++ [E])%list
       /\ (Qpos cost = false ->
           invoices db1 = invoices db /\ invoiceDetails db1 = invoiceDetails db)
       /\ (Qpos cost = true ->
           exists p,
             base_price (ck_room ck) = Some p
             /\ invoices db1
                = (invoices db
                   ++ [mkInvoice (Table.nextId invoice_id (invoices db))
                                 ("INV-" ++ Js.showZ now) cost
                                 (Table.nextId event_id (events db))
                                 (truthyId (d_account_id ed)) INV_PENDING now
                                 (Some (now + 7 * 24 * 60 * 60 * 1000))])%list
             /\ invoiceDetails db1
                = (invoiceDetails db
                   ++ [mkInvoiceDetail
                         (Table.nextId invoice_detail_id (invoiceDetails db))
                         (Table.nextId invoice_id (invoices db))
                         (room_name (ck_room ck)) 1 p p ROOM None None])%list).
Proof.
  intros H.
  unfold createWrites, bind, ret, throw, insertEvent, insertInvoice,
    insertRoomDetail, insertInvoiceDetail in H.
  repeat (split_match H; try discriminate);
    inversion H; subst; clear H;
    repeat match goal with
           | Hd : Done _ _ = Done _ _ |- _ => inversion Hd; subst; clear Hd
           end;
    do 3 eexists; (split; [reflexivity|]);
    (split; [cbn; first [eassumption | reflexivity]|]);
    cbv zeta; (split; [reflexivity|]); (split; [reflexivity|]);
    (split; [intros Hq; try congruence; split; reflexivity|]);
    intros Hq; try congruence;
    (eexists; split; [reflexivity | split; reflexivity]).
Qed.

Lemma createEvent_rows (now : Z) (ed : EventData) (db : Db) :
  isValid (fst (createEvent now ed db)) = true ->
  exists ck,
    createChecks ed db = Done (inr ck) db
    /\ createWrites now ed ck db
       = Done (fst (createEvent now ed db)) (snd (createEvent now ed db)).
Proof.
  intros Hv. pose proof Hv as Hv'.
  unfold createEvent, transaction in *.
  destruct (innerCreateEvent now ed db) as [r db1|msg] eqn:Hi;
    cbn [fst snd] in *; [|discriminate].
  unfold innerCreateEvent in Hi. unfold bind at 1 in Hi.
  destruct (createChecks ed db) as [[early|ck] dbc|] eqn:Hck; [| |discriminate].
  - unfold ret in Hi. inversion Hi; subst.
    apply createChecks_early in Hck. congruence.
  - apply createChecks_reads in Hck as Heq. subst dbc.
    exists ck. split; [reflexivity | exact Hi].
Qed.

Lemma unpriced_cost (ed : EventData) (room : Room) :
  Derived.unpriced ed room = true ->
  (Js.orQ (d_estimated_cost ed) 0 + roomCost room (CostSpec.requestedHours ed)
   == 0)%Q.
Proof.
  unfold Derived.unpriced, CostSpec.requestedHours, roomCost, Js.orQ, Js.truthyOQ.
  intros H. apply andb_true_iff in H. destruct H as [H H3].
  apply andb_true_iff in H. destruct H as [H1 H2].
  apply negb_true_iff in H1. apply negb_true_iff in H2.
  destruct (d_estimated_cost ed) as [q|]; [rewrite H1|];
    (destruct (base_price room) as [p|]; [rewrite H2|]);
    destruct (d_start_time ed), (d_end_time ed), (hourly_rate room) as [r|];
    cbn [Js.isSome andb negb orb] in H3; try discriminate; try reflexivity;
    apply negb_true_iff in H3; rewrite H3, andb_false_r; reflexivity.
Qed.

(** X4. After a successful [createEvent] the store holds one more event,
    in a room of the store.  Beside the event it writes either nothing to
    the invoices and their lines, or one invoice, PENDING, for that event,
    whose total is the estimated cost of the event, and one invoice line of
    type ROOM for one unit at the room's base price.  For a window of a
    whole number of hours and a supplied cost in whole cents the invoice is
    written exactly when the estimated cost is positive; a request that
    prices nothing has an estimated cost of 0 and writes no invoice. *)
Theorem createEvent_invoice :
  forall (now : Z) (ed : EventData) (db : Db),
    isValid (fst (createEvent now ed db)) = true ->
    exists E c room,
      events (snd (createEvent now ed db)) = (events db ++ [E])%list
      /\ estimated_cost E = Some c
      /\ Table.findBy room_id (room_id room) (rooms db) = Some room
      /\ ev_room_id E = Some (room_id room)
      /\ (Derived.unbilled db (snd (createEvent now ed db))
          \/ Derived.billedFor E c room db (snd (createEvent now ed db)))
      /\ (Derived.inCents (d_estimated_cost ed) ->
          Derived.wholeHours (CostSpec.requestedHours ed) ->
          ((0 < c)%Q -> Derived.billedFor E c room db (snd (createEvent now ed db)))
          /\ (~ (0 < c)%Q -> Derived.unbilled db (snd (createEvent now ed db))))
      /\ (Derived.unpriced ed room = true ->
          (c == 0)%Q /\ Derived.unbilled db (snd (createEvent now ed db))).
Proof.
  intros now ed db Hv.
  destruct (createEvent_rows now ed db Hv) as [ck [Hck Hw]].
  destruct (createChecks_ok ed db db ck Hck) as [_ [Hroom [Hfind Hdur]]].
  apply createWrites_rows in Hw.
  destruct Hw as [n [st [day [Hn [Hst Hw]]]]]. cbv zeta in Hw.
  destruct Hw as [_ [Hev [Hno Hyes]]].
  rewrite Hdur in Hev, Hno, Hyes.
  set (cost := (Js.orQ (d_estimated_cost ed) 0
                + roomCost (ck_room ck) (CostSpec.requestedHours ed))%Q) in *.
  eexists. exists cost, (ck_room ck).
  split; [exact Hev|]. split; [reflexivity|]. split; [exact Hfind|].
  split; [exact Hroom|].
  match goal with
  | |- (_ \/ Derived.billedFor ?E ?c ?r ?d ?d') /\ _ =>
      assert (Hbilled : Qpos c = true -> Derived.billedFor E c r d d')
  end.
  { intros Hpos. destruct (Hyes Hpos) as [p [Hp [Hi Hd]]].
    unfold Derived.billedFor. do 2 eexists.
    split; [exact Hi|]. split; [exact Hd|].
    cbn. repeat split. exact Hp. }
  split.
  { destruct (Qpos cost) eqn:E.
    - right. apply Hbilled. reflexivity.
    - left. apply Hno. reflexivity. }
  split.
  { intros _ _. split.
    - intros Hpos. apply Hbilled. apply Qpos_lt. exact Hpos.
    - intros Hneg. apply Hno.
      destruct (Qpos cost) eqn:E; [|reflexivity].
      exfalso. apply Hneg. apply Qpos_lt. exact E. }
  intros Hu. pose proof (unpriced_cost ed (ck_room ck) Hu) as Hz.
  fold cost in Hz.
  split; [exact Hz|]. apply Hno.
  destruct (Qpos cost) eqn:E; [|reflexivity].
  apply Qpos_lt in E. rewrite Hz in E. exfalso. exact (Qlt_irrefl 0 E).
Qed.

(** The gala, two hours in room R at 1,000,000 and 200,000 an hour: one
    invoice of 1,400,000 with one ROOM line of 1,000,000. *)
Lemma createEvent_invoice_witness :
  exists E inv det,
    events (snd (createEvent 777 (Scenario.window "Gala" 10 12) Scenario.emptyStore))
    = [E]
    /\ invoices (snd (createEvent 777 (Scenario.window "Gala" 10 12)
                                  Scenario.emptyStore))
       = [inv]
    /\ invoiceDetails (snd (createEvent 777 (Scenario.window "Gala" 10 12)
                                        Scenario.emptyStore))
       = [det]
    /\ estimated_cost E = Some (total_amount inv)
    /\ (total_amount inv == 1400000)%Q
    /\ inv_event_id inv = event_id E
    /\ inv_status inv = INV_PENDING
    /\ item_type det = ROOM
    /\ det_quantity det = 1
    /\ (unit_price det == 1000000)%Q.
Proof.
  destruct (createEvent_invoice 777 (Scenario.window "Gala" 10 12)
                                Scenario.emptyStore)
    as [E [c [room [HE [Hc [Hroom [_ [_ [Hexact _]]]]]]]]].
  - reflexivity.
  - destruct Hexact as [Hpos _]; [exact I | vm_compute; reflexivity |].
    assert (HE' := HE). vm_compute in HE'.
    assert (Hcost : (c == 1400000)%Q).
    { inversion HE' as [HE'']. rewrite <- HE'' in Hc. cbn [estimated_cost] in Hc.
      inversion Hc. reflexivity. }
    destruct Hpos as [inv [det [Hi [Hd [He [Ht [Hs [_ [Hty [Hq [Hp _]]]]]]]]]]].
    + rewrite Hcost. reflexivity.
    + exists E, inv, det. split; [exact HE|]. split; [exact Hi|].
      split; [exact Hd|]. split; [rewrite Ht; exact Hc|].
      split; [rewrite Ht; exact Hcost|]. split; [exact He|].
      split; [exact Hs|]. split; [exact Hty|]. split; [exact Hq|].
      assert (Hroom' := Hroom). 
      destruct (room_id room =? 1) eqn:Hk.
      * apply Z.eqb_eq in Hk. rewrite Hk in Hroom'. vm_compute in Hroom'.
        inversion Hroom' as [Hr]. rewrite <- Hr in Hp. cbn [base_price] in Hp.
        inversion Hp. reflexivity.
      * exfalso. revert Hroom' Hk. unfold Table.findBy, Scenario.emptyStore.
        cbn [rooms find]. cbn [room_id Scenario.roomR].
        destruct (1 =? room_id room) eqn:Hk'; [|discriminate].
        apply Z.eqb_eq in Hk'. rewrite <- Hk'. discriminate.
Defined.

Lemma validateString_name (value : option string) :
  v_errors (validateString value "Event name"
              (mkStringConfig true (Some VARIATION_NAME_MIN_LENGTH)
                              (Some VARIATION_NAME_MAX_LENGTH) true)) = [] ->
  exists n, value = Some n
            /\ (1 <= String.length (Js.trim n) <= 255)%nat.
Proof.
  unfold validateString. cbn [s_required minLength maxLength sanitize andb].
  destruct value as [n|]; cbn [Js.truthyOS negb]; [|discriminate].
  destruct (Js.truthyS n) eqn:Et; cbn [negb]; [|discriminate].
  unfold VARIATION_NAME_MIN_LENGTH, VARIATION_NAME_MAX_LENGTH.
  cbn [v_errors].
  destruct (Nat.ltb (String.length (Js.trim n)) 1) eqn:E1; [discriminate|].
  destruct (Nat.ltb 255 (String.length (Js.trim n))) eqn:E2; [discriminate|].
  intros _. exists n. split; [reflexivity|].
  apply Nat.ltb_ge in E1. apply Nat.ltb_ge in E2. lia.
Qed.

Lemma findBy_nextId {A} (key : A -> Z) (rows : list A) :
  Table.findBy key (Table.nextId key rows) rows = None.
Proof.
  destruct (Table.findBy key (Table.nextId key rows) rows) as [r|] eqn:E;
    [|reflexivity].
  apply findBy_Some in E. destruct E as [Hin Hk].
  pose proof (key_lt_nextId key rows r Hin). lia.
Qed.

(** X5. The event a successful [createEvent] hands back is the row it
    appended.  It has a key no stored event had, carries the requested
    name trimmed of the white space around it, of 1 to 255 UTF-16 code
    units, the requested start and end, and is PENDING unless the request
    names a status. *)
Theorem createEvent_new_row :
  forall (now : Z) (ed : EventData) (db : Db),
    isValid (fst (createEvent now ed db)) = true ->
    exists E n,
      data (fst (createEvent now ed db))
      = Some (mkCreatedEvent E (CostSpec.requestedHours ed) (d_start_time ed))
      /\ events (snd (createEvent now ed db)) = (events db ++ [E])%list
      /\ Table.findBy event_id (event_id E) (events db) = None
      /\ d_event_name ed = Some n
      /\ event_name E = Js.trim n
      /\ (1 <= String.length (Js.trim n) <= 255)%nat
      /\ start_time E = d_start_time ed
      /\ end_time E = d_end_time ed
      /\ (d_status ed = None -> status E = PENDING).
Proof.
  intros now ed db Hv.
  destruct (createEvent_rows now ed db Hv) as [ck [Hck Hw]].
  destruct (createChecks_ok ed db db ck Hck) as [_ [_ [_ Hdur]]].
  destruct (createChecks_guards ed db db ck Hck) as [Hval _].
  apply createWrites_rows in Hw.
  destruct Hw as [n [st [day [Hn [Hst Hw]]]]]. cbv zeta in Hw.
  destruct Hw as [Hr [Hev _]].
  unfold validateEventData in Hval. apply app_eq_nil in Hval.
  destruct Hval as [Hname _].
  destruct (validateString_name _ Hname) as [n' [Hn' Hlen]].
  rewrite Hn in Hn'. inversion Hn'; subst n'.
  eexists. exists n. rewrite Hr, Hev, <- Hdur. cbn [data createValidationResult].
  repeat split; try reflexivity; try assumption; try apply Hlen.
  - apply findBy_nextId.
  - intros Hnone. rewrite Hnone in Hst. inversion Hst. reflexivity.
Qed.

(** A name of 128 e-acute between two no-break spaces is stored without
    the spaces, 128 code units long. *)
Lemma createEvent_new_row_witness :
  exists E,
    data (fst (createEvent 777 (Scenario.window Cases.accented 10 12)
                           Scenario.emptyStore))
    = Some (mkCreatedEvent E (Some (hoursBetween (10 * Scenario.hour)
                                                 (12 * Scenario.hour)))
                           (Some (10 * Scenario.hour)))
    /\ events (snd (createEvent 777 (Scenario.window Cases.accented 10 12)
                                Scenario.emptyStore))
       = [E]
    /\ String.length Cases.accented = 130%nat
    /\ event_name E = Cases.repeatChar 128 (ascii_of_nat 233)
    /\ String.length (event_name E) = 128%nat
    /\ start_time E = Some (10 * Scenario.hour)
    /\ end_time E = Some (12 * Scenario.hour)
    /\ status E = PENDING.
Proof.
  destruct (createEvent_new_row 777 (Scenario.window Cases.accented 10 12)
                                Scenario.emptyStore)
    as [E [n [Hdata [Hev [_ [Hn [Hname [_ [Hs [He Hst]]]]]]]]]].
  - vm_compute. reflexivity.
  - exists E. split; [exact Hdata|]. split; [exact Hev|].
    split; [vm_compute; reflexivity|].
    assert (Hacc : n = Cases.accented) by (inversion Hn; reflexivity).
    subst n.
    assert (Htrim : Js.trim Cases.accented = Cases.repeatChar 128 (ascii_of_nat 233))
      by (vm_compute; reflexivity).
    rewrite Htrim in Hname.
    split; [exact Hname|].
    split; [rewrite Hname; vm_compute; reflexivity|].
    split; [exact Hs|]. split; [exact He|].
    apply Hst. reflexivity.
Defined.

(** A request for a room that is not in the store is refused and leaves
    the store as it was. *)
Lemma createEvent_failure_writes_nothing_witness :
  snd (createEvent 777 Cases.elsewhere Scenario.emptyStore) = Scenario.emptyStore.
Proof.
  apply (createEvent_failure_writes_nothing 777 Cases.elsewhere Scenario.emptyStore).
  reflexivity.
Defined.

(** ** Events that do not block a room *)

(** X6. Events whose status is neither CONFIRMED nor IN_PROGRESS have no
    bearing on the answer of [checkRoomAvailability]: adding any number of
    them to the store leaves the answer as it was. *)
Theorem checkRoomAvailability_unconfirmed_never_block :
  forall (db : Db) (extra : list Event) (room : Z) (s e : option Z) (d : option Q),
    Forall (fun ev => status ev <> CONFIRMED /\ status ev <> IN_PROGRESS) extra ->
    checkRoomAvailability (Table.setEvents (events db ++ extra) db) room s e d
    = checkRoomAvailability db room s e d.
Proof.
  intros db extra room s e d Hall. unfold checkRoomAvailability.
  destruct s as [s|], e as [e|]; try reflexivity.
  cbn [Table.setEvents events]. rewrite !isSome_find_existsb, existsb_app.
  assert (Hx : existsb (conflicting room s e) extra = false).
  { induction Hall as [|ev l [H1 H2] _ IH]; [reflexivity|].
    simpl. rewrite IH, orb_false_r.
    destruct (conflicting room s e ev) eqn:Hc; [|reflexivity].
    apply conflicting_true in Hc. destruct Hc as [_ [[Hs|Hs] _]]; contradiction. }
  rewrite Hx, orb_false_r. reflexivity.
Qed.

(** A PENDING copy of the gala next to the CONFIRMED one. *)
Lemma checkRoomAvailability_unconfirmed_never_block_witness :
  checkRoomAvailability
    (Table.setEvents (events (Scenario.galaIn CONFIRMED) ++ [Scenario.storedGala])
                     (Scenario.galaIn CONFIRMED))
    1 (Some (12 * Scenario.hour)) (Some (14 * Scenario.hour)) None
  = checkRoomAvailability (Scenario.galaIn CONFIRMED) 1
      (Some (12 * Scenario.hour)) (Some (14 * Scenario.hour)) None.
Proof.
  apply (checkRoomAvailability_unconfirmed_never_block (Scenario.galaIn CONFIRMED)
           [Scenario.storedGala]).
  constructor; [|constructor]. split; discriminate.
Defined.

(** ** Updates that fail *)

Lemma recheckRoom_reads (r : Z) (s : option Z) (d : option Q) (db db' : Db)
      (x : option string) :
  recheckRoom r s d db = Done x db' -> db' = db.
Proof.
  unfold recheckRoom, bind, query, ret, throw. intros H.
  repeat (split_match H; try discriminate); inversion H; reflexivity.
Qed.

Lemma roomStep_reads (ev : Event) (u : EventData) (d : option Q) (c : Amount)
      (db db' : Db) (x : string + Amount) :
  roomStep ev u d c db = Done x db' -> db' = db.
Proof.
  unfold roomStep, bind, query, ret. intros H.
  repeat (split_match H; try discriminate);
    repeat match goal with
           | Hr : recheckRoom _ _ _ _ = Done _ _ |- _ =>
               apply recheckRoom_reads in Hr; subst
           end;
    inversion H; reflexivity.
Qed.

Lemma serviceStep_early (id : Z) (u : EventData) (s : option Z) (d : option Q)
      (c : Amount) (db db' : Db) (errs : list string) :
  serviceStep id u s d c db = Done (inl errs) db' -> db' = db.
Proof.
  unfold serviceStep, bind, query, ret, write, insertEventService. intros H.
  repeat (split_match H; try discriminate);
    repeat match goal with
           | Hc : checkVariationAvailability _ _ _ _ = Done _ _ |- _ =>
               apply checkVariationAvailability_reads in Hc; subst
           end;
    inversion H; reflexivity.
Qed.

Lemma updateEventTx_invalid (id : Z) (ev : Event) (u : EventData)
      (s : option Z) (d : option Q) (db db' : Db) (r : Result UpdatedEvent) :
  updateEventTx id ev u s d db = Done r db' ->
  isValid r = false -> db' = db.
Proof.
  intros H Hv. unfold updateEventTx in H.
  unfold bind at 1 in H. unfold query at 1 in H.
  match type of H with
  | context [negb ?b] => destruct b
  end; cbn [negb] in H.
  2:{ unfold ret in H. inversion H; reflexivity. }
  unfold bind at 1 in H.
  destruct (roomStep ev u d _ db) as [[msg|cost1] db1|] eqn:Hroom; [| |discriminate].
  { apply roomStep_reads in Hroom. subst. unfold ret in H. inversion H; reflexivity. }
  apply roomStep_reads in Hroom. subst db1.
  unfold bind at 1 in H. unfold query at 1 in H.
  match type of H with
  | context [negb ?b] => destruct b
  end; cbn [negb] in H.
  2:{ unfold ret in H. inversion H; reflexivity. }
  unfold bind at 1 in H.
  destruct (serviceStep id u s d cost1 db) as [[errs|cost] db2|] eqn:Hsvc;
    [| |discriminate].
  { apply serviceStep_early in Hsvc. subst. unfold ret in H. inversion H; reflexivity. }
  exfalso.
  destruct (match d_status u with
            | Some s0 => option_map Some (statusOfString s0)
            | None => Some None
            end) as [newStatus|]; [|discriminate].
  unfold bind, ret in H.
  repeat (split_match H; try discriminate).
  inversion H; subst. discriminate Hv.
Qed.

(** X7. An [updateEvent] that does not succeed leaves the store as it was,
    whatever it had written inside its transaction before it failed. *)
Theorem updateEvent_failure_writes_nothing :
  forall (now eventId : Z) (updateData : EventData) (user : option User) (db : Db),
    isValid (fst (updateEvent now eventId updateData user db)) = false ->
    snd (updateEvent now eventId updateData user db) = db.
Proof.
  intros now eventId u user db. unfold updateEvent.
  destruct (parseAndValidateId eventId) as [id|]; [|reflexivity].
  destruct (Table.findBy event_id id (events db)) as [ev|]; [|reflexivity].
  repeat match goal with
         | |- context [if ?c then (_, db) else _] => destruct c; [reflexivity|]
         end.
  unfold transaction.
  match goal with
  | |- context [updateEventTx ?a ?b ?c ?d ?e db] =>
      destruct (updateEventTx a b c d e db) as [r db'|msg] eqn:Htx
  end; cbn [fst snd]; [|reflexivity].
  intros Hv. eapply updateEventTx_invalid; eassumption.
Qed.

(** The booking of the gala is replaced inside the transaction, then the
    empty status makes the update of the event throw. *)
Lemma updateEvent_failure_writes_nothing_witness :
  snd (updateEvent 0 1
         (mkEventData (Some "Gala") None None None None None None None None None
                      None (Some "") (Some 1) (Some 1))
         None Scenario.twoBookings)
  = Scenario.twoBookings.
Proof.
  apply (updateEvent_failure_writes_nothing 0 1
           (mkEventData (Some "Gala") None None None None None None None None None
                        None (Some "") (Some 1) (Some 1))
           None Scenario.twoBookings).
  reflexivity.
Defined.

(** ** Updates by customers *)

Lemma hoursBetween_day (a b : Z) :
  Js.Qltb (hoursBetween a b) (inject_Z 24) = false -> a + 86400000 <= b.
Proof.
  unfold Js.Qltb. rewrite negb_false_iff. intros H.
  apply Qle_bool_iff in H.
  unfold hoursBetween, Qle, Qdiv, Qmult, Qinv in H. simpl in H. lia.
Qed.

(** X8. When the caller is a CUSTOMER, [updateEvent] succeeds only on an
    event owned by the caller's account and starting at least 24 hours
    after the time of the call (an event without a start counts as
    starting at the epoch). *)
Theorem updateEvent_customer_rules :
  forall (now eventId : Z) (updateData : EventData) (caller : User) (db : Db),
    role caller = "CUSTOMER" ->
    isValid (fst (updateEvent now eventId updateData (Some caller) db)) = true ->
    exists ev,
      Table.findBy event_id eventId (events db) = Some ev
      /\ ev_account_id ev = Some (user_account_id caller)
      /\ now + 86400000 <= match start_time ev with Some s => s | None => 0 end.
Proof.
  intros now eventId u caller db Hrole. unfold updateEvent.
  destruct (parseAndValidateId eventId) as [id|] eqn:Hid; [|discriminate].
  assert (id = eventId) as ->.
  { unfold parseAndValidateId in Hid. destruct (eventId <=? 0); congruence. }
  destruct (Table.findBy event_id eventId (events db)) as [ev|]; [|discriminate].
  rewrite Hrole. cbn [String.eqb Ascii.eqb Bool.eqb andb].
  destruct (Table.optEq (ev_account_id ev) (user_account_id caller)) eqn:Hown;
    cbn [negb]; [|discriminate].
  destruct (Js.Qltb _ (inject_Z 24)) eqn:Hday; [discriminate|].
  intros _. exists ev. split; [reflexivity|]. split.
  - apply optEq_true. exact Hown.
  - apply hoursBetween_day. exact Hday.
Qed.

Import Derived.

(** ** Updates that succeed *)

Lemma updateBy_findBy {A} (key : A -> Z) (k : Z) (f : A -> A) (rows rows' : list A) :
  (forall r, key (f r) = key r) ->
  Table.updateBy key k f rows = Some rows' ->
  Table.findBy key k rows' = option_map f (Table.findBy key k rows).
Proof.
  intros Hkey. revert rows'. induction rows as [|r rows IH]; intros rows' H;
    simpl in H; [discriminate|].
  unfold Table.findBy in *. cbn [find].
  destruct (key r =? k) eqn:E.
  - inversion H; subst. cbn [find]. rewrite Hkey, E. reflexivity.
  - destruct (Table.updateBy key k f rows) as [rest|]; [|discriminate].
    inversion H; subst. cbn [find]. rewrite E. apply IH. reflexivity.
Qed.



Lemma serviceStep_ok (id : Z) (u : EventData) (s : option Z) (d : option Q)
      (c1 c : Amount) (db db' : Db) :
  serviceStep id u s d c1 db = Done (inr c) db' ->
  events db' = events db
  /\ invoices db' = invoices db
  /\ invoiceDetails db' = invoiceDetails db
  /\ rooms db' = rooms db
  /\ c = match pairOf u with Some _ => plusZero c1 | None => c1 end
  /\ match pairOf u with
     | Some (sv, v) =>
         eventServices db'
         = (filter (fun es => negb (es_event_id es =? id)) (eventServices db)
            ++ [mkEventService
                  (Table.nextId event_service_id
                     (filter (fun es => negb (es_event_id es =? id))
                             (eventServices db)))
                  id sv (Some v) 1 None None "CONFIRMED" s d])%list
         /\ (exists service, Table.findBy service_id sv (services db) = Some service
                             /\ service_is_active service = true)
         /\ (exists variation,
               Table.findBy variation_id v (variations db) = Some variation
               /\ var_is_active variation = true
               /\ var_service_id variation = sv)
     | None => db' = db
     end.
Proof.
  unfold serviceStep, pairOf, bind, query, ret, write, insertEventService.
  intros H.
  destruct (truthyId (d_service_id u)) as [sv|];
    [destruct (truthyId (d_variation_id u)) as [v|]|].
  - repeat (split_match H; try discriminate);
      repeat match goal with
             | Hc : checkVariationAvailability _ _ _ _ = Done _ _ |- _ =>
                 apply checkVariationAvailability_reads in Hc; subst
             | Hd : Done _ _ = Done _ _ |- _ => inversion Hd; subst; clear Hd
             end;
      cbn [events invoices invoiceDetails rooms eventServices
           Table.setEventServices];
      repeat split;
      try (eexists; split; [reflexivity|]);
      repeat match goal with
             | Hb : negb ?b = false |- _ => apply negb_false_iff in Hb
             | Hb : (_ && _)%bool = true |- _ => apply andb_true_iff in Hb; destruct Hb
             | Hb : (_ =? _) = true |- _ => apply Z.eqb_eq in Hb
             end;
      repeat split; assumption.
  - inversion H; subst. repeat split; reflexivity.
  - inversion H; subst. repeat split; reflexivity.
Qed.

Lemma invoiceStep_frame (id : Z) (ev : Event) (u : EventData) (c : Amount)
      (db db' : Db) (x : unit) :
  invoiceStep id ev u c db = Done x db' ->
  events db' = events db /\ eventServices db' = eventServices db
  /\ rooms db' = rooms db.
Proof.
  unfold invoiceStep, bind, query, ret, write, throw, insertRoomDetail,
    insertInvoiceDetail, invoiceOf.
  intros H.
  repeat (split_match H; try discriminate);
    repeat match goal with
           | Hd : Done _ _ = Done _ _ |- _ => inversion Hd; subst; clear Hd
           end;
    repeat split; reflexivity.
Qed.

Lemma updateEventTx_ok (id : Z) (ev : Event) (u : EventData)
      (s : option Z) (d : option Q) (db db' : Db) (r : Result UpdatedEvent) :
  updateEventTx id ev u s d db = Done r db' ->
  isValid r = true ->
  exists c1 c db2 st rows upd,
    roomStep ev u d (startingCost u ev) db = Done (inr c1) db
    /\ serviceStep id u s d c1 db = Done (inr c) db2
    /\ Table.updateBy event_id id (patchEvent u s (amountValue c) st) (events db2)
       = Some rows
    /\ events db' = rows
    /\ eventServices db' = eventServices db2
    /\ rooms db' = rooms db
    /\ r = createValidationResult true [] (Some upd)
    /\ Table.findBy event_id id rows = Some (ue_event upd)
    /\ ue_eventServicesCount upd
       = List.length (filter (fun es => es_event_id es =? id) (eventServices db2)).
Proof.
  intros H Hv. unfold updateEventTx in H.
  unfold bind at 1 in H. unfold query at 1 in H.
  match type of H with
  | context [negb ?b] => destruct b
  end; cbn [negb] in H.
  2:{ unfold ret in H. inversion H; subst. discriminate Hv. }
  unfold bind at 1 in H.
  destruct (roomStep ev u d _ db) as [[msg|c1] db1|] eqn:Hroom; [| |discriminate].
  { unfold ret in H. inversion H; subst. discriminate Hv. }
  apply roomStep_reads in Hroom as Heq. subst db1.
  unfold bind at 1 in H. unfold query at 1 in H.
  match type of H with
  | context [negb ?b] => destruct b
  end; cbn [negb] in H.
  2:{ unfold ret in H. inversion H; subst. discriminate Hv. }
  unfold bind at 1 in H.
  destruct (serviceStep id u s d c1 db) as [[errs|c] db2|] eqn:Hsvc;
    [| |discriminate].
  { unfold ret in H. inversion H; subst. discriminate Hv. }
  destruct (match d_status u with
            | Some s0 => option_map Some (statusOfString s0)
            | None => Some None
            end) as [st|]; [|discriminate].
  unfold bind at 1 in H.
  destruct (Table.updateBy event_id id (patchEvent u s (amountValue c) st)
                           (events db2))
    as [rows|] eqn:Hup; [|discriminate].
  destruct (Table.findBy event_id id rows) as [ev'|] eqn:Hf; [|discriminate].
  unfold bind at 1 in H.
  destruct (invoiceStep id ev u c (Table.setEvents rows db2)) as [x db3|] eqn:Hinv;
    [|discriminate].
  unfold ret in H. inversion H; subst. clear H.
  apply invoiceStep_frame in Hinv. destruct Hinv as [He [Hes Hr]].
  apply serviceStep_ok in Hsvc as Hs'. destruct Hs' as [_ [_ [_ [Hrooms _]]]].
  exists c1, c, db2, st, rows. eexists.
  repeat split; try eassumption; try reflexivity.
  - rewrite Hr. exact Hrooms.
Qed.



(** The window [updateEvent] works with: a new one when the request
    carries both instants, else the stored one. *)
Lemma updateEvent_ok (now eventId : Z) (u : EventData) (user : option User)
      (db : Db) :
  isValid (fst (updateEvent now eventId u user db)) = true ->
  exists ev s d,
    Table.findBy event_id eventId (events db) = Some ev
    /\ updateEventTx eventId ev u s d db
       = Done (fst (updateEvent now eventId u user db))
              (snd (updateEvent now eventId u user db))
    /\ ((exists a b, d_start_time u = Some a /\ d_end_time u = Some b
                     /\ d = Some (hoursBetween a b) /\ a < b)
        \/ ((d_start_time u = None \/ d_end_time u = None) /\ d = storedHours ev)).
Proof.
  unfold updateEvent.
  destruct (parseAndValidateId eventId) as [id|] eqn:Hid; [|discriminate].
  assert (id = eventId) as ->.
  { unfold parseAndValidateId in Hid. destruct (eventId <=? 0); congruence. }
  destruct (Table.findBy event_id eventId (events db)) as [ev|]; [|discriminate].
  repeat match goal with
         | |- context [if ?c then (_, db) else _] =>
             destruct c eqn:?; [discriminate|]
         end.
  unfold transaction.
  match goal with
  | |- context [updateEventTx ?a ?b ?c ?d ?e db] =>
      destruct (updateEventTx a b c d e db) as [r db'|msg] eqn:Htx
  end; cbn [fst snd]; [|discriminate].
  intros Hv. exists ev. do 2 eexists. split; [reflexivity|].
  split; [exact Htx|].
  destruct (d_start_time u) as [a|], (d_end_time u) as [b|];
    try (right; split; [auto | reflexivity]).
  left. exists a, b. repeat split.
  match goal with
  | Hq : Qle_bool (hoursBetween a b) 0 = false |- _ =>
      apply hoursBetween_window in Hq; apply Hq
  end.
Qed.



Lemma filter_negb_nil {A} (f : A -> bool) (l : list A) :
  filter f (filter (fun x => negb (f x)) l) = [].
Proof.
  induction l as [|x l IH]; [reflexivity|]. cbn [filter].
  destruct (f x) eqn:E; cbn [negb filter]; [exact IH|]. rewrite E. exact IH.
Qed.

Lemma filter_other {A} (f g : A -> bool) (l : list A) :
  (forall x, f x = true -> g x = true) ->
  filter f (filter g l) = filter f l.
Proof.
  intros H. induction l as [|x l IH]; [reflexivity|]. cbn [filter].
  destruct (g x) eqn:E; cbn [filter].
  - destruct (f x); [f_equal|]; exact IH.
  - destruct (f x) eqn:F; [|exact IH]. rewrite (H x F) in E. discriminate.
Qed.

(** X10. A successful [updateEvent] that names a service and a variation
    leaves the event with exactly one booking: that pair, which is active
    and matching, quantity 1, no custom price, CONFIRMED, and reports one
    booking; the bookings of every other event are kept.  A successful
    update that does not name both leaves all bookings as they were. *)
Theorem updateEvent_replaces_bookings :
  forall (now eventId : Z) (u : EventData) (user : option User) (db : Db),
    isValid (fst (updateEvent now eventId u user db)) = true ->
    match pairOf u with
    | Some (sv, v) =>
        (exists es variation,
            eventServicesOf eventId (snd (updateEvent now eventId u user db)) = [es]
            /\ es_service_id es = sv
            /\ es_variation_id es = Some v
            /\ quantity es = 1
            /\ custom_price es = None
            /\ es_status es = "CONFIRMED"
            /\ Table.findBy variation_id v (variations db) = Some variation
            /\ var_is_active variation = true
            /\ var_service_id variation = sv)
        /\ option_map ue_eventServicesCount
             (data (fst (updateEvent now eventId u user db))) = Some 1%nat
        /\ forall other, other <> eventId ->
             eventServicesOf other (snd (updateEvent now eventId u user db))
             = eventServicesOf other db
    | None =>
        eventServices (snd (updateEvent now eventId u user db)) = eventServices db
    end.
Proof.
  intros now eventId u user db Hv.
  destruct (updateEvent_ok now eventId u user db Hv) as [ev [s [d [Hfind [Htx _]]]]].
  destruct (updateEventTx_ok _ _ _ _ _ _ _ _ Htx Hv)
    as [c1 [c [db2 [st [rows [upd [_ [Hsvc [_ [_ [Hes [_ [Hr [_ Hcount]]]]]]]]]]]]]].
  apply serviceStep_ok in Hsvc.
  destruct Hsvc as [_ [_ [_ [_ [_ Hpair]]]]].
  destruct (pairOf u) as [[sv v]|].
  - destruct Hpair as [Hrows [_ [variation [Hvar [Hact Hbel]]]]].
    assert (Hof : filter (fun es => es_event_id es =? eventId) (eventServices db2)
                  = [mkEventService
                       (Table.nextId event_service_id
                          (filter (fun es => negb (es_event_id es =? eventId))
                                  (eventServices db)))
                       eventId sv (Some v) 1 None None "CONFIRMED" s d]).
    { rewrite Hrows, filter_app.
      rewrite (filter_negb_nil (fun es => es_event_id es =? eventId)).
      cbn [filter es_event_id app]. rewrite Z.eqb_refl. reflexivity. }
    split; [|split].
    + eexists. exists variation. unfold eventServicesOf. rewrite Hes, Hof.
      repeat split; assumption.
    + rewrite Hr. cbn. rewrite Hcount, Hof. reflexivity.
    + intros other Hne. unfold eventServicesOf. rewrite Hes, Hrows, filter_app.
      cbn [filter es_event_id].
      destruct (eventId =? other) eqn:E; [apply Z.eqb_eq in E; congruence|].
      rewrite app_nil_r. apply filter_other.
      intros x Hx. apply Z.eqb_eq in Hx. apply negb_true_iff. apply Z.eqb_neq.
      congruence.
  - rewrite Hes, Hpair. reflexivity.
Qed.

(** Rebooking the gala, which has two bookings, leaves it with one. *)
Lemma updateEvent_replaces_bookings_witness :
  match pairOf Cases.rebook with
  | Some (sv, v) =>
      (exists es variation,
          eventServicesOf 1 (snd (updateEvent 0 1 Cases.rebook None Scenario.twoBookings))
          = [es]
          /\ es_service_id es = sv
          /\ es_variation_id es = Some v
          /\ quantity es = 1
          /\ custom_price es = None
          /\ es_status es = "CONFIRMED"
          /\ Table.findBy variation_id v (variations Scenario.twoBookings)
             = Some variation
          /\ var_is_active variation = true
          /\ var_service_id variation = sv)
      /\ option_map ue_eventServicesCount
           (data (fst (updateEvent 0 1 Cases.rebook None Scenario.twoBookings)))
         = Some 1%nat
      /\ forall other, other <> 1 ->
           eventServicesOf other
             (snd (updateEvent 0 1 Cases.rebook None Scenario.twoBookings))
           = eventServicesOf other Scenario.twoBookings
  | None =>
      eventServices (snd (updateEvent 0 1 Cases.rebook None Scenario.twoBookings))
      = eventServices Scenario.twoBookings
  end.
Proof.
  apply (updateEvent_replaces_bookings 0 1 Cases.rebook None Scenario.twoBookings).
  vm_compute. reflexivity.
Defined.

Lemma updateEvent_customer_rules_witness :
  exists ev,
    Table.findBy event_id 1 (events Cases.owned) = Some ev
    /\ ev_account_id ev = Some (user_account_id Cases.owner)
    /\ 0 + 86400000 <= match start_time ev with Some s => s | None => 0 end.
Proof.
  apply (updateEvent_customer_rules 0 1 (Cases.rename "Party!")
                                    Cases.owner Cases.owned).
  - reflexivity.
  - vm_compute. reflexivity.
Defined.

(** ** Deleting events *)

Lemma parseAndValidateId_Some (k id : Z) :
  parseAndValidateId k = Some id -> id = k /\ 0 < k.
Proof.
  unfold parseAndValidateId. destruct (k <=? 0) eqn:E; [discriminate|].
  intros H. apply Z.leb_gt in E. split; [congruence|exact E].
Qed.

Lemma length_zero_nil {A} (l : list A) : Nat.ltb 0 (List.length l) = false -> l = [].
Proof. destruct l; [reflexivity|discriminate]. Qed.

(** What a successful [deleteEvent] leaves in each table. *)
Lemma deleteEvent_tables (eventId : Z) (forceDelete : bool) (db : Db) :
  isValid (fst (deleteEvent eventId forceDelete db)) = true ->
  let db' := snd (deleteEvent eventId forceDelete db) in
  let gone := if forceDelete then invoiceOf eventId db else None in
  (exists ev, Table.findBy event_id eventId (events db) = Some ev)
  /\ events db' = filter (fun ev => negb (event_id ev =? eventId)) (events db)
  /\ eventServices db'
     = (if forceDelete
        then filter (fun es => negb (es_event_id es =? eventId)) (eventServices db)
        else eventServices db)
  /\ payments db'
     = (if forceDelete
        then filter (fun p => negb (Table.optEq (pay_event_id p) eventId)) (payments db)
        else payments db)
  /\ reviews db'
     = (if forceDelete
        then filter (fun r => negb (rev_event_id r =? eventId)) (reviews db)
        else reviews db)
  /\ invoices db'
     = match gone with
       | Some inv =>
           filter (fun i => negb (invoice_id i =? invoice_id inv)) (invoices db)
       | None => invoices db
       end
  /\ invoiceDetails db'
     = match gone with
       | Some inv =>
           filter (fun d => negb (det_invoice_id d =? invoice_id inv))
                  (invoiceDetails db)
       | None => invoiceDetails db
       end
  /\ (rooms db' = rooms db /\ accounts db' = accounts db
      /\ services db' = services db /\ variations db' = variations db
      /\ eventTypes db' = eventTypes db)
  /\ (forceDelete = false ->
      eventServicesOf eventId db = [] /\ invoiceOf eventId db = None
      /\ paymentsOf eventId db = [] /\ reviewsOf eventId db = [])
  /\ data (fst (deleteEvent eventId forceDelete db))
     = Some (Deleted eventId
               (if forceDelete then List.length (eventServicesOf eventId db) else 0%nat)
               (if forceDelete then List.length (paymentsOf eventId db) else 0%nat)
               (if forceDelete then List.length (reviewsOf eventId db) else 0%nat)
               (if (forceDelete && Js.isSome (invoiceOf eventId db))%bool
                then 1%nat else 0%nat)).
Proof.
  unfold deleteEvent.
  destruct (parseAndValidateId eventId) as [id|] eqn:Hid; [|discriminate].
  apply parseAndValidateId_Some in Hid. destruct Hid as [-> _].
  destruct (Table.findBy event_id eventId (events db)) as [ev|]; [|discriminate].
  destruct forceDelete.
  - rewrite andb_false_r. intros _.
    unfold transaction, deleteEventTx, bind, write, ret.
    destruct (invoiceOf eventId db) as [inv|]; cbn;
      repeat split; try reflexivity; try discriminate; eexists; reflexivity.
  - rewrite andb_true_r.
    destruct (Nat.ltb 0 (List.length (eventServicesOf eventId db))) eqn:H1;
      [discriminate|].
    destruct (invoiceOf eventId db) as [inv|] eqn:H2; [discriminate|].
    destruct (Nat.ltb 0 (List.length (paymentsOf eventId db))) eqn:H3;
      [discriminate|].
    destruct (Nat.ltb 0 (List.length (reviewsOf eventId db))) eqn:H4;
      [discriminate|].
    intros _. cbn.
    apply length_zero_nil in H1, H3, H4. rewrite H1, H3, H4.
    repeat split; try reflexivity. eexists; reflexivity.
Qed.

Lemma find_filter_negb {A} (f : A -> bool) (l : list A) :
  find f (filter (fun x => negb (f x)) l) = None.
Proof.
  induction l as [|x l IH]; [reflexivity|]. cbn [filter].
  destruct (f x) eqn:E; cbn [negb find]; [exact IH|]. rewrite E. exact IH.
Qed.

Lemma find_filter_keep {A} (f g : A -> bool) (l : list A) :
  (forall x, f x = true -> g x = true) ->
  find f (filter g l) = find f l.
Proof.
  intros H. induction l as [|x l IH]; [reflexivity|]. cbn [filter find].
  destruct (g x) eqn:E; cbn [find].
  - destruct (f x); [reflexivity|exact IH].
  - destruct (f x) eqn:F; [|exact IH]. rewrite (H x F) in E. discriminate.
Qed.

Lemma find_filter_single {A} (f g : A -> bool) (l : list A) (a : A) :
  find f l = Some a ->
  (List.length (filter f l) <= 1)%nat ->
  g a = false ->
  find f (filter g l) = None.
Proof.
  induction l as [|x l IH]; [discriminate|]. cbn [find filter].
  destruct (f x) eqn:E.
  - intros Ha Hlen Hg. inversion Ha; subst x. rewrite Hg.
    cbn [List.length] in Hlen.
    assert (Hnil : filter f l = []).
    { destruct (filter f l); [reflexivity|cbn in Hlen; lia]. }
    clear IH Hlen. induction l as [|y l IH]; [reflexivity|].
    cbn [filter] in Hnil |- *. destruct (f y) eqn:F; [discriminate|].
    destruct (g y); cbn [find]; [rewrite F|]; apply IH; exact Hnil.
  - intros Ha Hlen Hg. destruct (g x); cbn [find]; [rewrite E|]; apply IH; assumption.
Qed.

(** X11. After a successful [deleteEvent], forced or not, nothing in the
    store refers to the deleted event: the event is gone and so are its
    bookings, payments, reviews and, the store holding at most one invoice
    for the event, its invoice. *)
Theorem deleteEvent_leaves_no_orphans :
  forall (eventId : Z) (forceDelete : bool) (db : Db),
    (List.length (filter (fun i => (inv_event_id i =? eventId)%Z) (invoices db)) <= 1)%nat ->
    isValid (fst (deleteEvent eventId forceDelete db)) = true ->
    Table.findBy event_id eventId (events (snd (deleteEvent eventId forceDelete db)))
    = None
    /\ eventServicesOf eventId (snd (deleteEvent eventId forceDelete db)) = []
    /\ invoiceOf eventId (snd (deleteEvent eventId forceDelete db)) = None
    /\ paymentsOf eventId (snd (deleteEvent eventId forceDelete db)) = []
    /\ reviewsOf eventId (snd (deleteEvent eventId forceDelete db)) = [].
Proof.
  intros eventId force db Huniq Hv.
  destruct (deleteEvent_tables eventId force db Hv)
    as [_ [Hev [Hes [Hpay [Hrev [Hinv [_ [_ [Hnone _]]]]]]]]].
  unfold eventServicesOf, invoiceOf, paymentsOf, reviewsOf, Table.findBy.
  rewrite Hev, Hes, Hpay, Hrev, Hinv.
  split; [apply (find_filter_negb (fun ev => event_id ev =? eventId))|].
  destruct force.
  - split; [apply (filter_negb_nil (fun es => es_event_id es =? eventId))|].
    split; [|split;
             [apply (filter_negb_nil (fun p => Table.optEq (pay_event_id p) eventId))
             |apply (filter_negb_nil (fun r => rev_event_id r =? eventId))]].
    destruct (invoiceOf eventId db) as [inv|] eqn:Hi; [|exact Hi].
    apply (find_filter_single _ _ _ inv Hi Huniq).
    rewrite Z.eqb_refl. reflexivity.
  - destruct (Hnone eq_refl) as [H1 [H2 [H3 H4]]].
    unfold eventServicesOf, invoiceOf, paymentsOf, reviewsOf in *.
    repeat split; assumption.
Qed.

(** Force-deleting the gala with its bookings, invoice, payment and review. *)
Lemma deleteEvent_leaves_no_orphans_witness :
  Table.findBy event_id 1 (events (snd (deleteEvent 1 true Cases.withDependents)))
  = None
  /\ eventServicesOf 1 (snd (deleteEvent 1 true Cases.withDependents)) = []
  /\ invoiceOf 1 (snd (deleteEvent 1 true Cases.withDependents)) = None
  /\ paymentsOf 1 (snd (deleteEvent 1 true Cases.withDependents)) = []
  /\ reviewsOf 1 (snd (deleteEvent 1 true Cases.withDependents)) = [].
Proof.
  apply (deleteEvent_leaves_no_orphans 1 true Cases.withDependents).
  - vm_compute. lia.
  - vm_compute. reflexivity.
Defined.

(** X12. A successful [deleteEvent] keeps every other event together with
    its bookings, payments and reviews, and leaves the rooms, services and
    variations as they were. *)
Theorem deleteEvent_keeps_other_events :
  forall (eventId : Z) (forceDelete : bool) (db : Db),
    isValid (fst (deleteEvent eventId forceDelete db)) = true ->
    (forall other, other <> eventId ->
       Table.findBy event_id other (events (snd (deleteEvent eventId forceDelete db)))
       = Table.findBy event_id other (events db)
       /\ eventServicesOf other (snd (deleteEvent eventId forceDelete db))
          = eventServicesOf other db
       /\ paymentsOf other (snd (deleteEvent eventId forceDelete db))
          = paymentsOf other db
       /\ reviewsOf other (snd (deleteEvent eventId forceDelete db))
          = reviewsOf other db)
    /\ rooms (snd (deleteEvent eventId forceDelete db)) = rooms db
    /\ services (snd (deleteEvent eventId forceDelete db)) = services db
    /\ variations (snd (deleteEvent eventId forceDelete db)) = variations db.
Proof.
  intros eventId force db Hv.
  destruct (deleteEvent_tables eventId force db Hv)
    as [_ [Hev [Hes [Hpay [Hrev [_ [_ [[Hr [_ [Hs [Hva _]]]] _]]]]]]]].
  split; [|repeat split; assumption].
  intros other Hne.
  unfold eventServicesOf, paymentsOf, reviewsOf, Table.findBy.
  rewrite Hev, Hes, Hpay, Hrev.
  assert (Hz : forall z, (z =? other) = true -> negb (z =? eventId) = true).
  { intros z Hz. apply Z.eqb_eq in Hz. apply negb_true_iff, Z.eqb_neq. congruence. }
  assert (Ho : forall o, Table.optEq o other = true
                         -> negb (Table.optEq o eventId) = true).
  { intros [z|] Hz'; [apply Hz; exact Hz'|discriminate]. }
  split; [apply find_filter_keep; intros x; apply Hz|].
  destruct force; repeat split; try reflexivity.
  - apply filter_other. intros x. apply Hz.
  - apply filter_other. intros x. apply Ho.
  - apply filter_other. intros x. apply Hz.
Qed.

(** Force-deleting the gala from a store that also holds the party: the
    party, its booking, its payment and its review are still there. *)
Lemma deleteEvent_keeps_other_events_witness :
  (exists party,
      Table.findBy event_id 2 (events (snd (deleteEvent 1 true Cases.twoEvents)))
      = Some party
      /\ event_name party = "Party")
  /\ map event_service_id (eventServicesOf 2 (snd (deleteEvent 1 true Cases.twoEvents)))
     = [3]
  /\ paymentsOf 2 (snd (deleteEvent 1 true Cases.twoEvents)) = [mkPayment 2 (Some 2)]
  /\ reviewsOf 2 (snd (deleteEvent 1 true Cases.twoEvents)) = [mkReview 2 2]
  /\ map event_id (events Cases.twoEvents) = [1; 2]
  /\ rooms (snd (deleteEvent 1 true Cases.twoEvents)) = rooms Cases.twoEvents.
Proof.
  destruct (deleteEvent_keeps_other_events 1 true Cases.twoEvents)
    as [Hother [Hrooms _]].
  - vm_compute. reflexivity.
  - destruct (Hother 2) as [He [Hes [Hp Hr]]]; [discriminate|].
    rewrite He, Hes, Hp, Hr, Hrooms.
    split; [eexists; split; [vm_compute; reflexivity|reflexivity]|].
    repeat split; vm_compute; reflexivity.
Defined.

Lemma filter_length_split {A} (f : A -> bool) (l : list A) :
  List.length l
  = (List.length (filter (fun x => negb (f x)) l) + List.length (filter f l))%nat.
Proof.
  induction l as [|x l IH]; [reflexivity|]. cbn [filter].
  destruct (f x); cbn [negb List.length]; lia.
Qed.

(** X13. The counts a successful [deleteEvent] reports are the numbers of
    rows it removed: the bookings, payments and reviews tables each shrink
    by the count reported for them, and the events table shrinks. *)
Theorem deleteEvent_reports_removed_rows :
  forall (eventId : Z) (forceDelete : bool) (db : Db) (k : Z) (nes np nr ni : nat),
    data (fst (deleteEvent eventId forceDelete db)) = Some (Deleted k nes np nr ni) ->
    k = eventId
    /\ List.length (eventServices db)
       = (List.length (eventServices (snd (deleteEvent eventId forceDelete db))) + nes)%nat
    /\ List.length (payments db)
       = (List.length (payments (snd (deleteEvent eventId forceDelete db))) + np)%nat
    /\ List.length (reviews db)
       = (List.length (reviews (snd (deleteEvent eventId forceDelete db))) + nr)%nat
    /\ (List.length (events (snd (deleteEvent eventId forceDelete db)))
        < List.length (events db))%nat.
Proof.
  intros eventId force db k nes np nr ni Hd.
  assert (Hv : isValid (fst (deleteEvent eventId force db)) = true).
  { revert Hd. unfold deleteEvent.
    destruct (parseAndValidateId eventId); [|discriminate].
    destruct (Table.findBy event_id _ (events db)); [|discriminate].
    destruct (_ && negb force)%bool; [discriminate|].
    destruct (transaction _ db) as [[? ?|?] ?]; [reflexivity|discriminate]. }
  destruct (deleteEvent_tables eventId force db Hv)
    as [[ev Hfind] [Hev [Hes [Hpay [Hrev [_ [_ [_ [_ Hdata]]]]]]]]].
  rewrite Hdata in Hd. injection Hd as <- <- <- <- <-.
  rewrite Hev, Hes, Hpay, Hrev.
  split; [reflexivity|].
  assert (Hevl : (List.length (filter (fun e => negb (event_id e =? eventId)%Z) (events db))
                  < List.length (events db))%nat).
  { rewrite (filter_length_split (fun e => event_id e =? eventId) (events db)).
    unfold Table.findBy in Hfind.
    destruct (filter (fun e => event_id e =? eventId) (events db)) eqn:Hf.
    - exfalso. apply find_some in Hfind. destruct Hfind as [Hin Hk].
      assert (In ev (filter (fun e => event_id e =? eventId) (events db)))
        by (apply filter_In; split; assumption).
      rewrite Hf in *. contradiction.
    - cbn [List.length]. lia. }
  destruct force; unfold eventServicesOf, paymentsOf, reviewsOf.
  - repeat split; try exact Hevl.
    + apply (filter_length_split (fun es => es_event_id es =? eventId)).
    + apply (filter_length_split (fun p => Table.optEq (pay_event_id p) eventId)).
    + apply (filter_length_split (fun r => rev_event_id r =? eventId)).
  - repeat split; try exact Hevl; lia.
Qed.

Lemma deleteEvent_reports_removed_rows_witness :
  1 = 1
  /\ List.length (eventServices Cases.withDependents)
     = (List.length (eventServices (snd (deleteEvent 1 true Cases.withDependents))) + 2)%nat
  /\ List.length (payments Cases.withDependents)
     = (List.length (payments (snd (deleteEvent 1 true Cases.withDependents))) + 1)%nat
  /\ List.length (reviews Cases.withDependents)
     = (List.length (reviews (snd (deleteEvent 1 true Cases.withDependents))) + 1)%nat
  /\ (List.length (events (snd (deleteEvent 1 true Cases.withDependents)))
      < List.length (events Cases.withDependents))%nat.
Proof.
  apply (deleteEvent_reports_removed_rows 1 true Cases.withDependents 1 2 1 1 1).
  vm_compute. reflexivity.
Defined.

(** X14. A [deleteEvent] that does not succeed leaves the store as it was. *)
Theorem deleteEvent_failure_writes_nothing :
  forall (eventId : Z) (forceDelete : bool) (db : Db),
    isValid (fst (deleteEvent eventId forceDelete db)) = false ->
    snd (deleteEvent eventId forceDelete db) = db.
Proof.
  intros eventId force db. unfold deleteEvent.
  destruct (parseAndValidateId eventId); [|reflexivity].
  destruct (Table.findBy event_id _ (events db)); [|reflexivity].
  destruct (_ && negb force)%bool; [reflexivity|].
  unfold transaction.
  destruct (deleteEventTx _ _ force db) as [[] db'|msg]; cbn; [discriminate|reflexivity].
Qed.

Lemma deleteEvent_failure_writes_nothing_witness :
  snd (deleteEvent 1 false Cases.withDependents) = Cases.withDependents.
Proof.
  apply (deleteEvent_failure_writes_nothing 1 false Cases.withDependents).
  vm_compute. reflexivity.
Defined.

(** ** Status changes *)




Lemma setEvents_same (db : Db) : Table.setEvents (events db) db = db.
Proof. destruct db; reflexivity. Qed.






(** ** The status endpoint *)

Import EventRead EventAdmin.

Lemma includes_In (l : list string) (s : string) :
  Js.includes l s = true <-> In s l.
Proof.
  unfold Js.includes. rewrite existsb_exists. split.
  - intros [x [Hin Heq]]. apply String.eqb_eq in Heq. subst. exact Hin.
  - intros Hin. exists s. split; [exact Hin|apply String.eqb_refl].
Qed.



(** ** Reading events *)

(** X18. [getEventDetails] answers 200 only for an event that is stored
    and that the caller owns, unless the caller is ADMIN or STAFF; a
    stored event of somebody else is answered 403 without data. *)
Theorem getEventDetails_owner_or_staff :
  forall (id : Z) (user : User) (db : Db),
    (dr_code (getEventDetails id user db) = 200 ->
     exists ev,
       Table.findBy event_id id (events db) = Some ev
       /\ data (dr_body (getEventDetails id user db)) = Some (ev, 0%nat)
       /\ (ev_account_id ev = Some (user_account_id user)
           \/ role user = "ADMIN" \/ role user = "STAFF"))
    /\ (forall ev,
          0 < id ->
          Table.findBy event_id id (events db) = Some ev ->
          ev_account_id ev <> Some (user_account_id user) ->
          role user <> "ADMIN" -> role user <> "STAFF" ->
          dr_code (getEventDetails id user db) = 403
          /\ data (dr_body (getEventDetails id user db)) = None).
Proof.
  intros id user db. unfold getEventDetails, getEventById, parseAndValidateId.
  split.
  - destruct (id <=? 0); [discriminate|].
    destruct (Table.findBy event_id id (events db)) as [ev|]; [|discriminate].
    cbn [isValid data createValidationResult].
    destruct (Table.optEq (ev_account_id ev) (user_account_id user)) eqn:Ho;
      cbn [negb andb].
    + intros _. exists ev. repeat split. left. apply optEq_true. exact Ho.
    + destruct (Js.includes ["ADMIN"; "STAFF"] (role user)) eqn:Hr;
        cbn [negb]; [|discriminate].
      intros _. exists ev. repeat split. right.
      apply includes_In in Hr. destruct Hr as [H|[H|[]]]; auto.
  - intros ev Hpos Hf Hown Hadmin Hstaff.
    destruct (id <=? 0) eqn:Hle; [apply Z.leb_le in Hle; lia|].
    rewrite Hf. cbn [isValid data createValidationResult].
    destruct (Table.optEq (ev_account_id ev) (user_account_id user)) eqn:Ho.
    { apply optEq_true in Ho. contradiction. }
    destruct (Js.includes ["ADMIN"; "STAFF"] (role user)) eqn:Hr.
    { apply includes_In in Hr. destruct Hr as [H|[H|[]]]; congruence. }
    cbn. split; reflexivity.
Qed.



(** X20. [buildSortOrder] only ever yields a whitelisted column and
    direction: a column of the list is kept, any other becomes
    [date_create]; the direction is lower-cased and any other than asc and
    desc becomes asc. *)
Theorem buildSortOrder_whitelist :
  forall (sortBy sortOrder : string),
    In (fst (buildSortOrder sortBy sortOrder)) validSortFields
    /\ In (snd (buildSortOrder sortBy sortOrder)) validSortOrders
    /\ (In sortBy validSortFields -> fst (buildSortOrder sortBy sortOrder) = sortBy)
    /\ (~ In sortBy validSortFields
        -> fst (buildSortOrder sortBy sortOrder) = "date_create")
    /\ (In (Js.toLowerCase sortOrder) validSortOrders
        -> snd (buildSortOrder sortBy sortOrder) = Js.toLowerCase sortOrder)
    /\ (~ In (Js.toLowerCase sortOrder) validSortOrders
        -> snd (buildSortOrder sortBy sortOrder) = "asc").
Proof.
  intros sortBy sortOrder. unfold buildSortOrder. cbn [fst snd].
  destruct (Js.includes validSortFields sortBy) eqn:Hf;
    destruct (Js.includes validSortOrders (Js.toLowerCase sortOrder)) eqn:Ho;
    repeat split;
    try (apply includes_In; assumption);
    try (intros; reflexivity);
    try (cbn; tauto);
    try (intros H; apply includes_In in H; congruence);
    try (intros H; exfalso; apply H; apply includes_In; assumption).
Qed.

(** ** Listing events *)

Lemma Qltb_inject_lt (a b : Z) : Js.Qltb (inject_Z a) (inject_Z b) = true <-> a < b.
Proof.
  unfold Js.Qltb. rewrite negb_true_iff. split.
  - intros H. destruct (Z.lt_ge_cases a b) as [Hlt|Hge]; [exact Hlt|].
    assert (Qle_bool (inject_Z b) (inject_Z a) = true).
    { apply Qle_bool_iff. rewrite <- Zle_Qle. exact Hge. }
    congruence.
  - intros Hlt. destruct (Qle_bool (inject_Z b) (inject_Z a)) eqn:E; [|reflexivity].
    apply Qle_bool_iff in E. rewrite <- Zle_Qle in E. lia.
Qed.

Lemma validatePagination_errors (p l : Z) :
  pg_errors (validatePagination (Some p) (Some l)) = [] ->
  1 <= p /\ 1 <= l <= 100.
Proof.
  unfold validatePagination, validateNumber.
  cbn [option_map n_min n_max integer pg_errors v_errors].
  unfold MIN_PAGE, MIN_LIMIT, MAX_LIMIT. intros H.
  apply app_eq_nil in H. destruct H as [H1 H2].
  apply app_eq_nil in H1. destruct H1 as [H1 _].
  apply app_eq_nil in H2. destruct H2 as [H2 H3].
  apply app_eq_nil in H3. destruct H3 as [H3 _].
  destruct (Js.Qltb (inject_Z p) (inject_Z 1)) eqn:E1; [discriminate|].
  destruct (Js.Qltb (inject_Z l) (inject_Z 1)) eqn:E2; [discriminate|].
  destruct (Js.Qltb (inject_Z 100) (inject_Z l)) eqn:E3; [discriminate|].
  assert (~ p < 1) by (rewrite <- Qltb_inject_lt; congruence).
  assert (~ l < 1) by (rewrite <- Qltb_inject_lt; congruence).
  assert (~ 100 < l) by (rewrite <- Qltb_inject_lt; congruence).
  lia.
Qed.

(** X21. [getAllEvents] succeeds only for a page of at least 1 and a limit
    between 1 and 100. *)
Theorem getAllEvents_rejects_out_of_range :
  forall (orderRows : string * string -> list Event -> list Event)
         (filters : Filters) (db : Db) (p l : Z),
    page filters = Some p ->
    limit filters = Some l ->
    isValid (getAllEvents orderRows filters db) = true ->
    1 <= p /\ 1 <= l <= 100.
Proof.
  intros orderRows filters db p l Hp Hl. unfold getAllEvents.
  rewrite Hp, Hl.
  destruct (pg_errors (validatePagination (Some p) (Some l))) eqn:E.
  - intros _. apply validatePagination_errors. exact E.
  - cbn. discriminate.
Qed.

Lemma getAllEvents_rejects_out_of_range_witness : 1 <= 2 /\ 1 <= 5 <= 100.
Proof.
  apply (getAllEvents_rejects_out_of_range (fun _ l => l) (Scenario.pageOf 2 5)
                                           Scenario.afterGala 2 5).
  - reflexivity.
  - reflexivity.
  - vm_compute. reflexivity.
Defined.

(** ** The invoice of an updated event *)

Import Derived.







(** ** What a listing contains *)

Lemma In_firstn_skipn {A} (n m : nat) (l : list A) (x : A) :
  In x (firstn n (skipn m l)) -> In x l.
Proof.
  intros H.
  assert (H1 : In x (skipn m l)).
  { rewrite <- (firstn_skipn n (skipn m l)). apply in_or_app. left. exact H. }
  rewrite <- (firstn_skipn m l). apply in_or_app. right. exact H1.
Qed.

Lemma idFilter_key (k : Z) (col : option Z) :
  0 < k -> idFilter (Some k) col = true -> col = Some k.
Proof.
  intros Hk. unfold idFilter, truthyId, Js.truthyZ, parseAndValidateId.
  destruct (k =? 0) eqn:E0; [apply Z.eqb_eq in E0; lia|]. cbn [negb].
  destruct (k <=? 0) eqn:E1; [apply Z.leb_le in E1; lia|].
  apply optEq_true.
Qed.

Lemma statusOfString_name (s : string) (st : EventStatus) :
  statusOfString s = Some st -> EventStatus_name st = s.
Proof.
  unfold statusOfString. intros H. apply find_some in H.
  destruct H as [_ H]. apply String.eqb_eq in H. exact H.
Qed.

(** X23. For a store order that yields only rows it was given, every
    event [getAllEvents] lists is a stored event that passes each filter of
    the request: it has the requested account, room and event type, the
    requested status, and a start within the requested dates; the count
    attached to it is the number of its bookings when bookings are asked
    for and 0 otherwise. *)
Theorem getAllEvents_lists_only_matching :
  forall (orderRows : string * string -> list Event -> list Event)
         (filters : Filters) (db : Db) (lst : Listing) (ev : Event) (n : nat),
    (forall o l x, In x (orderRows o l) -> In x l) ->
    data (getAllEvents orderRows filters db) = Some lst ->
    In (ev, n) (l_events lst) ->
    In ev (events db)
    /\ (forall a, f_account_id filters = Some a -> 0 < a -> ev_account_id ev = Some a)
    /\ (forall r, f_room_id filters = Some r -> 0 < r -> ev_room_id ev = Some r)
    /\ (forall t, f_event_type_id filters = Some t -> 0 < t
                  -> ev_event_type_id ev = Some t)
    /\ (forall s, f_status filters = Some s -> s <> ""
                  -> EventStatus_name (status ev) = s)
    /\ (forall lo, dateMin filters = Some lo
                   -> exists t, start_time ev = Some t /\ lo <= t)
    /\ (forall hi, dateMax filters = Some hi
                   -> exists t, start_time ev = Some t /\ t <= hi)
    /\ n = (if includeEventServices filters
            then List.length (eventServicesOf (event_id ev) db) else 0%nat).
Proof.
  intros orderRows filters db lst ev n Hord Hd Hin.
  unfold getAllEvents in Hd.
  destruct (negb (Nat.eqb (List.length (pg_errors _)) 0)); [discriminate|].
  destruct (match f_status filters with
            | Some s => if Js.truthyS s then option_map Some (statusOfString s)
                        else Some None
            | None => Some None
            end) as [st|] eqn:Hst; [|discriminate].
  destruct (MAX_SKIP <? _); [discriminate|].
  cbn [data createValidationResult] in Hd. inversion Hd; subst lst; clear Hd.
  cbn [l_events] in Hin. apply in_map_iff in Hin.
  destruct Hin as [x [Hx Hin]]. inversion Hx; subst x. clear Hx.
  apply In_firstn_skipn in Hin. apply Hord in Hin.
  apply filter_In in Hin. destruct Hin as [Hin Hw].
  unfold whereClause in Hw.
  repeat (apply andb_true_iff in Hw; destruct Hw as [Hw ?]).
  split; [exact Hin|].
  split.
  { intros a Ha Hpos. rewrite Ha in Hw. apply idFilter_key; assumption. }
  split.
  { intros r Hr Hpos.
    match goal with
    | Hf : idFilter (f_room_id filters) _ = true |- _ =>
        rewrite Hr in Hf; apply idFilter_key; assumption
    end. }
  split.
  { intros t Ht Hpos.
    match goal with
    | Hf : idFilter (f_event_type_id filters) _ = true |- _ =>
        rewrite Ht in Hf; apply idFilter_key; assumption
    end. }
  split.
  { intros s Hs Hne. rewrite Hs in Hst.
    destruct s as [|c s']; [congruence|]. cbn [Js.truthyS] in Hst.
    destruct (statusOfString (String c s')) as [st'|] eqn:Hn; [|discriminate].
    cbn in Hst. inversion Hst; subst st.
    match goal with
    | Hf : EventStatus_eqb (status ev) st' = true |- _ =>
        apply EventStatus_eqb_true in Hf; rewrite Hf
    end.
    apply statusOfString_name. exact Hn. }
  split.
  { intros lo Hlo.
    match goal with
    | Hf : match dateMin filters with _ => _ end = true |- _ =>
        rewrite Hlo in Hf; destruct (start_time ev) as [t|]; [|discriminate];
        exists t; split; [reflexivity|apply Z.leb_le; exact Hf]
    end. }
  split; [|reflexivity].
  intros hi Hhi.
  match goal with
  | Hf : match dateMax filters with _ => _ end = true |- _ =>
      rewrite Hhi in Hf; destruct (start_time ev) as [t|]; [|discriminate];
      exists t; split; [reflexivity|apply Z.leb_le; exact Hf]
  end.
Qed.

(** Of the workshop and the party, a request for account 5, room R, type
    3, status PENDING and hours 99 to 103 lists the workshop, which passes
    each of these filters. *)
Lemma getAllEvents_lists_only_matching_witness :
  data (getAllEvents (fun _ l => l) Cases.narrow Cases.typed)
  = Some (mkListing [(Cases.storedWorkshop, 0%nat)]
                    (mkPaginationMeta 1 20 1 1 false false))
  /\ List.length (events Cases.typed) = 2%nat
  /\ In Cases.storedWorkshop (events Cases.typed)
  /\ ev_account_id Cases.storedWorkshop = Some 5
  /\ ev_room_id Cases.storedWorkshop = Some 1
  /\ ev_event_type_id Cases.storedWorkshop = Some 3
  /\ EventStatus_name (status Cases.storedWorkshop) = "PENDING"
  /\ (exists t, start_time Cases.storedWorkshop = Some t /\ 99 * Scenario.hour <= t)
  /\ (exists t, start_time Cases.storedWorkshop = Some t /\ t <= 103 * Scenario.hour)
  /\ 0%nat = List.length (eventServicesOf 1 Cases.typed).
Proof.
  assert (Hd : data (getAllEvents (fun _ l => l) Cases.narrow Cases.typed)
               = Some (mkListing [(Cases.storedWorkshop, 0%nat)]
                                 (mkPaginationMeta 1 20 1 1 false false)))
    by (vm_compute; reflexivity).
  destruct (getAllEvents_lists_only_matching
              (fun _ l => l) Cases.narrow Cases.typed
              (mkListing [(Cases.storedWorkshop, 0%nat)]
                         (mkPaginationMeta 1 20 1 1 false false))
              Cases.storedWorkshop 0%nat)
    as [Hin [Ha [Hr [Ht [Hs [Hlo [Hhi Hn]]]]]]].
  - intros o l x H. exact H.
  - exact Hd.
  - simpl. left. reflexivity.
  - split; [exact Hd|]. split; [reflexivity|]. split; [exact Hin|].
    split; [apply Ha; [reflexivity|lia]|].
    split; [apply Hr; [reflexivity|lia]|].
    split; [apply Ht; [reflexivity|lia]|].
    split; [apply Hs; [reflexivity|discriminate]|].
    split; [apply Hlo; reflexivity|].
    split; [apply Hhi; reflexivity|].
    exact Hn.
Defined.

(** ** Rooms taken out of service *)

Import RoomAdmin.

Lemma setRoomActive_ok (b : bool) (roomId : Z) (db : Db) :
  isValid (fst (setRoomActive b roomId db)) = true ->
  exists room rows,
    Table.findBy room_id roomId (rooms db) = Some room
    /\ Table.updateBy room_id roomId (setActive b) (rooms db) = Some rows
    /\ setRoomActive b roomId db
       = (mkResult true [] (Some (setActive b room)), setRooms rows db).
Proof.
  unfold setRoomActive.
  destruct (Table.updateBy room_id roomId (setActive b) (rooms db)) as [rows|] eqn:Hu;
    [|discriminate].
  intros _.
  assert (Hf := Hu). apply updateBy_findBy in Hf; [|reflexivity].
  destruct (Table.findBy room_id roomId (rooms db)) as [room|] eqn:Hr.
  - exists room, rows. rewrite Hf. repeat split.
  - exfalso. clear Hf. revert rows Hu. unfold Table.findBy in Hr.
    induction (rooms db) as [|x l IH]; intros rows Hu; [discriminate|].
    cbn [find Table.updateBy] in Hr, Hu. destruct (room_id x =? roomId);
      [discriminate|].
    destruct (Table.updateBy room_id roomId (setActive b) l); [|discriminate].
    eapply IH; [exact Hr|reflexivity].
Qed.

(** X24. Once [deleteRoom] has succeeded for a room, no [createEvent] that
    names the room succeeds, while the room stays in the store with its
    bookings: the events table is untouched. *)
Theorem deleteRoom_blocks_createEvent :
  forall (now roomId : Z) (ed : EventData) (db : Db),
    isValid (fst (deleteRoom roomId db)) = true ->
    truthyId (d_room_id ed) = Some roomId ->
    isValid (fst (createEvent now ed (snd (deleteRoom roomId db)))) = false
    /\ events (snd (deleteRoom roomId db)) = events db
    /\ exists room,
         Table.findBy room_id roomId (rooms (snd (deleteRoom roomId db))) = Some room
         /\ room_is_active room = false.
Proof.
  intros now roomId ed db Hv Hroom. unfold deleteRoom in *.
  destruct (setRoomActive_ok false roomId db Hv) as [room [rows [Hf [Hu Heq]]]].
  rewrite Heq. cbn [snd].
  assert (Hnew : Table.findBy room_id roomId rows = Some (setActive false room)).
  { assert (H := Hu). apply updateBy_findBy in H; [|reflexivity].
    rewrite Hf in H. exact H. }
  split; [|split; [reflexivity|exists (setActive false room); split;
                                [exact Hnew|reflexivity]]].
  destruct (isValid (fst (createEvent now ed (setRooms rows db)))) eqn:Hc;
    [|reflexivity].
  exfalso.
  destruct (createEvent_valid_checks now ed _ Hc) as [ck Hck].
  destruct (createChecks_ok ed _ _ ck Hck) as [_ [Hr [Hfind _]]].
  destruct (createChecks_guards ed _ _ ck Hck) as [_ [Ha _]].
  rewrite Hroom in Hr. inversion Hr as [Hk].
  cbn [rooms setRooms] in Hfind. rewrite <- Hk, Hnew in Hfind.
  inversion Hfind as [Hck']. rewrite <- Hck' in Ha. discriminate.
Qed.

Lemma deleteRoom_blocks_createEvent_witness :
  isValid (fst (createEvent 777 (Scenario.window "Gala" 10 12)
                            (snd (deleteRoom 1 Scenario.emptyStore)))) = false
  /\ events (snd (deleteRoom 1 Scenario.emptyStore)) = events Scenario.emptyStore
  /\ exists room,
       Table.findBy room_id 1 (rooms (snd (deleteRoom 1 Scenario.emptyStore)))
       = Some room
       /\ room_is_active room = false.
Proof.
  apply (deleteRoom_blocks_createEvent 777 1 (Scenario.window "Gala" 10 12)
                                       Scenario.emptyStore).
  - reflexivity.
  - reflexivity.
Defined.

Lemma setRooms_same (db : Db) : setRooms (rooms db) db = db.
Proof. destruct db; reflexivity. Qed.



(** X26. The four counts of [getRoomStatistics] add up to its total: every
    room is counted under exactly one status. *)
Theorem getRoomStatistics_partition :
  forall (db : Db),
    exists st,
      getRoomStatistics db = mkResult true [] (Some st)
      /\ st_total st = List.length (rooms db)
      /\ st_total st
         = (st_available st + st_occupied st + st_maintenance st + st_reserved st)%nat.
Proof.
  intros db. eexists. split; [reflexivity|].
  cbn [st_total st_available st_occupied st_maintenance st_reserved].
  split; [reflexivity|]. unfold countStatus.
  induction (rooms db) as [|r l IH]; [reflexivity|].
  cbn [List.length filter]. destruct (room_status r); cbn [RoomStatus_eqb List.length]; lia.
Qed.

(** ** Sanitizing text *)

Lemma length_string_of_list (l : list ascii) :
  String.length (string_of_list_ascii l) = List.length l.
Proof. induction l as [|c l IH]; [reflexivity|]. cbn. rewrite IH. reflexivity. Qed.

Lemma length_list_of_string (s : string) :
  List.length (list_ascii_of_string s) = String.length s.
Proof. induction s as [|c s IH]; [reflexivity|]. cbn. rewrite IH. reflexivity. Qed.

(** X27. The text [sanitizeInput] returns holds none of the characters
    [<], [>], double quote, single quote and [&] (codes 60, 62, 34, 39 and
    38), is no longer than the trimmed input, and is the trimmed input
    itself when that holds none of them. *)
Theorem sanitizeInput_strips_markup :
  forall (s : string),
    (forall c, In c (list_ascii_of_string (sanitizeInput s)) ->
               ~ In (nat_of_ascii c) [60; 62; 34; 39; 38]%nat)
    /\ (String.length (sanitizeInput s) <= String.length (Js.trim s))%nat
    /\ ((forall c, In c (list_ascii_of_string (Js.trim s)) ->
                   ~ In (nat_of_ascii c) [60; 62; 34; 39; 38]%nat)
        -> sanitizeInput s = Js.trim s).
Proof.
  intros s. unfold sanitizeInput. split; [|split].
  - intros c. rewrite list_ascii_of_string_of_list_ascii.
    intros Hin Hbad. apply filter_In in Hin. destruct Hin as [_ Hok].
    apply negb_true_iff in Hok.
    assert (Ht : existsb (Nat.eqb (nat_of_ascii c)) [60; 62; 34; 39; 38]%nat = true).
    { apply existsb_exists. exists (nat_of_ascii c). split; [exact Hbad|].
      apply Nat.eqb_refl. }
    congruence.
  - rewrite length_string_of_list, <- length_list_of_string. apply filter_length_le.
  - intros Hclean. rewrite filter_all_true.
    + apply string_of_list_ascii_of_string.
    + intros c Hin. apply negb_true_iff.
      destruct (existsb (Nat.eqb (nat_of_ascii c)) [60; 62; 34; 39; 38]%nat) eqn:E;
        [|reflexivity].
      exfalso. apply existsb_exists in E. destruct E as [n [Hn Heq]].
      apply Nat.eqb_eq in Heq. subst n. exact (Hclean c Hin Hn).
Qed.

(** ** Booking a service for a stored event *)

Import Booking.

Lemma toInt_ge_1 (q : Q) : Js.Qltb q (inject_Z 1) = false -> 1 <= toInt q.
Proof.
  unfold Js.Qltb. rewrite negb_false_iff. intros H. apply Qle_bool_iff in H.
  unfold Qle in H. cbn in H. unfold toInt.
  apply Z.div_le_lower_bound; lia.
Qed.

Lemma quantity_valid (sd : ServiceData) :
  validateEventServiceData sd = [] ->
  1 <= match sd_quantity sd with Some q => toInt q | None => 1 end.
Proof.
  unfold validateEventServiceData. intros H.
  apply app_eq_nil in H. destruct H as [H _].
  destruct (sd_quantity sd) as [q|]; [|lia].
  unfold validateNumber in H. cbn [n_min n_max integer v_errors] in H.
  apply app_eq_nil in H. destruct H as [H _].
  destruct (Js.Qltb q (inject_Z 1)) eqn:E; [discriminate|].
  apply toInt_ge_1. exact E.
Qed.

Lemma toInt_le_max (q : Q) : fitsInt q = true -> toInt q <= MAX_INT.
Proof.
  unfold fitsInt. intros H. apply andb_true_iff in H. destruct H as [_ H].
  apply Qle_bool_iff in H. apply Qfloor_resp_le in H. rewrite Qfloor_Z in H.
  destruct q as [n d]. exact H.
Qed.

(** The confirmation notice of a booking writes the notifications table
    only; it is stored when the caller's account is in the store and the
    message has at most 1000 characters, and only for a stored account. *)
Lemma createNotification_booked (a : Z) (m : string) (now : Z) (db : Db) :
  Js.truthyZ a = true ->
  Js.truthyS m = true ->
  let db' := snd (createNotification (Some a) "Service Booked" m "CONFIRMATION"
                                     now db) in
  let sent :=
    notifications db'
    = (notifications db
       ++ [mkNotification (Table.nextId notification_id (notifications db))
                          "Service Booked" (Js.trim m) false "CONFIRMATION" now
                          (Some a)])%list in
  db' = Table.setNotifications (notifications db') db
  /\ (notifications db' = notifications db \/ sent)
  /\ (sent -> exists acc, Table.findBy account_id a (accounts db) = Some acc)
  /\ (forall acc, Table.findBy account_id a (accounts db) = Some acc ->
                  (String.length (Js.trim m) <= 1000)%nat -> sent).
Proof.
  intros Ha Hm. unfold createNotification.
  change (v_errors (validateString (Some "Service Booked") "Notification title"
                      (mkStringConfig true None (Some 255%nat) true)))
    with (@nil string).
  change (v_errors (validateEnum "CONFIRMATION" "Notification type"
                      VALID_NOTIFICATION_TYPES true))
    with (@nil string).
  change (Js.includes NotificationType "CONFIRMATION") with true.
  change (Js.trim "Service Booked") with "Service Booked".
  cbn [negb app truthyId]. rewrite Ha, app_nil_r.
  unfold validateString.
  cbn [s_required minLength maxLength sanitize andb Js.truthyOS negb].
  rewrite Hm. cbn [negb app v_errors].
  assert (Hself : forall l, l <> (l ++ [mkNotification
                                          (Table.nextId notification_id l)
                                          "Service Booked" (Js.trim m) false
                                          "CONFIRMATION" now (Some a)])%list).
  { intros l H. apply (f_equal (@List.length _)) in H.
    rewrite length_app in H. cbn in H. lia. }
  destruct (Nat.ltb 1000 (String.length (Js.trim m))) eqn:Hlen;
    cbn [List.length Nat.eqb negb snd app].
  - split; [destruct db; reflexivity|]. split; [left; reflexivity|].
    split.
    + intros H. exfalso. exact (Hself _ H).
    + intros acc _ Hshort. apply Nat.ltb_lt in Hlen. lia.
  - destruct (Table.findBy account_id a (accounts db)) as [acc|] eqn:Hacc;
      cbn [snd notifications Table.setNotifications].
    + split; [destruct db; reflexivity|]. split; [right; reflexivity|].
      split; [intros _; exists acc; reflexivity|].
      intros; reflexivity.
    + split; [destruct db; reflexivity|]. split; [left; reflexivity|].
      split; [|intros; discriminate].
      intros H. exfalso. exact (Hself _ H).
Qed.

Lemma createEventService_row (sd : ServiceData) (user : option User) (now : Z)
      (db : Db) :
  isValid (fst (createEventService sd user now db)) = true ->
  exists ev service row,
    sd_event_id sd = Some (event_id ev)
    /\ Table.findBy event_id (event_id ev) (events db) = Some ev
    /\ status ev <> CANCELLED
    /\ sd_service_id sd = Some (service_id service)
    /\ Table.findBy service_id (service_id service) (services db) = Some service
    /\ service_is_active service = true
    /\ (forall v, truthyId (sd_variation_id sd) = Some v ->
          exists variation,
            Table.findBy variation_id v (variations db) = Some variation
            /\ var_is_active variation = true
            /\ var_service_id variation = service_id service)
    /\ event_service_id row = Table.nextId event_service_id (eventServices db)
    /\ es_event_id row = event_id ev
    /\ es_service_id row = service_id service
    /\ es_variation_id row = truthyId (sd_variation_id sd)
    /\ 1 <= quantity row <= MAX_INT
    /\ createEventService sd user now db
       = (mkResult true [] (Some row),
          let db1 := Table.setEventServices (eventServices db ++ [row])%list db in
          match user with
          | Some u =>
              if Js.truthyZ (user_account_id u) then
                snd (createNotification
                       (Some (user_account_id u)) "Service Booked"
                       (bookedMessage (service_name service) (event_name ev))
                       "CONFIRMATION" now db1)
              else db1
          | None => db1
          end).
Proof.
  unfold createEventService.
  destruct (validateEventServiceData sd) as [|e errs] eqn:Hval; [|discriminate].
  cbn [List.length Nat.eqb negb].
  destruct (sd_event_id sd) as [eventId|] eqn:He; [|discriminate].
  destruct (sd_service_id sd) as [serviceId|] eqn:Hs; [|discriminate].
  destruct (Table.findBy event_id eventId (events db)) as [ev|] eqn:Hev;
    [|discriminate].
  destruct (EventStatus_eqb (status ev) CANCELLED) eqn:Hc; [discriminate|].
  destruct (Table.findBy service_id serviceId (services db)) as [service|] eqn:Hsv;
    [|discriminate].
  destruct (service_is_active service) eqn:Hact; cbn [negb]; [|discriminate].
  pose proof (proj2 (findBy_Some _ _ _ _ Hev)) as Hk1.
  pose proof (proj2 (findBy_Some _ _ _ _ Hsv)) as Hk2.
  match goal with
  | |- context [match ?vc with Some errs => _ | None => _ end] =>
      destruct vc as [errs|] eqn:Hvc
  end.
  { intros H. exfalso. revert H Hvc. cbn [fst isValid createValidationResult].
    discriminate. }
  destruct (match sd_quantity sd with Some q => fitsInt q | None => true end)
    eqn:Hq; cbn [negb]; [|discriminate].
  destruct (match truthyNum (sd_duration_hours sd) with
            | Some d => fitsInt d
            | None => true
            end) eqn:Hd; cbn [negb]; [|discriminate].
  intros _. exists ev, service.
  exists (mkEventService
            (Table.nextId event_service_id (eventServices db))
            eventId serviceId (truthyId (sd_variation_id sd))
            (match sd_quantity sd with Some q => toInt q | None => 1 end)
            (truthyNum (sd_custom_price sd)) (trimOrNull (sd_notes sd))
            (match sd_status sd with Some s => s | None => "CONFIRMED" end)
            (sd_scheduled_time sd)
            (option_map truncate (truthyNum (sd_duration_hours sd)))).
  rewrite Hk1, Hk2.
  split; [reflexivity|]. split; [exact Hev|].
  split; [intros Hst; rewrite Hst in Hc; discriminate|].
  split; [reflexivity|]. split; [exact Hsv|]. split; [exact Hact|].
  split.
  { intros v Hv. rewrite Hv in Hvc.
    destruct (Table.findBy variation_id v (variations db)) as [variation|];
      [|discriminate].
    destruct (var_is_active variation && (var_service_id variation =? serviceId))%bool
      eqn:Hb; cbn [negb] in Hvc; [|discriminate].
    apply andb_true_iff in Hb. destruct Hb as [Hb1 Hb2]. apply Z.eqb_eq in Hb2.
    exists variation. repeat split; assumption. }
  cbn [event_service_id es_event_id es_service_id es_variation_id quantity].
  split; [reflexivity|]. split; [reflexivity|]. split; [reflexivity|].
  split; [reflexivity|].
  split; [|reflexivity].
  split; [exact (quantity_valid sd Hval)|].
  destruct (sd_quantity sd) as [q|]; [apply toInt_le_max; exact Hq|].
  unfold MAX_INT. lia.
Qed.

Lemma bookedMessage_truthy (a b : string) : Js.truthyS (bookedMessage a b) = true.
Proof. reflexivity. Qed.

(** X28. A successful [createEventService] books for a stored event that
    is not CANCELLED an active service of the store and, when a variation
    is named, an active variation of that service.  It appends one booking
    under a fresh key, for a quantity from 1 to 2147483647.  Beside the
    booking it writes at most one row, in the notifications table: the
    unread CONFIRMATION notice titled Service Booked, for the account of
    the caller, which is then in the store; the notice is written when the
    caller's account is in the store and the message has at most 1000
    characters, and is not when there is no caller.  Every other table,
    the events, invoices and invoice lines among them, stays as it was. *)
Theorem createEventService_books_valid_pair :
  forall (sd : ServiceData) (user : option User) (now : Z) (db : Db),
    isValid (fst (createEventService sd user now db)) = true ->
    exists ev service row,
      sd_event_id sd = Some (event_id ev)
      /\ Table.findBy event_id (event_id ev) (events db) = Some ev
      /\ status ev <> CANCELLED
      /\ sd_service_id sd = Some (service_id service)
      /\ Table.findBy service_id (service_id service) (services db) = Some service
      /\ service_is_active service = true
      /\ (forall v, truthyId (sd_variation_id sd) = Some v ->
            exists variation,
              Table.findBy variation_id v (variations db) = Some variation
              /\ var_is_active variation = true
              /\ var_service_id variation = service_id service)
      /\ data (fst (createEventService sd user now db)) = Some row
      /\ Table.setNotifications (notifications db)
                                (snd (createEventService sd user now db))
         = Table.setEventServices (eventServices db ++ [row])%list db
      /\ Table.findBy event_service_id (event_service_id row) (eventServices db)
         = None
      /\ es_event_id row = event_id ev
      /\ es_service_id row = service_id service
      /\ es_variation_id row = truthyId (sd_variation_id sd)
      /\ 1 <= quantity row <= 2147483647
      /\ (notifications (snd (createEventService sd user now db)) = notifications db
          \/ exists u acc n,
               user = Some u
               /\ Table.findBy account_id (user_account_id u) (accounts db) = Some acc
               /\ notifications (snd (createEventService sd user now db))
                  = (notifications db ++ [n])%list
               /\ Derived.confirmationFor (user_account_id u) (service_name service)
                                          (event_name ev) now n)
      /\ (user = None
          -> notifications (snd (createEventService sd user now db))
             = notifications db)
      /\ (forall u acc,
             user = Some u ->
             user_account_id u <> 0 ->
             Table.findBy account_id (user_account_id u) (accounts db) = Some acc ->
             (String.length
                (Js.trim (bookedMessage (service_name service) (event_name ev)))
              <= 1000)%nat ->
             exists n,
               notifications (snd (createEventService sd user now db))
               = (notifications db ++ [n])%list
               /\ Derived.confirmationFor (user_account_id u) (service_name service)
                                          (event_name ev) now n).
Proof.
  intros sd user now db Hv.
  destruct (createEventService_row sd user now db Hv)
    as [ev [service [row [H1 [H2 [H3 [H4 [H5 [H6 [H7 [Hid [H8 [H9 [H10 [Hq Heq]]]]]]]]]]]]]]].
  exists ev, service, row. rewrite Heq. cbn [fst snd data]. cbv zeta.
  set (db1 := Table.setEventServices (eventServices db ++ [row])%list db).
  split; [exact H1|]. split; [exact H2|]. split; [exact H3|].
  split; [exact H4|]. split; [exact H5|]. split; [exact H6|].
  split; [exact H7|]. split; [reflexivity|].
  assert (Hfresh : Table.findBy event_service_id (event_service_id row)
                                (eventServices db) = None)
    by (rewrite Hid; apply findBy_nextId).
  assert (Hdb1 : Table.setNotifications (notifications db) db1 = db1)
    by (subst db1; destruct db; reflexivity).
  destruct user as [u|].
  - destruct (Js.truthyZ (user_account_id u)) eqn:Hu.
    + pose proof (createNotification_booked
                    (user_account_id u)
                    (bookedMessage (service_name service) (event_name ev))
                    now db1 Hu (bookedMessage_truthy _ _)) as Hn.
      cbv zeta in Hn. destruct Hn as [Hframe [Hor [Honly Hif]]].
      change (notifications db1) with (notifications db) in Hor, Honly, Hif.
      change (accounts db1) with (accounts db) in Honly, Hif.
      split.
      { rewrite Hframe. subst db1. destruct db; reflexivity. }
      split; [exact Hfresh|]. split; [exact H8|]. split; [exact H9|].
      split; [exact H10|]. split; [exact Hq|].
      split.
      { destruct Hor as [Hsame|Hsent]; [left; exact Hsame|right].
        destruct (Honly Hsent) as [acc Hacc].
        exists u, acc. eexists. split; [reflexivity|]. split; [exact Hacc|].
        split; [exact Hsent|]. repeat split. }
      split; [discriminate|].
      intros u' acc Hu' _ Hacc Hshort. inversion Hu'; subst u'.
      eexists. split; [exact (Hif acc Hacc Hshort)|]. repeat split.
    + split; [exact Hdb1|].
      split; [exact Hfresh|]. split; [exact H8|]. split; [exact H9|].
      split; [exact H10|]. split; [exact Hq|].
      split; [left; reflexivity|]. split; [reflexivity|].
      intros u' acc Hu' Hnz. inversion Hu'; subst u'.
      unfold Js.truthyZ in Hu. apply negb_false_iff in Hu. apply Z.eqb_eq in Hu.
      contradiction.
  - split; [exact Hdb1|].
    split; [exact Hfresh|]. split; [exact H8|]. split; [exact H9|].
    split; [exact H10|]. split; [exact Hq|].
    split; [left; reflexivity|]. split; [reflexivity|].
    intros u acc Hu. discriminate.
Qed.

(** Account 5 books three units of variation V for its party: the
    booking has key 1 and the notice of it is the first in the store. *)
Lemma createEventService_books_valid_pair_witness :
  sd_event_id Cases.extraBooking = Some 1
  /\ map event_service_id
         (eventServices
            (snd (createEventService Cases.extraBooking (Some Cases.owner) 900
                                     Cases.owned)))
     = [1]
  /\ notifications
       (snd (createEventService Cases.extraBooking (Some Cases.owner) 900
                                Cases.owned))
     = [mkNotification 1 "Service Booked" (bookedMessage "Banquet" "Party") false
                       "CONFIRMATION" 900 (Some 5)]
  /\ events (snd (createEventService Cases.extraBooking (Some Cases.owner) 900
                                     Cases.owned))
     = events Cases.owned
  /\ invoices (snd (createEventService Cases.extraBooking (Some Cases.owner) 900
                                       Cases.owned))
     = invoices Cases.owned.
Proof.
  destruct (createEventService_books_valid_pair
              Cases.extraBooking (Some Cases.owner) 900 Cases.owned)
    as [ev [service [row [He [Hev [_ [_ [Hsv [_ [_ [Hrow [Hrest [_ [_ [_ [_ [_ [_ [_ Hsent]]]]]]]]]]]]]]]]]]].
  - vm_compute. reflexivity.
  - split; [reflexivity|].
    assert (Hes : eventServices
                    (snd (createEventService Cases.extraBooking (Some Cases.owner)
                                             900 Cases.owned))
                  = (eventServices Cases.owned ++ [row])%list).
    { change (eventServices
                (snd (createEventService Cases.extraBooking (Some Cases.owner)
                                         900 Cases.owned)))
        with (eventServices
                (Table.setNotifications
                   (notifications Cases.owned)
                   (snd (createEventService Cases.extraBooking (Some Cases.owner)
                                            900 Cases.owned)))).
      rewrite Hrest. reflexivity. }
    split.
    { rewrite Hes. vm_compute in Hrow. inversion Hrow. vm_compute. reflexivity. }
    split.
    { vm_compute. reflexivity. }
    split.
    { change (events
                (snd (createEventService Cases.extraBooking (Some Cases.owner)
                                         900 Cases.owned)))
        with (events
                (Table.setNotifications
                   (notifications Cases.owned)
                   (snd (createEventService Cases.extraBooking (Some Cases.owner)
                                            900 Cases.owned)))).
      rewrite Hrest. reflexivity. }
    change (invoices
              (snd (createEventService Cases.extraBooking (Some Cases.owner)
                                       900 Cases.owned)))
      with (invoices
              (Table.setNotifications
                 (notifications Cases.owned)
                 (snd (createEventService Cases.extraBooking (Some Cases.owner)
                                          900 Cases.owned)))).
    rewrite Hrest. reflexivity.
Defined.

(** X29. [deleteEventService] undoes the booking of [createEventService]:
    deleting the booking a successful [createEventService] handed back
    succeeds and gives back every table but the notifications, which keep
    the notice of the booking when one was written; for a call without a
    caller the store is the one before the booking. *)
Theorem deleteEventService_undoes_createEventService :
  forall (sd : ServiceData) (user : option User) (now : Z) (db : Db)
         (row : EventService),
    data (fst (createEventService sd user now db)) = Some row ->
    deleteEventService (event_service_id row)
                       (snd (createEventService sd user now db))
    = (mkResult true [] (Some (event_service_id row)),
       Table.setNotifications
         (notifications (snd (createEventService sd user now db))) db)
    /\ (user = None ->
        snd (deleteEventService (event_service_id row)
                                (snd (createEventService sd user now db)))
        = db).
Proof.
  intros sd user now db row Hd.
  assert (Hv : isValid (fst (createEventService sd user now db)) = true).
  { destruct (isValid (fst (createEventService sd user now db))) eqn:E;
      [reflexivity|].
    exfalso. revert E Hd. unfold createEventService.
    repeat match goal with
           | |- context [match ?x with _ => _ end] =>
               lazymatch x with
               | context [match _ with _ => _ end] => fail
               | _ => destruct x
               end
           end; cbn; try discriminate; unfold handleError; cbn; discriminate. }
  destruct (createEventService_row sd user now db Hv)
    as [ev [service [row' [_ [_ [_ [_ [_ [_ [_ [Hid [_ [_ [_ [_ Heq]]]]]]]]]]]]]]].
  rewrite Heq in Hd |- *. cbn [fst snd data] in Hd |- *. cbv zeta.
  inversion Hd; subst row'. clear Hd.
  set (db1 := Table.setEventServices (eventServices db ++ [row])%list db).
  assert (Hpos : 0 < event_service_id row).
  { rewrite Hid. unfold Table.nextId.
    assert (0 <= fold_right Z.max 0 (map event_service_id (eventServices db))).
    { induction (map event_service_id (eventServices db)); cbn; lia. }
    lia. }
  assert (Hold : forall r, In r (eventServices db)
                           -> (event_service_id r =? event_service_id row) = false).
  { intros r Hin. apply Z.eqb_neq. rewrite Hid.
    pose proof (key_lt_nextId event_service_id _ r Hin). lia. }
  assert (Hdel : forall ns,
             deleteEventService (event_service_id row)
                                (Table.setNotifications ns db1)
             = (mkResult true [] (Some (event_service_id row)),
                Table.setNotifications ns db)).
  { intros ns. unfold deleteEventService, parseAndValidateId.
    destruct (event_service_id row <=? 0) eqn:Hle; [apply Z.leb_le in Hle; lia|].
    subst db1. cbn [eventServices Table.setEventServices Table.setNotifications].
    unfold Table.findBy.
    rewrite (find_app_fresh _ _ _ Hold), Z.eqb_refl.
    f_equal. rewrite filter_app. cbn [filter]. rewrite Z.eqb_refl. cbn [negb].
    rewrite app_nil_r, filter_all_true.
    - destruct db; reflexivity.
    - intros r Hin. rewrite (Hold r Hin). reflexivity. }
  assert (Hdb1 : db1 = Table.setNotifications (notifications db) db1)
    by (subst db1; destruct db; reflexivity).
  assert (Hdb : Table.setNotifications (notifications db) db = db)
    by (destruct db; reflexivity).
  destruct user as [u|].
  - split; [|discriminate].
    destruct (Js.truthyZ (user_account_id u)) eqn:Hu.
    + pose proof (createNotification_booked
                    (user_account_id u)
                    (bookedMessage (service_name service) (event_name ev))
                    now db1 Hu (bookedMessage_truthy _ _)) as Hn.
      cbv zeta in Hn. destruct Hn as [Hframe _].
      rewrite Hframe at 1. rewrite Hdel. reflexivity.
    + rewrite Hdb1 at 1. rewrite Hdel. reflexivity.
  - split.
    + rewrite Hdb1 at 1. rewrite Hdel. reflexivity.
    + intros _. rewrite Hdb1. rewrite Hdel. cbn [snd]. exact Hdb.
Qed.

(** Deleting the booking account 5 made for its party gives the store
    back with the notice of the booking in it. *)
Lemma deleteEventService_undoes_createEventService_witness :
  deleteEventService
    1 (snd (createEventService Cases.extraBooking (Some Cases.owner) 900 Cases.owned))
  = (mkResult true [] (Some 1),
     Table.setNotifications
       [mkNotification 1 "Service Booked" (bookedMessage "Banquet" "Party") false
                       "CONFIRMATION" 900 (Some 5)]
       Cases.owned)
  /\ eventServices Cases.owned = [].
Proof.
  destruct (deleteEventService_undoes_createEventService
              Cases.extraBooking (Some Cases.owner) 900 Cases.owned
              (mkEventService 1 1 1 (Some 1) 3 (Some (250000 # 1)) (Some "late")
                              "CONFIRMED" None None))
    as [Hdel _].
  - vm_compute. reflexivity.
  - split; [|reflexivity].
    cbn [event_service_id] in Hdel. rewrite Hdel. f_equal.
Defined.

(** ** The account of a new event *)

(** X30. An event [createEventController] answers 201 for is filed under
    the account the body names or, when the body names none, under the
    account of the authenticated caller; that account is in the store. *)
Theorem createEventController_account :
  forall (now : Z) (req : Request) (db : Db),
    statusCode (fst (createEventController now req db)) = 201 ->
    exists ev,
      Table.findBy event_id (Table.nextId event_id (events db))
                   (events (snd (createEventController now req db)))
      = Some ev
      /\ ev_account_id ev
         = match truthyId (d_account_id (body req)) with
           | Some b => Some b
           | None => truthyId (user_account req)
           end
      /\ forall a, ev_account_id ev = Some a ->
                   exists acc, Table.findBy account_id a (accounts db) = Some acc.
Proof.
  intros now req db. unfold createEventController.
  set (ed := match user_account req, truthyId (d_account_id (body req)) with
             | Some a, None =>
                 if Js.truthyZ a then _ else body req
             | _, _ => body req
             end).
  assert (Hacc : truthyId (d_account_id ed)
                 = match truthyId (d_account_id (body req)) with
                   | Some b => Some b
                   | None => truthyId (user_account req)
                   end).
  { subst ed. destruct (user_account req) as [a|].
    - destruct (truthyId (d_account_id (body req))) as [b|] eqn:Hb; [exact Hb|].
      cbn [truthyId]. destruct (Js.truthyZ a) eqn:Ha.
      + cbn [d_account_id truthyId]. rewrite Ha. reflexivity.
      + exact Hb.
    - destruct (truthyId (d_account_id (body req))); reflexivity. }
  destruct (createEvent now ed db) as [result db1] eqn:Hc.
  destruct (isValid result) eqn:Hv; [|discriminate].
  assert (Hv' : isValid (fst (createEvent now ed db)) = true)
    by (rewrite Hc; exact Hv).
  destruct (createEvent_rows now ed db Hv') as [ck [Hck Hw]].
  rewrite Hc in Hw. cbn [fst snd] in Hw.
  destruct (createChecks_guards ed db db ck Hck) as [_ [_ [_ [Hknown _]]]].
  apply createWrites_rows in Hw.
  destruct Hw as [n [st [day [_ [_ Hw]]]]]. cbv zeta in Hw.
  destruct Hw as [Hr [Hevs _]].
  set (E := mkEvent (Table.nextId event_id (events db)) (Js.trim n)
                    (trimOrNull (d_description ed)) (d_start_time ed)
                    (d_end_time ed) day
                    (Some (Js.orQ (d_estimated_cost ed) 0
                           + roomCost (ck_room ck) (ck_durationHours ck))%Q)
                    (truthyNum (d_final_cost ed))
                    (truthyNum (d_room_service_fee ed)) st
                    (truthyId (d_account_id ed)) (truthyId (d_room_id ed))
                    (truthyId (d_event_type_id ed))) in *.
  rewrite Hr. cbn [data createValidationResult].
  assert (Hold : forall r, In r (events db)
                           -> (event_id r =? Table.nextId event_id (events db)) = false).
  { intros r Hin. apply Z.eqb_neq.
    pose proof (key_lt_nextId event_id _ _ Hin). lia. }
  assert (HfindE : Table.findBy event_id (Table.nextId event_id (events db))
                                (events db1) = Some E).
  { rewrite Hevs. unfold Table.findBy. rewrite find_app_fresh by exact Hold.
    cbn [E event_id]. rewrite Z.eqb_refl. reflexivity. }
  assert (Hknown' : forall a, ev_account_id E = Some a ->
                      exists acc, Table.findBy account_id a (accounts db) = Some acc).
  { intros a Ha. cbn [E ev_account_id] in Ha. apply Hknown.
    exact Ha. }
  destruct (service_variants req) as [|item rest].
  - intros _. exists E. cbn [snd]. split; [exact HfindE|].
    split; [exact Hacc|exact Hknown'].
  - unfold transaction.
    match goal with
    | |- context [bookServicesTx ?ne ?items db1] =>
        destruct (bookServicesTx ne items db1) as [m db2|msg] eqn:Hb
    end; [|discriminate].
    intros _. cbn [snd].
    unfold bookServicesTx in Hb. unfold bind at 1 in Hb.
    match type of Hb with
    | context [bookVariants ?ne ?items db1] =>
        destruct (bookVariants ne items db1) as [k dbv|] eqn:Hbv; [|discriminate]
    end.
    apply bookVariants_ok in Hbv. destruct Hbv as [_ [Hev2 _]].
    destruct (Nat.ltb 0 k).
    + unfold bind, query, ret in Hb. cbn [ce_event event_id E] in Hb.
      fold E in Hb.
      match type of Hb with
      | context [Table.updateBy event_id ?key ?f (events dbv)] =>
          destruct (Table.updateBy event_id key f (events dbv)) as [rows|] eqn:Hu;
          [|discriminate];
          assert (Hf := Hu); apply updateBy_findBy in Hf; [|reflexivity]
      end.
      inversion Hb; subst m db2. clear Hb.
      cbn [events Table.setEvents]. rewrite Hev2, HfindE in Hf.
      eexists. split; [exact Hf|].
      cbn [setEstimatedCost ev_account_id]. split; [exact Hacc|exact Hknown'].
    + unfold bind, ret in Hb. inversion Hb; subst m db2. clear Hb.
      exists E. rewrite Hev2. split; [exact HfindE|].
      split; [exact Hacc|exact Hknown'].
Qed.

(** The party booked by the caller of account 5 belongs to account 5. *)
Lemma createEventController_account_witness :
  exists ev,
    Table.findBy event_id (Table.nextId event_id (events Cases.members))
      (events (snd (createEventController 0
                      (mkRequest (Scenario.window "Party" 100 102) [] (Some 5))
                      Cases.members)))
    = Some ev
    /\ ev_account_id ev
       = match truthyId (d_account_id
                           (body (mkRequest (Scenario.window "Party" 100 102) []
                                            (Some 5)))) with
         | Some b => Some b
         | None =>
             truthyId (user_account (mkRequest (Scenario.window "Party" 100 102) []
                                               (Some 5)))
         end
    /\ forall a, ev_account_id ev = Some a ->
                 exists acc, Table.findBy account_id a (accounts Cases.members)
                             = Some acc.
Proof.
  apply (createEventController_account 0
           (mkRequest (Scenario.window "Party" 100 102) [] (Some 5)) Cases.members).
  vm_compute. reflexivity.
Defined.
